(** * TinyReflowController: the control loop of the reflow oven firmware

    A shallow embedding of [src/TinyReflowController.cpp] (built with
    [VERSION == 2], the ATmega328P board) and the properties of its process
    sequencer, its switch debounce machine, its thermocouple fault handling
    and its time-proportioning relay output.

    The firmware is one [setup()] followed by an endless repetition of
    [loop()], all over global variables.  The globals and the output pins are
    the fields of [State]; everything one pass of [loop()] reads from outside
    (the millisecond clock at each of its call sites, the thermocouple, the
    two switch pins, the result of the PID library) is a field of [Env].  One
    pass is then the pure function [loop : State -> Env -> State], written as
    the sequence of the blocks of the source, in their order. *)

From Stdlib Require Import ZArith QArith Bool List Lia Lqa.
From Stdlib Require String.
Import ListNotations.

Local Open Scope Z_scope.

(** ** Machine arithmetic of the target (avr-gcc)

    [unsigned long] is 32 bits, [unsigned int] 16 bits, [unsigned char] 8
    bits; unsigned arithmetic wraps around. [long] is 32 bits, two's
    complement. *)

Definition u32 (x : Z) : Z := x mod 2 ^ 32.
Definition u16 (x : Z) : Z := x mod 2 ^ 16.
Definition u8 (x : Z) : Z := x mod 2 ^ 8.

(** Conversion of an [unsigned long] value to [long], as gcc does it:
    reduction modulo 2^32 into the signed range. *)
Definition to_long (x : Z) : Z := (x + 2 ^ 31) mod 2 ^ 32 - 2 ^ 31.

(** The C++ type [double] of the temperatures, of the set point and of the
    PID output is held as an exact rational.  The thermocouple driver returns
    a multiple of 1/128 degree, the set points of the program are small
    integers, and every comparison of the program is against an integer, so
    no rounding takes part in what is proved below. *)
Definition Qgeb (x y : Q) : bool := Qle_bool y x.
Definition Qleb (x y : Q) : bool := Qle_bool x y.
Definition Qgtb (x y : Q) : bool := negb (Qle_bool x y).
Definition Qltb (x y : Q) : bool := negb (Qle_bool y x).

(** ** Type definitions (source lines 145-184) *)

Inductive reflowState_t : Type :=
| REFLOW_STATE_IDLE
| REFLOW_STATE_PREHEAT
| REFLOW_STATE_SOAK
| REFLOW_STATE_REFLOW
| REFLOW_STATE_COOL
| REFLOW_STATE_COMPLETE
| REFLOW_STATE_TOO_HOT
| REFLOW_STATE_ERROR
| REFLOW_STATE_BAKE.

Inductive reflowStatus_t : Type :=
| REFLOW_STATUS_OFF
| REFLOW_STATUS_ON.

Inductive switch_t : Type :=
| SWITCH_NONE
| SWITCH_1
| SWITCH_2.

Inductive debounceState_t : Type :=
| DEBOUNCE_STATE_IDLE
| DEBOUNCE_STATE_CHECK
| DEBOUNCE_STATE_RELEASE.

Inductive reflowProfile_t : Type :=
| REFLOW_PROFILE_LEADFREE
| REFLOW_PROFILE_LEADED
| REFLOW_PROFILE_BAKE.

Definition switch_eqb (a b : switch_t) : bool :=
  match a, b with
  | SWITCH_NONE, SWITCH_NONE | SWITCH_1, SWITCH_1 | SWITCH_2, SWITCH_2 => true
  | _, _ => false
  end.

Definition reflowState_eqb (a b : reflowState_t) : bool :=
  match a, b with
  | REFLOW_STATE_IDLE, REFLOW_STATE_IDLE
  | REFLOW_STATE_PREHEAT, REFLOW_STATE_PREHEAT
  | REFLOW_STATE_SOAK, REFLOW_STATE_SOAK
  | REFLOW_STATE_REFLOW, REFLOW_STATE_REFLOW
  | REFLOW_STATE_COOL, REFLOW_STATE_COOL
  | REFLOW_STATE_COMPLETE, REFLOW_STATE_COMPLETE
  | REFLOW_STATE_TOO_HOT, REFLOW_STATE_TOO_HOT
  | REFLOW_STATE_ERROR, REFLOW_STATE_ERROR
  | REFLOW_STATE_BAKE, REFLOW_STATE_BAKE => true
  | _, _ => false
  end.

(** The enumerators as the bytes the firmware stores in the EEPROM. *)
Definition profile_of_byte (v : Z) : option reflowProfile_t :=
  if v =? 0 then Some REFLOW_PROFILE_LEADFREE
  else if v =? 1 then Some REFLOW_PROFILE_LEADED
  else if v =? 2 then Some REFLOW_PROFILE_BAKE
  else None.

Definition byte_of_profile (p : reflowProfile_t) : Z :=
  match p with
  | REFLOW_PROFILE_LEADFREE => 0
  | REFLOW_PROFILE_LEADED => 1
  | REFLOW_PROFILE_BAKE => 2
  end.

(** ** Constants (source lines 186-230) *)

Definition TEMPERATURE_ROOM : Z := 50.
Definition TEMPERATURE_SOAK_MIN : Z := 150.
Definition TEMPERATURE_COOL_MIN : Z := 100.
Definition SENSOR_SAMPLING_TIME : Z := 1000.
Definition SOAK_TEMPERATURE_STEP : Z := 5.

Definition TEMPERATURE_SOAK_MAX_LF : Z := 200.
Definition TEMPERATURE_REFLOW_MAX_LF : Z := 250.
Definition SOAK_MICRO_PERIOD_LF : Z := 9000.

Definition TEMPERATURE_SOAK_MAX_PB : Z := 180.
Definition TEMPERATURE_REFLOW_MAX_PB : Z := 224.
Definition SOAK_MICRO_PERIOD_PB : Z := 10000.

Definition TEMPERATURE_BAKE : Z := 120.

Definition DEBOUNCE_PERIOD_MIN : Z := 100.

Definition UPDATE_RATE : Z := 100.

Definition PID_SAMPLE_TIME : Z := 1000.

(** A gain set, (kp, ki, kd). *)
Definition tunings : Type := (Q * Q * Q)%type.

Definition PID_PREHEAT : tunings := (100 # 1, 25 # 1000, 20 # 1)%Q.
Definition PID_SOAK : tunings := (300 # 1, 5 # 100, 250 # 1)%Q.
Definition PID_REFLOW : tunings := (300 # 1, 5 # 100, 350 # 1)%Q.
Definition PID_BAKE : tunings := (100 # 1, 7 # 100, 20 # 1)%Q.

(** ** The global variables (source lines 291-336) and the outputs *)

(** What this program configures of the PID object [reflowOvenPID]: the gain
    set ([SetTunings], and the constructor call of line 336), the output
    limits ([SetOutputLimits]), the sample time ([SetSampleTime]) and the
    mode ([SetMode(AUTOMATIC)]); [None] and [false] stand for what the
    program has not set yet. *)
Record PID : Type := mkPID {
  pid_tunings : tunings;
  pid_limits : option (Q * Q);
  pid_sample_time : option Z;
  pid_automatic : bool
}.

Definition SetTunings (k : tunings) (p : PID) : PID :=
  mkPID k (pid_limits p) (pid_sample_time p) (pid_automatic p).
Definition SetOutputLimits (lo hi : Q) (p : PID) : PID :=
  mkPID (pid_tunings p) (Some (lo, hi)) (pid_sample_time p) (pid_automatic p).
Definition SetSampleTime (t : Z) (p : PID) : PID :=
  mkPID (pid_tunings p) (pid_limits p) (Some t) (pid_automatic p).
Definition SetMode_AUTOMATIC (p : PID) : PID :=
  mkPID (pid_tunings p) (pid_limits p) (pid_sample_time p) true.

(** The globals of the control path, with the source's names, and the
    outputs the program drives: the relay pin [ssrPin], [buzzerPin],
    [ledPin] ([true] is HIGH) and the EEPROM cell at
    [PROFILE_TYPE_ADDRESS].  The display and its plot buffer, and the text
    written to the serial port, are written by the program and never read
    by it; they are left out. *)
Record State : Type := mkState {
  setpoint : Q;
  input : Q;
  output : Q;
  reflowOvenPID : PID;
  windowSize : Z;
  windowStartTime : Z;
  nextCheck : Z;
  nextRead : Z;
  updateLcd : Z;
  timerSoak : Z;
  buzzerPeriod : Z;
  soakTemperatureMax : Z;
  reflowTemperatureMax : Z;
  soakMicroPeriod : Z;
  reflowState : reflowState_t;
  reflowStatus : reflowStatus_t;
  reflowProfile : reflowProfile_t;
  debounceState : debounceState_t;
  lastDebounceTime : Z;
  switchStatus : switch_t;
  switchValue : switch_t;
  switchMask : switch_t;
  timerSeconds : Z;
  fault : Z;
  ssrPin : bool;
  buzzerPin : bool;
  ledPin : bool;
  eeprom : Z
}.

Definition set_setpoint (v : Q) (s : State) : State :=
  mkState v (input s) (output s) (reflowOvenPID s) (windowSize s)
    (windowStartTime s) (nextCheck s) (nextRead s) (updateLcd s)
    (timerSoak s) (buzzerPeriod s) (soakTemperatureMax s)
    (reflowTemperatureMax s) (soakMicroPeriod s) (reflowState s)
    (reflowStatus s) (reflowProfile s) (debounceState s)
    (lastDebounceTime s) (switchStatus s) (switchValue s) (switchMask s)
    (timerSeconds s) (fault s) (ssrPin s) (buzzerPin s) (ledPin s)
    (eeprom s).

Definition set_input (v : Q) (s : State) : State :=
  mkState (setpoint s) v (output s) (reflowOvenPID s) (windowSize s)
    (windowStartTime s) (nextCheck s) (nextRead s) (updateLcd s)
    (timerSoak s) (buzzerPeriod s) (soakTemperatureMax s)
    (reflowTemperatureMax s) (soakMicroPeriod s) (reflowState s)
    (reflowStatus s) (reflowProfile s) (debounceState s)
    (lastDebounceTime s) (switchStatus s) (switchValue s) (switchMask s)
    (timerSeconds s) (fault s) (ssrPin s) (buzzerPin s) (ledPin s)
    (eeprom s).

Definition set_output (v : Q) (s : State) : State :=
  mkState (setpoint s) (input s) v (reflowOvenPID s) (windowSize s)
    (windowStartTime s) (nextCheck s) (nextRead s) (updateLcd s)
    (timerSoak s) (buzzerPeriod s) (soakTemperatureMax s)
    (reflowTemperatureMax s) (soakMicroPeriod s) (reflowState s)
    (reflowStatus s) (reflowProfile s) (debounceState s)
    (lastDebounceTime s) (switchStatus s) (switchValue s) (switchMask s)
    (timerSeconds s) (fault s) (ssrPin s) (buzzerPin s) (ledPin s)
    (eeprom s).

Definition set_reflowOvenPID (v : PID) (s : State) : State :=
  mkState (setpoint s) (input s) (output s) v (windowSize s)
    (windowStartTime s) (nextCheck s) (nextRead s) (updateLcd s)
    (timerSoak s) (buzzerPeriod s) (soakTemperatureMax s)
    (reflowTemperatureMax s) (soakMicroPeriod s) (reflowState s)
    (reflowStatus s) (reflowProfile s) (debounceState s)
    (lastDebounceTime s) (switchStatus s) (switchValue s) (switchMask s)
    (timerSeconds s) (fault s) (ssrPin s) (buzzerPin s) (ledPin s)
    (eeprom s).

Definition set_windowSize (v : Z) (s : State) : State :=
  mkState (setpoint s) (input s) (output s) (reflowOvenPID s) v
    (windowStartTime s) (nextCheck s) (nextRead s) (updateLcd s)
    (timerSoak s) (buzzerPeriod s) (soakTemperatureMax s)
    (reflowTemperatureMax s) (soakMicroPeriod s) (reflowState s)
    (reflowStatus s) (reflowProfile s) (debounceState s)
    (lastDebounceTime s) (switchStatus s) (switchValue s) (switchMask s)
    (timerSeconds s) (fault s) (ssrPin s) (buzzerPin s) (ledPin s)
    (eeprom s).

Definition set_windowStartTime (v : Z) (s : State) : State :=
  mkState (setpoint s) (input s) (output s) (reflowOvenPID s) (windowSize s)
    v (nextCheck s) (nextRead s) (updateLcd s) (timerSoak s)
    (buzzerPeriod s) (soakTemperatureMax s) (reflowTemperatureMax s)
    (soakMicroPeriod s) (reflowState s) (reflowStatus s) (reflowProfile s)
    (debounceState s) (lastDebounceTime s) (switchStatus s) (switchValue s)
    (switchMask s) (timerSeconds s) (fault s) (ssrPin s) (buzzerPin s)
    (ledPin s) (eeprom s).

Definition set_nextCheck (v : Z) (s : State) : State :=
  mkState (setpoint s) (input s) (output s) (reflowOvenPID s) (windowSize s)
    (windowStartTime s) v (nextRead s) (updateLcd s) (timerSoak s)
    (buzzerPeriod s) (soakTemperatureMax s) (reflowTemperatureMax s)
    (soakMicroPeriod s) (reflowState s) (reflowStatus s) (reflowProfile s)
    (debounceState s) (lastDebounceTime s) (switchStatus s) (switchValue s)
    (switchMask s) (timerSeconds s) (fault s) (ssrPin s) (buzzerPin s)
    (ledPin s) (eeprom s).

Definition set_nextRead (v : Z) (s : State) : State :=
  mkState (setpoint s) (input s) (output s) (reflowOvenPID s) (windowSize s)
    (windowStartTime s) (nextCheck s) v (updateLcd s) (timerSoak s)
    (buzzerPeriod s) (soakTemperatureMax s) (reflowTemperatureMax s)
    (soakMicroPeriod s) (reflowState s) (reflowStatus s) (reflowProfile s)
    (debounceState s) (lastDebounceTime s) (switchStatus s) (switchValue s)
    (switchMask s) (timerSeconds s) (fault s) (ssrPin s) (buzzerPin s)
    (ledPin s) (eeprom s).

Definition set_updateLcd (v : Z) (s : State) : State :=
  mkState (setpoint s) (input s) (output s) (reflowOvenPID s) (windowSize s)
    (windowStartTime s) (nextCheck s) (nextRead s) v (timerSoak s)
    (buzzerPeriod s) (soakTemperatureMax s) (reflowTemperatureMax s)
    (soakMicroPeriod s) (reflowState s) (reflowStatus s) (reflowProfile s)
    (debounceState s) (lastDebounceTime s) (switchStatus s) (switchValue s)
    (switchMask s) (timerSeconds s) (fault s) (ssrPin s) (buzzerPin s)
    (ledPin s) (eeprom s).

Definition set_timerSoak (v : Z) (s : State) : State :=
  mkState (setpoint s) (input s) (output s) (reflowOvenPID s) (windowSize s)
    (windowStartTime s) (nextCheck s) (nextRead s) (updateLcd s) v
    (buzzerPeriod s) (soakTemperatureMax s) (reflowTemperatureMax s)
    (soakMicroPeriod s) (reflowState s) (reflowStatus s) (reflowProfile s)
    (debounceState s) (lastDebounceTime s) (switchStatus s) (switchValue s)
    (switchMask s) (timerSeconds s) (fault s) (ssrPin s) (buzzerPin s)
    (ledPin s) (eeprom s).

Definition set_buzzerPeriod (v : Z) (s : State) : State :=
  mkState (setpoint s) (input s) (output s) (reflowOvenPID s) (windowSize s)
    (windowStartTime s) (nextCheck s) (nextRead s) (updateLcd s)
    (timerSoak s) v (soakTemperatureMax s) (reflowTemperatureMax s)
    (soakMicroPeriod s) (reflowState s) (reflowStatus s) (reflowProfile s)
    (debounceState s) (lastDebounceTime s) (switchStatus s) (switchValue s)
    (switchMask s) (timerSeconds s) (fault s) (ssrPin s) (buzzerPin s)
    (ledPin s) (eeprom s).

Definition set_soakTemperatureMax (v : Z) (s : State) : State :=
  mkState (setpoint s) (input s) (output s) (reflowOvenPID s) (windowSize s)
    (windowStartTime s) (nextCheck s) (nextRead s) (updateLcd s)
    (timerSoak s) (buzzerPeriod s) v (reflowTemperatureMax s)
    (soakMicroPeriod s) (reflowState s) (reflowStatus s) (reflowProfile s)
    (debounceState s) (lastDebounceTime s) (switchStatus s) (switchValue s)
    (switchMask s) (timerSeconds s) (fault s) (ssrPin s) (buzzerPin s)
    (ledPin s) (eeprom s).

Definition set_reflowTemperatureMax (v : Z) (s : State) : State :=
  mkState (setpoint s) (input s) (output s) (reflowOvenPID s) (windowSize s)
    (windowStartTime s) (nextCheck s) (nextRead s) (updateLcd s)
    (timerSoak s) (buzzerPeriod s) (soakTemperatureMax s) v
    (soakMicroPeriod s) (reflowState s) (reflowStatus s) (reflowProfile s)
    (debounceState s) (lastDebounceTime s) (switchStatus s) (switchValue s)
    (switchMask s) (timerSeconds s) (fault s) (ssrPin s) (buzzerPin s)
    (ledPin s) (eeprom s).

Definition set_soakMicroPeriod (v : Z) (s : State) : State :=
  mkState (setpoint s) (input s) (output s) (reflowOvenPID s) (windowSize s)
    (windowStartTime s) (nextCheck s) (nextRead s) (updateLcd s)
    (timerSoak s) (buzzerPeriod s) (soakTemperatureMax s)
    (reflowTemperatureMax s) v (reflowState s) (reflowStatus s)
    (reflowProfile s) (debounceState s) (lastDebounceTime s)
    (switchStatus s) (switchValue s) (switchMask s) (timerSeconds s)
    (fault s) (ssrPin s) (buzzerPin s) (ledPin s) (eeprom s).

Definition set_reflowState (v : reflowState_t) (s : State) : State :=
  mkState (setpoint s) (input s) (output s) (reflowOvenPID s) (windowSize s)
    (windowStartTime s) (nextCheck s) (nextRead s) (updateLcd s)
    (timerSoak s) (buzzerPeriod s) (soakTemperatureMax s)
    (reflowTemperatureMax s) (soakMicroPeriod s) v (reflowStatus s)
    (reflowProfile s) (debounceState s) (lastDebounceTime s)
    (switchStatus s) (switchValue s) (switchMask s) (timerSeconds s)
    (fault s) (ssrPin s) (buzzerPin s) (ledPin s) (eeprom s).

Definition set_reflowStatus (v : reflowStatus_t) (s : State) : State :=
  mkState (setpoint s) (input s) (output s) (reflowOvenPID s) (windowSize s)
    (windowStartTime s) (nextCheck s) (nextRead s) (updateLcd s)
    (timerSoak s) (buzzerPeriod s) (soakTemperatureMax s)
    (reflowTemperatureMax s) (soakMicroPeriod s) (reflowState s) v
    (reflowProfile s) (debounceState s) (lastDebounceTime s)
    (switchStatus s) (switchValue s) (switchMask s) (timerSeconds s)
    (fault s) (ssrPin s) (buzzerPin s) (ledPin s) (eeprom s).

Definition set_reflowProfile (v : reflowProfile_t) (s : State) : State :=
  mkState (setpoint s) (input s) (output s) (reflowOvenPID s) (windowSize s)
    (windowStartTime s) (nextCheck s) (nextRead s) (updateLcd s)
    (timerSoak s) (buzzerPeriod s) (soakTemperatureMax s)
    (reflowTemperatureMax s) (soakMicroPeriod s) (reflowState s)
    (reflowStatus s) v (debounceState s) (lastDebounceTime s)
    (switchStatus s) (switchValue s) (switchMask s) (timerSeconds s)
    (fault s) (ssrPin s) (buzzerPin s) (ledPin s) (eeprom s).

Definition set_debounceState (v : debounceState_t) (s : State) : State :=
  mkState (setpoint s) (input s) (output s) (reflowOvenPID s) (windowSize s)
    (windowStartTime s) (nextCheck s) (nextRead s) (updateLcd s)
    (timerSoak s) (buzzerPeriod s) (soakTemperatureMax s)
    (reflowTemperatureMax s) (soakMicroPeriod s) (reflowState s)
    (reflowStatus s) (reflowProfile s) v (lastDebounceTime s)
    (switchStatus s) (switchValue s) (switchMask s) (timerSeconds s)
    (fault s) (ssrPin s) (buzzerPin s) (ledPin s) (eeprom s).

Definition set_lastDebounceTime (v : Z) (s : State) : State :=
  mkState (setpoint s) (input s) (output s) (reflowOvenPID s) (windowSize s)
    (windowStartTime s) (nextCheck s) (nextRead s) (updateLcd s)
    (timerSoak s) (buzzerPeriod s) (soakTemperatureMax s)
    (reflowTemperatureMax s) (soakMicroPeriod s) (reflowState s)
    (reflowStatus s) (reflowProfile s) (debounceState s) v (switchStatus s)
    (switchValue s) (switchMask s) (timerSeconds s) (fault s) (ssrPin s)
    (buzzerPin s) (ledPin s) (eeprom s).

Definition set_switchStatus (v : switch_t) (s : State) : State :=
  mkState (setpoint s) (input s) (output s) (reflowOvenPID s) (windowSize s)
    (windowStartTime s) (nextCheck s) (nextRead s) (updateLcd s)
    (timerSoak s) (buzzerPeriod s) (soakTemperatureMax s)
    (reflowTemperatureMax s) (soakMicroPeriod s) (reflowState s)
    (reflowStatus s) (reflowProfile s) (debounceState s)
    (lastDebounceTime s) v (switchValue s) (switchMask s) (timerSeconds s)
    (fault s) (ssrPin s) (buzzerPin s) (ledPin s) (eeprom s).

Definition set_switchValue (v : switch_t) (s : State) : State :=
  mkState (setpoint s) (input s) (output s) (reflowOvenPID s) (windowSize s)
    (windowStartTime s) (nextCheck s) (nextRead s) (updateLcd s)
    (timerSoak s) (buzzerPeriod s) (soakTemperatureMax s)
    (reflowTemperatureMax s) (soakMicroPeriod s) (reflowState s)
    (reflowStatus s) (reflowProfile s) (debounceState s)
    (lastDebounceTime s) (switchStatus s) v (switchMask s) (timerSeconds s)
    (fault s) (ssrPin s) (buzzerPin s) (ledPin s) (eeprom s).

Definition set_switchMask (v : switch_t) (s : State) : State :=
  mkState (setpoint s) (input s) (output s) (reflowOvenPID s) (windowSize s)
    (windowStartTime s) (nextCheck s) (nextRead s) (updateLcd s)
    (timerSoak s) (buzzerPeriod s) (soakTemperatureMax s)
    (reflowTemperatureMax s) (soakMicroPeriod s) (reflowState s)
    (reflowStatus s) (reflowProfile s) (debounceState s)
    (lastDebounceTime s) (switchStatus s) (switchValue s) v (timerSeconds s)
    (fault s) (ssrPin s) (buzzerPin s) (ledPin s) (eeprom s).

Definition set_timerSeconds (v : Z) (s : State) : State :=
  mkState (setpoint s) (input s) (output s) (reflowOvenPID s) (windowSize s)
    (windowStartTime s) (nextCheck s) (nextRead s) (updateLcd s)
    (timerSoak s) (buzzerPeriod s) (soakTemperatureMax s)
    (reflowTemperatureMax s) (soakMicroPeriod s) (reflowState s)
    (reflowStatus s) (reflowProfile s) (debounceState s)
    (lastDebounceTime s) (switchStatus s) (switchValue s) (switchMask s) v
    (fault s) (ssrPin s) (buzzerPin s) (ledPin s) (eeprom s).

Definition set_fault (v : Z) (s : State) : State :=
  mkState (setpoint s) (input s) (output s) (reflowOvenPID s) (windowSize s)
    (windowStartTime s) (nextCheck s) (nextRead s) (updateLcd s)
    (timerSoak s) (buzzerPeriod s) (soakTemperatureMax s)
    (reflowTemperatureMax s) (soakMicroPeriod s) (reflowState s)
    (reflowStatus s) (reflowProfile s) (debounceState s)
    (lastDebounceTime s) (switchStatus s) (switchValue s) (switchMask s)
    (timerSeconds s) v (ssrPin s) (buzzerPin s) (ledPin s) (eeprom s).

Definition set_ssrPin (v : bool) (s : State) : State :=
  mkState (setpoint s) (input s) (output s) (reflowOvenPID s) (windowSize s)
    (windowStartTime s) (nextCheck s) (nextRead s) (updateLcd s)
    (timerSoak s) (buzzerPeriod s) (soakTemperatureMax s)
    (reflowTemperatureMax s) (soakMicroPeriod s) (reflowState s)
    (reflowStatus s) (reflowProfile s) (debounceState s)
    (lastDebounceTime s) (switchStatus s) (switchValue s) (switchMask s)
    (timerSeconds s) (fault s) v (buzzerPin s) (ledPin s) (eeprom s).

Definition set_buzzerPin (v : bool) (s : State) : State :=
  mkState (setpoint s) (input s) (output s) (reflowOvenPID s) (windowSize s)
    (windowStartTime s) (nextCheck s) (nextRead s) (updateLcd s)
    (timerSoak s) (buzzerPeriod s) (soakTemperatureMax s)
    (reflowTemperatureMax s) (soakMicroPeriod s) (reflowState s)
    (reflowStatus s) (reflowProfile s) (debounceState s)
    (lastDebounceTime s) (switchStatus s) (switchValue s) (switchMask s)
    (timerSeconds s) (fault s) (ssrPin s) v (ledPin s) (eeprom s).

Definition set_ledPin (v : bool) (s : State) : State :=
  mkState (setpoint s) (input s) (output s) (reflowOvenPID s) (windowSize s)
    (windowStartTime s) (nextCheck s) (nextRead s) (updateLcd s)
    (timerSoak s) (buzzerPeriod s) (soakTemperatureMax s)
    (reflowTemperatureMax s) (soakMicroPeriod s) (reflowState s)
    (reflowStatus s) (reflowProfile s) (debounceState s)
    (lastDebounceTime s) (switchStatus s) (switchValue s) (switchMask s)
    (timerSeconds s) (fault s) (ssrPin s) (buzzerPin s) v (eeprom s).

Definition set_eeprom (v : Z) (s : State) : State :=
  mkState (setpoint s) (input s) (output s) (reflowOvenPID s) (windowSize s)
    (windowStartTime s) (nextCheck s) (nextRead s) (updateLcd s)
    (timerSoak s) (buzzerPeriod s) (soakTemperatureMax s)
    (reflowTemperatureMax s) (soakMicroPeriod s) (reflowState s)
    (reflowStatus s) (reflowProfile s) (debounceState s)
    (lastDebounceTime s) (switchStatus s) (switchValue s) (switchMask s)
    (timerSeconds s) (fault s) (ssrPin s) (buzzerPin s) (ledPin s) v.

(** ** What one pass of [loop()] reads from outside

    Every call to [millis()] has its own field, named after its place in
    the source, since the clock moves on during a pass; the field holds the
    time since power-up in milliseconds and [millis()] returns it modulo
    2^32. *)
Record Env : Type := mkEnv {
  clock_read : Z;       (* millis() of line 456 *)
  clock_check : Z;      (* millis() of line 482 *)
  clock_lcd : Z;        (* millis() of line 509 *)
  clock_fsm : Z;        (* first millis() inside the state machine's case:
                           lines 684, 733, 745, 781, 792 *)
  clock_rearm : Z;      (* second millis() of the SOAK case: line 747 *)
  clock_debounce : Z;   (* millis() of the debounce machine: lines 899, 910 *)
  clock_now : Z;        (* millis() of line 939 *)
  readThermocoupleTemperature : Q;  (* line 461 *)
  readFault_sample : Z;             (* thermocouple.readFault() of line 463 *)
  readFault_error : Z;              (* thermocouple.readFault() of line 812 *)
  switchStartStopPin : bool;        (* digitalRead, true is HIGH *)
  switchLfPbPin : bool;             (* digitalRead, true is HIGH *)
  pid_output : Q        (* [output] after reflowOvenPID.Compute(), line 941 *)
}.

Definition millis (t : Z) : Z := u32 t.

(** [readSwitch()] for [VERSION == 2] (source lines 958-979): the switches
    pull their pins LOW, and the start/stop switch is looked at first. *)
Definition readSwitch (e : Env) : switch_t :=
  if negb (switchStartStopPin e) then SWITCH_1
  else if negb (switchLfPbPin e) then SWITCH_2
  else SWITCH_NONE.

(** The fault bits of the thermocouple converter,
    [MAX31856_FAULT_CJRANGE] ... [MAX31856_FAULT_OPEN], are macros of the
    driver's header [Adafruit_MAX31856.h], which is not part of this
    repository: they are taken as parameters. *)
Record FaultBits : Type := mkFaultBits {
  MAX31856_FAULT_CJRANGE : Z;
  MAX31856_FAULT_TCRANGE : Z;
  MAX31856_FAULT_CJHIGH : Z;
  MAX31856_FAULT_CJLOW : Z;
  MAX31856_FAULT_TCHIGH : Z;
  MAX31856_FAULT_TCLOW : Z;
  MAX31856_FAULT_OVUV : Z;
  MAX31856_FAULT_OPEN : Z
}.

(** The values the MAX31856 data sheet gives to the bits of its fault status
    register; used for the concrete runs only. *)
Definition max31856 : FaultBits :=
  mkFaultBits 128 64 32 16 8 4 2 1.

(** ** The program

    The definitions take the fault bits of the thermocouple driver as the
    section's parameter. *)

Section Controller.

Variable hw : FaultBits.

(** The condition of the two fault checks (source lines 466-473 and
    815-822): a chain of [||] over the bitwise [&] of the fault byte with
    each fault bit. *)
Definition fault_detected (f : Z) : bool :=
  negb (Z.land f (MAX31856_FAULT_CJRANGE hw) =? 0)
  || negb (Z.land f (MAX31856_FAULT_TCRANGE hw) =? 0)
  || negb (Z.land f (MAX31856_FAULT_CJHIGH hw) =? 0)
  || negb (Z.land f (MAX31856_FAULT_CJLOW hw) =? 0)
  || negb (Z.land f (MAX31856_FAULT_TCHIGH hw) =? 0)
  || negb (Z.land f (MAX31856_FAULT_TCLOW hw) =? 0)
  || negb (Z.land f (MAX31856_FAULT_OVUV hw) =? 0)
  || negb (Z.land f (MAX31856_FAULT_OPEN hw) =? 0).

(** [setup()] (source lines 365-448), from the zero-initialised globals.
    [stored] is the byte of the EEPROM, the three times are the three
    [millis()] of lines 443-447. *)
Definition power_on (stored : Z) : State :=
  mkState 0 0 0 (mkPID PID_PREHEAT None None false)
    0 0 0 0 0 0 0 0 0 0
    REFLOW_STATE_IDLE REFLOW_STATUS_OFF REFLOW_PROFILE_LEADFREE
    DEBOUNCE_STATE_IDLE 0 SWITCH_NONE SWITCH_NONE SWITCH_NONE 0 0
    false false false stored.

Definition setup (stored t_check t_read t_lcd : Z) : State :=
  let s := power_on (u8 stored) in
  let s :=
    match profile_of_byte (eeprom s) with
    | Some p => set_reflowProfile p s
    | None => set_reflowProfile REFLOW_PROFILE_LEADFREE (set_eeprom 0 s)
    end in
  let s := set_ssrPin false s in
  let s := set_buzzerPin false s in
  let s := set_ledPin true s in
  let s := set_buzzerPin true s in
  let s := set_buzzerPin false s in
  let s := set_ledPin false s in
  let s := set_windowSize 2000 s in
  let s := set_nextCheck (millis t_check) s in
  let s := set_nextRead (millis t_read) s in
  set_updateLcd (millis t_lcd) s.

(** Lines 455-480: time to read the thermocouple? *)
Definition loop_read_thermocouple (s : State) (e : Env) : State :=
  if millis (clock_read e) >? nextRead s then
    let s := set_nextRead (u32 (nextRead s + SENSOR_SAMPLING_TIME)) s in
    let s := set_input (readThermocoupleTemperature e) s in
    let s := set_fault (u8 (readFault_sample e)) s in
    if fault_detected (fault s) then
      set_reflowStatus REFLOW_STATUS_OFF
        (set_reflowState REFLOW_STATE_ERROR s)
    else s
  else s.

(** Lines 482-507: the one-second tick (heart beat LED, seconds timer). *)
Definition loop_seconds_tick (s : State) (e : Env) : State :=
  if millis (clock_check e) >? nextCheck s then
    let s := set_nextCheck (u32 (nextCheck s + SENSOR_SAMPLING_TIME)) s in
    match reflowStatus s with
    | REFLOW_STATUS_ON =>
        let s := set_ledPin (negb (ledPin s)) s in
        set_timerSeconds (u16 (timerSeconds s + 1)) s
    | REFLOW_STATUS_OFF => set_ledPin false s
    end
  else s.

(** Lines 509-654: the display refresh; of the control path's variables it
    writes [updateLcd] only. *)
Definition loop_update_lcd (s : State) (e : Env) : State :=
  if millis (clock_lcd e) >? updateLcd s then
    set_updateLcd (u32 (updateLcd s + UPDATE_RATE)) s
  else s.

(** Lines 656-838: the reflow oven controller state machine. *)
Definition loop_state_machine (s : State) (e : Env) : State :=
  match reflowState s with
  | REFLOW_STATE_IDLE =>
      if Qgeb (input s) (inject_Z TEMPERATURE_ROOM) then
        set_reflowState REFLOW_STATE_TOO_HOT s
      else
        match switchStatus s with
        | SWITCH_1 =>
            let s := set_timerSeconds 0 s in
            let s := set_windowStartTime (millis (clock_fsm e)) s in
            match reflowProfile s with
            | REFLOW_PROFILE_BAKE =>
                let s := set_setpoint (inject_Z TEMPERATURE_BAKE) s in
                let s := set_reflowOvenPID
                  (SetMode_AUTOMATIC (SetSampleTime PID_SAMPLE_TIME
                    (SetOutputLimits 0 (inject_Z (windowSize s))
                      (reflowOvenPID s)))) s in
                set_reflowState REFLOW_STATE_BAKE s
            | p =>
                let s := set_setpoint (inject_Z TEMPERATURE_SOAK_MIN) s in
                let s :=
                  match p with
                  | REFLOW_PROFILE_LEADFREE =>
                      set_soakMicroPeriod SOAK_MICRO_PERIOD_LF
                        (set_reflowTemperatureMax TEMPERATURE_REFLOW_MAX_LF
                          (set_soakTemperatureMax TEMPERATURE_SOAK_MAX_LF s))
                  | _ =>
                      set_soakMicroPeriod SOAK_MICRO_PERIOD_PB
                        (set_reflowTemperatureMax TEMPERATURE_REFLOW_MAX_PB
                          (set_soakTemperatureMax TEMPERATURE_SOAK_MAX_PB s))
                  end in
                let s := set_reflowOvenPID
                  (SetMode_AUTOMATIC (SetSampleTime PID_SAMPLE_TIME
                    (SetOutputLimits 0 (inject_Z (windowSize s))
                      (reflowOvenPID s)))) s in
                set_reflowState REFLOW_STATE_PREHEAT s
            end
        | _ => s
        end
  | REFLOW_STATE_PREHEAT =>
      let s := set_reflowStatus REFLOW_STATUS_ON s in
      if Qgeb (input s) (inject_Z TEMPERATURE_SOAK_MIN) then
        let s := set_timerSoak
          (u32 (millis (clock_fsm e) + soakMicroPeriod s)) s in
        let s := set_reflowOvenPID (SetTunings PID_SOAK (reflowOvenPID s)) s in
        let s := set_setpoint
          (inject_Z (TEMPERATURE_SOAK_MIN + SOAK_TEMPERATURE_STEP)) s in
        set_reflowState REFLOW_STATE_SOAK s
      else s
  | REFLOW_STATE_SOAK =>
      if millis (clock_fsm e) >? timerSoak s then
        let s := set_timerSoak
          (u32 (millis (clock_rearm e) + soakMicroPeriod s)) s in
        let s := set_setpoint
          (setpoint s + inject_Z SOAK_TEMPERATURE_STEP)%Q s in
        if Qgtb (setpoint s) (inject_Z (soakTemperatureMax s)) then
          let s := set_reflowOvenPID
            (SetTunings PID_REFLOW (reflowOvenPID s)) s in
          let s := set_setpoint (inject_Z (reflowTemperatureMax s)) s in
          set_reflowState REFLOW_STATE_REFLOW s
        else s
      else s
  | REFLOW_STATE_REFLOW =>
      if Qgeb (input s) (inject_Z (reflowTemperatureMax s - 5)) then
        let s := set_reflowOvenPID
          (SetTunings PID_REFLOW (reflowOvenPID s)) s in
        let s := set_setpoint (inject_Z TEMPERATURE_COOL_MIN) s in
        set_reflowState REFLOW_STATE_COOL s
      else s
  | REFLOW_STATE_COOL =>
      if Qleb (input s) (inject_Z TEMPERATURE_COOL_MIN) then
        let s := set_buzzerPeriod (u32 (millis (clock_fsm e) + 1000)) s in
        let s := set_buzzerPin true s in
        let s := set_reflowStatus REFLOW_STATUS_OFF s in
        set_reflowState REFLOW_STATE_COMPLETE s
      else s
  | REFLOW_STATE_COMPLETE =>
      if millis (clock_fsm e) >? buzzerPeriod s then
        let s := set_buzzerPin false s in
        set_reflowState REFLOW_STATE_IDLE s
      else s
  | REFLOW_STATE_TOO_HOT =>
      if Qltb (input s) (inject_Z TEMPERATURE_ROOM) then
        set_reflowState REFLOW_STATE_IDLE s
      else s
  | REFLOW_STATE_ERROR =>
      let s := set_fault (u8 (readFault_error e)) s in
      if fault_detected (fault s) then
        set_reflowState REFLOW_STATE_ERROR s
      else
        set_reflowState REFLOW_STATE_IDLE s
  | REFLOW_STATE_BAKE =>
      let s := set_reflowStatus REFLOW_STATUS_ON s in
      set_reflowOvenPID (SetTunings PID_BAKE (reflowOvenPID s)) s
  end.

(** The profile that switch 2 selects after [p] (lines 859-878). *)
Definition next_profile (p : reflowProfile_t) : reflowProfile_t :=
  match p with
  | REFLOW_PROFILE_LEADFREE => REFLOW_PROFILE_LEADED
  | REFLOW_PROFILE_LEADED => REFLOW_PROFILE_BAKE
  | REFLOW_PROFILE_BAKE => REFLOW_PROFILE_LEADFREE
  end.

(** Lines 840-882: what the validated switch press does, after the state
    machine; then the press is cleared. *)
Definition loop_switch_action (s : State) : State :=
  let s :=
    match switchStatus s with
    | SWITCH_1 =>
        match reflowStatus s with
        | REFLOW_STATUS_ON =>
            let s := set_reflowStatus REFLOW_STATUS_OFF s in
            set_reflowState REFLOW_STATE_IDLE s
        | REFLOW_STATUS_OFF => s
        end
    | SWITCH_2 =>
        if reflowState_eqb (reflowState s) REFLOW_STATE_IDLE then
          match reflowProfile s with
          | REFLOW_PROFILE_LEADFREE =>
              set_eeprom 1 (set_reflowProfile REFLOW_PROFILE_LEADED s)
          | REFLOW_PROFILE_LEADED =>
              set_eeprom 2 (set_reflowProfile REFLOW_PROFILE_BAKE s)
          | REFLOW_PROFILE_BAKE =>
              set_eeprom 0 (set_reflowProfile REFLOW_PROFILE_LEADFREE s)
          end
        else s
    | SWITCH_NONE => s
    end in
  set_switchStatus SWITCH_NONE s.

(** Lines 884-934: the switch debounce state machine.  In the comparison of
    line 910 the [long] [lastDebounceTime] is converted to [unsigned long]
    and the difference is taken modulo 2^32. *)
Definition loop_debounce (s : State) (e : Env) : State :=
  match debounceState s with
  | DEBOUNCE_STATE_IDLE =>
      let s := set_switchStatus SWITCH_NONE s in
      let s := set_switchValue (readSwitch e) s in
      if negb (switch_eqb (switchValue s) SWITCH_NONE) then
        let s := set_switchMask (switchValue s) s in
        let s := set_lastDebounceTime
          (to_long (millis (clock_debounce e))) s in
        set_debounceState DEBOUNCE_STATE_CHECK s
      else s
  | DEBOUNCE_STATE_CHECK =>
      let s := set_switchValue (readSwitch e) s in
      if switch_eqb (switchValue s) (switchMask s) then
        if u32 (millis (clock_debounce e) - u32 (lastDebounceTime s))
           >? DEBOUNCE_PERIOD_MIN then
          let s := set_switchStatus (switchMask s) s in
          set_debounceState DEBOUNCE_STATE_RELEASE s
        else s
      else
        set_debounceState DEBOUNCE_STATE_IDLE s
  | DEBOUNCE_STATE_RELEASE =>
      let s := set_switchValue (readSwitch e) s in
      if switch_eqb (switchValue s) SWITCH_NONE then
        set_debounceState DEBOUNCE_STATE_IDLE s
      else s
  end.

(** Lines 936-955: PID computation and relay (SSR) control. *)
Definition loop_ssr_control (s : State) (e : Env) : State :=
  match reflowStatus s with
  | REFLOW_STATUS_ON =>
      let now := millis (clock_now e) in
      let s := set_output (pid_output e) s in
      let s :=
        if u32 (now - windowStartTime s) >? windowSize s then
          set_windowStartTime (u32 (windowStartTime s + windowSize s)) s
        else s in
      if Qgtb (output s) (inject_Z (u32 (now - windowStartTime s))) then
        set_ssrPin true s
      else
        set_ssrPin false s
  | REFLOW_STATUS_OFF => set_ssrPin false s
  end.

(** The state at the places of [loop()] the properties speak of. *)
Definition after_sampling (s : State) (e : Env) : State :=
  loop_read_thermocouple s e.

Definition before_state_machine (s : State) (e : Env) : State :=
  loop_update_lcd (loop_seconds_tick (after_sampling s e) e) e.

Definition after_state_machine (s : State) (e : Env) : State :=
  loop_state_machine (before_state_machine s e) e.

Definition before_ssr_control (s : State) (e : Env) : State :=
  loop_debounce (loop_switch_action (after_state_machine s e)) e.

(** One pass of [loop()] (source lines 450-956). *)
Definition loop (s : State) (e : Env) : State :=
  loop_ssr_control (before_ssr_control s e) e.

(** Successive passes, and the validated press each of them leaves in
    [switchStatus]. *)
Fixpoint run (s : State) (es : list Env) : State :=
  match es with
  | [] => s
  | e :: es' => run (loop s e) es'
  end.

Fixpoint presses (s : State) (es : list Env) : list switch_t :=
  match es with
  | [] => []
  | e :: es' => switchStatus (loop s e) :: presses (loop s e) es'
  end.

(** The states the firmware can be in at the start of a pass. *)
Inductive reachable : State -> Prop :=
| reachable_setup : forall stored t_check t_read t_lcd,
    reachable (setup stored t_check t_read t_lcd)
| reachable_loop : forall s e,
    reachable s -> reachable (loop s e).

End Controller.

Arguments u32 : simpl never.
Arguments u16 : simpl never.
Arguments u8 : simpl never.
Arguments to_long : simpl never.
Arguments millis : simpl never.
Arguments loop_read_thermocouple : simpl never.
Arguments loop_seconds_tick : simpl never.
Arguments loop_update_lcd : simpl never.
Arguments loop_state_machine : simpl never.
Arguments loop_switch_action : simpl never.
Arguments loop_debounce : simpl never.
Arguments loop_ssr_control : simpl never.
Arguments after_sampling : simpl never.
Arguments before_state_machine : simpl never.
Arguments after_state_machine : simpl never.
Arguments before_ssr_control : simpl never.
Arguments loop : simpl never.

(** Case analysis on every conditional of the goal. *)
Ltac split_ifs :=
  repeat match goal with
         | |- context [if ?c then _ else _] => destruct c
         | |- context [match ?x with _ => _ end] => destruct x
         end.

Ltac split_ifs_eqn :=
  repeat match goal with
         | |- context [if ?c then _ else _] => destruct c eqn:?
         | |- context [match ?x with _ => _ end] => destruct x eqn:?
         end.

(** The cases of the state machine: the state first, then the conditions of
    its case. *)
Ltac state_machine_cases :=
  unfold loop_state_machine;
  match goal with
  | |- context [match reflowState ?s with _ => _ end] =>
      destruct (reflowState s) eqn:?
  end;
  split_ifs_eqn.

(** ** Vocabulary of the properties *)

(** The states in which the oven is being driven. *)
Definition running (st : reflowState_t) : bool :=
  match st with
  | REFLOW_STATE_PREHEAT | REFLOW_STATE_SOAK | REFLOW_STATE_REFLOW
  | REFLOW_STATE_COOL | REFLOW_STATE_BAKE => true
  | _ => false
  end.

(** What holds of the globals between two passes: the process is on in the
    driven states only, the relay is off while the process is off, a
    validated press is pending only while the debounce machine waits for the
    release, and the switch under check is a switch. *)
Definition on_only_running (s : State) : Prop :=
  reflowStatus s = REFLOW_STATUS_ON -> running (reflowState s) = true.

Definition consistent (s : State) : Prop :=
  on_only_running s
  /\ (reflowStatus s = REFLOW_STATUS_OFF -> ssrPin s = false)
  /\ (switchStatus s <> SWITCH_NONE ->
      debounceState s = DEBOUNCE_STATE_RELEASE)
  /\ (debounceState s = DEBOUNCE_STATE_CHECK -> switchMask s <> SWITCH_NONE).

(** The time the debounce machine sees between its pass under [e0] and its
    pass under [e], as line 910 computes it. *)
Definition debounce_elapsed (e0 e : Env) : Z :=
  u32 (millis (clock_debounce e) - millis (clock_debounce e0)).

(** The number of validated presses in a list of [switchStatus] values. *)
Fixpoint count_presses (l : list switch_t) : nat :=
  match l with
  | [] => 0%nat
  | SWITCH_NONE :: l' => count_presses l'
  | _ :: l' => S (count_presses l')
  end.

(** ** Concrete passes, for the examples *)

(** A pass at time [t] (the same at every clock reading), the thermocouple
    at [temp] without fault, the two switch pins at [a] and [b] (a pressed
    switch reads [false]), the PID output at [out]. *)
Definition pass (t : Z) (temp : Q) (a b : bool) (out : Q) : Env :=
  mkEnv t t t t t t t temp 0 0 a b out.

(** The same with the fault bytes [f1] (sampling) and [f2] (error state). *)
Definition faulty_pass (t : Z) (temp : Q) (f1 f2 : Z) : Env :=
  mkEnv t t t t t t t temp f1 f2 true true 0.

(** The firmware just after [setup()], lead-free profile stored. *)
Definition fresh : State := setup 0 3000 3000 3000.

(** The start switch held from 3001 ms to 3102 ms: the second pass
    validates the press. *)
Definition start_pending : State :=
  run max31856 fresh
    [pass 3001 (25 # 1) false true 0; pass 3102 (25 # 1) false true 0].

(** The profile switch held in the same way. *)
Definition select_pending : State :=
  run max31856 fresh
    [pass 3001 (25 # 1) true false 0; pass 3102 (25 # 1) true false 0].

(** The pass that consumes the start press at 25 degrees, then the pass in
    which 150 degrees are measured: the oven is soaking, lead-free, with its
    sub-timer due at 13002 ms. *)
Definition preheating : State :=
  loop max31856 start_pending (pass 3103 (25 # 1) true true 0).

Definition soaking : State :=
  loop max31856 preheating (pass 4002 (150 # 1) true true 0).

(** A pass 498 ms after the soak sub-timer's deadline. *)
Definition late_pass : Env := pass 13500 (180 # 1) true true 2000.

(** Ten expiries of the soak sub-timer, each seen one millisecond late: the
    set point passes 200 and the oven is in REFLOW, set point 250. *)
Definition soak_expiries : list Env :=
  map (fun k => pass (13003 + 9001 * k) (180 # 1) true true 0)
    [0; 1; 2; 3; 4; 5; 6; 7; 8; 9].

Definition reflowing : State := run max31856 soaking soak_expiries.

(** The start switch held during REFLOW until the press is validated. *)
Definition reflowing_start_pending : State :=
  run max31856 reflowing
    [pass 110000 (200 # 1) false true 0; pass 110101 (200 # 1) false true 0].

(** The thermocouple reports an open circuit at the first sampling. *)
Definition errored : State :=
  loop max31856 fresh (faulty_pass 3001 (25 # 1) 1 1).

(** ** The display (source lines 238-259 and 509-654)

    The refresh block of [loop()] reads the control variables and writes
    only its own: the text buffer on its stack, and the plot of the
    temperature curve (lines 327-332), which is kept in [Plot] beside
    [State]. *)

Module Display.

Import Stdlib.Strings.String.

(** The table [lcdMessagesReflowStatus] (lines 239-259). *)
Definition lcdMessagesReflowStatus : list string :=
  ["Ready"%string; "Pre"%string; "Soak"%string; "Reflow"%string;
   "Cool"%string; "Done!"%string; "Hot!"%string; "Error"%string;
   "Bake"%string].

(** The value of an enumerator of [reflowState_t], the index of line 512. *)
Definition reflowState_index (st : reflowState_t) : nat :=
  match st with
  | REFLOW_STATE_IDLE => 0
  | REFLOW_STATE_PREHEAT => 1
  | REFLOW_STATE_SOAK => 2
  | REFLOW_STATE_REFLOW => 3
  | REFLOW_STATE_COOL => 4
  | REFLOW_STATE_COMPLETE => 5
  | REFLOW_STATE_TOO_HOT => 6
  | REFLOW_STATE_ERROR => 7
  | REFLOW_STATE_BAKE => 8
  end.

(** Line 511: [char txtBuffer[8]]. *)
Definition txtBuffer_size : nat := 8.

(** Line 512: the entry of the table that [strcpy_P] copies into
    [txtBuffer], [None] past the end of the table. *)
Definition status_message (st : reflowState_t) : option string :=
  nth_error lcdMessagesReflowStatus (reflowState_index st).

(** The bytes [strcpy_P] writes: the characters and the terminating zero. *)
Definition strcpy_size (m : string) : nat := S (length m).

(** Lines 562-573: the two letters shown for the profile. *)
Definition profile_message (p : reflowProfile_t) : string :=
  match p with
  | REFLOW_PROFILE_LEADFREE => "LF"%string
  | REFLOW_PROFILE_LEADED => "PB"%string
  | REFLOW_PROFILE_BAKE => "BK"%string
  end.

End Display.

Definition SCREEN_WIDTH : Z := 128.
Definition X_AXIS_START : Z := 18.

(** The plot variables (lines 327-332): [temperature] is an array of
    [SCREEN_WIDTH - X_AXIS_START] bytes, the others are [unsigned char] but
    [timerUpdate], an [unsigned int]. *)
Record Plot : Type := mkPlot {
  timerUpdate : Z;
  temperature : list Z;
  xHead : Z;
  xCnt : Z;
  xScrollOffset : Z
}.

(** The plot at power-up: zero-initialised globals. *)
Definition plot_power_on : Plot :=
  mkPlot 0 (repeat 0 (Z.to_nat (SCREEN_WIDTH - X_AXIS_START))) 0 0 0.

(** [a[i] = v]; a write past the end of the array, which C leaves
    undefined, is kept apart as no write at all, and shown below not to
    happen. *)
Fixpoint store_at (i : nat) (v : Z) (a : list Z) : list Z :=
  match a, i with
  | [], _ => []
  | _ :: t, O => v :: t
  | h :: t, S i' => h :: store_at i' v t
  end.

(** Lines 625-637: one reading goes into the plot. *)
Definition plot_store (averageReading : Z) (p : Plot) : Plot :=
  if xCnt p <? SCREEN_WIDTH - X_AXIS_START then
    mkPlot (timerUpdate p)
      (store_at (Z.to_nat (xCnt p)) averageReading (temperature p))
      (xHead p) (u8 (xCnt p + 1)) (xScrollOffset p)
  else
    let a := store_at (Z.to_nat (xHead p)) averageReading (temperature p) in
    let h := u8 (xHead p + 1) in
    let h := if h =? SCREEN_WIDTH - X_AXIS_START then 0 else h in
    let o := u8 (xScrollOffset p + 1) in
    let o := if o >? 19 then 0 else o in
    mkPlot (timerUpdate p) a h (xCnt p) o.

(** Lines 615-640. [reading] is what [map(input, 0, 250, 63, 19)] of the
    Arduino core returns, which is not part of this repository; it is
    stored in an [unsigned char]. *)
Definition plot_update (s : State) (reading : Z) (p : Plot) : Plot :=
  match reflowStatus s with
  | REFLOW_STATUS_ON =>
      if timerSeconds s >? timerUpdate p then
        if timerSeconds s mod 3 =? 0 then
          let p := mkPlot (timerSeconds s) (temperature p) (xHead p)
                     (xCnt p) (xScrollOffset p) in
          plot_store (u8 reading) p
        else p
      else p
  | REFLOW_STATUS_OFF => p
  end.

(** Lines 642-649: the pixels drawn, in the order of the loop. The loop
    runs [xCnt] times, [timeAxis] counting from 0 and [tElem] walking
    through the array from [xHead], back to 0 after the last element. *)
Fixpoint draw_from (n : nat) (timeAxis tElem : Z) (a : list Z)
  : list (Z * Z) :=
  match n with
  | O => []
  | S n' =>
      let pixel := (timeAxis + X_AXIS_START, nth (Z.to_nat tElem) a 0) in
      let tElem := u8 (tElem + 1) in
      let tElem := if tElem =? SCREEN_WIDTH - X_AXIS_START then 0 else tElem in
      pixel :: draw_from n' (u8 (timeAxis + 1)) tElem a
  end.

Definition drawn (p : Plot) : list (Z * Z) :=
  draw_from (Z.to_nat (xCnt p)) 0 (xHead p) (temperature p).

(** Lines 588-595: the x positions of the time markers. *)
Definition time_markers (p : Plot) : list Z :=
  [38 - xScrollOffset p; 58 - xScrollOffset p; 78 - xScrollOffset p;
   98 - xScrollOffset p; 118 - xScrollOffset p]
  ++ (if xScrollOffset p >? 10 then [138 - xScrollOffset p] else []).

(** Lines 675-681: the start of a run clears the plot. *)
Definition plot_reset (p : Plot) : Plot :=
  mkPlot 0 (temperature p) 0 0 0.

(** The condition under which the IDLE case starts a run (lines 661-668). *)
Definition run_starts (s : State) : bool :=
  match reflowState s with
  | REFLOW_STATE_IDLE =>
      negb (Qgeb (input s) (inject_Z TEMPERATURE_ROOM))
      && switch_eqb (switchStatus s) SWITCH_1
  | _ => false
  end.

Section DisplayPass.

Variable hw : FaultBits.

(** What one pass of [loop()] does to the plot: the refresh block, when it
    is due (line 509), with the globals as the one-second block left them;
    then the reset by the state machine, when it starts a run. *)
Definition loop_plot (s : State) (e : Env) (reading : Z) (p : Plot) : Plot :=
  let x := loop_seconds_tick (after_sampling hw s e) e in
  let p :=
    if millis (clock_lcd e) >? updateLcd x then plot_update x reading p
    else p in
  if run_starts (before_state_machine hw s e) then plot_reset p else p.

End DisplayPass.

(** The plot stays inside its array and inside the screen. *)
Definition plot_ok (p : Plot) : Prop :=
  length (temperature p) = Z.to_nat (SCREEN_WIDTH - X_AXIS_START)
  /\ 0 <= xCnt p <= SCREEN_WIDTH - X_AXIS_START
  /\ 0 <= xHead p < SCREEN_WIDTH - X_AXIS_START
  /\ 0 <= xScrollOffset p <= 19
  /\ (xCnt p < SCREEN_WIDTH - X_AXIS_START -> xHead p = 0).

(** The stage constants of a reflow profile (lines 194-202). *)
Definition profile_soak_max (p : reflowProfile_t) : Z :=
  match p with
  | REFLOW_PROFILE_LEADFREE => TEMPERATURE_SOAK_MAX_LF
  | _ => TEMPERATURE_SOAK_MAX_PB
  end.

Definition profile_reflow_max (p : reflowProfile_t) : Z :=
  match p with
  | REFLOW_PROFILE_LEADFREE => TEMPERATURE_REFLOW_MAX_LF
  | _ => TEMPERATURE_REFLOW_MAX_PB
  end.

Definition profile_micro_period (p : reflowProfile_t) : Z :=
  match p with
  | REFLOW_PROFILE_LEADFREE => SOAK_MICRO_PERIOD_LF
  | _ => SOAK_MICRO_PERIOD_PB
  end.

(** What a run has loaded when it started (lines 686-722): the constants of
    its profile, the PID in automatic mode over the relay window. *)
Definition stage_loaded (s : State) : Prop :=
  reflowProfile s <> REFLOW_PROFILE_BAKE
  /\ soakTemperatureMax s = profile_soak_max (reflowProfile s)
  /\ reflowTemperatureMax s = profile_reflow_max (reflowProfile s)
  /\ soakMicroPeriod s = profile_micro_period (reflowProfile s).

Definition pid_ready (s : State) : Prop :=
  pid_automatic (reflowOvenPID s) = true
  /\ pid_limits (reflowOvenPID s) = Some (0%Q, inject_Z (windowSize s))
  /\ pid_sample_time (reflowOvenPID s) = Some PID_SAMPLE_TIME.

(** What holds of the set point, the stage constants and the PID in each
    driven state. *)
Definition stage_ok (s : State) : Prop :=
  windowSize s = 2000
  /\ match reflowState s with
     | REFLOW_STATE_PREHEAT =>
         setpoint s = inject_Z TEMPERATURE_SOAK_MIN
         /\ stage_loaded s /\ pid_ready s
     | REFLOW_STATE_SOAK =>
         (exists k, 1 <= k
                    /\ (setpoint s
                        == inject_Z (TEMPERATURE_SOAK_MIN
                                     + k * SOAK_TEMPERATURE_STEP))%Q)
         /\ (setpoint s <= inject_Z (soakTemperatureMax s))%Q
         /\ stage_loaded s /\ pid_ready s
         /\ pid_tunings (reflowOvenPID s) = PID_SOAK
     | REFLOW_STATE_REFLOW =>
         setpoint s = inject_Z (reflowTemperatureMax s)
         /\ stage_loaded s /\ pid_ready s
         /\ pid_tunings (reflowOvenPID s) = PID_REFLOW
     | REFLOW_STATE_COOL =>
         setpoint s = inject_Z TEMPERATURE_COOL_MIN
         /\ stage_loaded s /\ pid_ready s
         /\ pid_tunings (reflowOvenPID s) = PID_REFLOW
     | REFLOW_STATE_BAKE =>
         setpoint s = inject_Z TEMPERATURE_BAKE
         /\ reflowProfile s = REFLOW_PROFILE_BAKE /\ pid_ready s
         /\ (reflowStatus s = REFLOW_STATUS_ON ->
             pid_tunings (reflowOvenPID s) = PID_BAKE)
     | _ => True
     end.

(** ** More concrete passes, for the examples *)

(** Preheating at 100 degrees with the PID output at the full window:
    899 ms into the window, the relay is HIGH. *)
Definition heating : State :=
  loop max31856 preheating (pass 4002 (100 # 1) true true 2000).

(** The lead-free run in REFLOW measures 246 degrees: COOL. *)
Definition cooling : State :=
  loop max31856 reflowing (pass 110000 (246 # 1) true true 0).

(** The run in REFLOW is cancelled, the oven cools down to 25 degrees and
    the start switch is held again until the press is validated. *)
Definition second_start_pending : State :=
  run max31856 reflowing_start_pending
    [pass 110102 (246 # 1) true true 0; pass 111100 (25 # 1) false true 0;
     pass 111201 (25 # 1) false true 0].

(** The profile switch pressed twice (bake profile), then the start
    switch: the oven bakes. *)
Definition profile_selected : State :=
  loop max31856 select_pending (pass 3103 (25 # 1) true true 0).

Definition baking : State :=
  run max31856 profile_selected
    [pass 3200 (25 # 1) true false 0; pass 3301 (25 # 1) true false 0;
     pass 3302 (25 # 1) true true 0; pass 3400 (25 # 1) false true 0;
     pass 3501 (25 # 1) false true 0; pass 3502 (25 # 1) true true 0].

(** A run started 20 s before the millisecond clock rolls over, soaking
    with its sub-timer due 10 s before the roll-over; and a pass 9 s before
    the roll-over. *)
Definition soaking_before_rollover : State :=
  run max31856 fresh
    [pass (2 ^ 32 - 20000) (25 # 1) false true 0;
     pass (2 ^ 32 - 19899) (25 # 1) false true 0;
     pass (2 ^ 32 - 19898) (25 # 1) true true 0;
     pass (2 ^ 32 - 19000) (150 # 1) true true 0].

Definition pass_before_rollover : Env :=
  pass (2 ^ 32 - 9000) (160 # 1) true true 0.

(** The soaking oven three passes later, in the third second of its run. *)
Definition third_second : State :=
  run max31856 soaking
    [late_pass; pass 13600 (180 # 1) true true 0;
     pass 13700 (180 # 1) true true 0].

(** The soaking oven after nine expiries of its sub-timer, the set point
    at the lead-free soak maximum of 200; and the pass of the tenth. *)
Definition soak_top : State := run max31856 soaking (firstn 9 soak_expiries).

Definition last_expiry : Env := pass (13003 + 9001 * 9) (180 # 1) true true 0.

(** The start switch held at 3001 ms; then both switches held at 3102 ms. *)
Definition start_held : State :=
  loop max31856 fresh (pass 3001 (25 # 1) false true 0).

Definition both_held : Env := pass 3102 (25 # 1) false false 0.

(** The start switch read pressed 50 ms before the millisecond clock rolls
    over, and again 60 ms after. *)
Definition rollover_press_begin : Env :=
  pass (2 ^ 32 - 50) (25 # 1) false true 0.

Definition rollover_press_end : Env :=
  pass (2 ^ 32 + 60) (25 # 1) false true 0.

(** * Properties *)

Section Properties.

Variable hw : FaultBits.

(** ** Comparisons *)

Lemma Qgeb_true (x y : Q) : Qgeb x y = true <-> (y <= x)%Q.
Proof. unfold Qgeb. apply Qle_bool_iff. Qed.

Lemma Qleb_true (x y : Q) : Qleb x y = true <-> (x <= y)%Q.
Proof. unfold Qleb. apply Qle_bool_iff. Qed.

Lemma Qgtb_true (x y : Q) : Qgtb x y = true <-> (y < x)%Q.
Proof.
  unfold Qgtb. rewrite negb_true_iff. split; intros H.
  - apply Qnot_le_lt. intros L. apply Qle_bool_iff in L. congruence.
  - destruct (Qle_bool x y) eqn:E; [|reflexivity].
    apply Qle_bool_iff in E. exfalso. exact (Qlt_not_le _ _ H E).
Qed.

Lemma Qltb_true (x y : Q) : Qltb x y = true <-> (x < y)%Q.
Proof. unfold Qltb. exact (Qgtb_true y x). Qed.

Lemma Qgtb_false (x y : Q) : Qgtb x y = false <-> (x <= y)%Q.
Proof.
  unfold Qgtb. rewrite negb_false_iff. apply Qle_bool_iff.
Qed.

Lemma Qgeb_false (x y : Q) : Qgeb x y = false <-> (x < y)%Q.
Proof.
  rewrite <- Qltb_true. unfold Qgeb, Qltb.
  destruct (Qle_bool y x); cbn; split; congruence.
Qed.

Lemma gtb_true (x y : Z) : (x >? y) = true <-> y < x.
Proof. rewrite Z.gtb_ltb. apply Z.ltb_lt. Qed.

Lemma gtb_false (x y : Z) : (x >? y) = false <-> x <= y.
Proof. rewrite Z.gtb_ltb. apply Z.ltb_ge. Qed.

(** ** What each block of [loop()] writes

    Each block is the identity but for the variables listed. *)

Lemma seconds_tick_writes (s : State) (e : Env) :
  exists c l t,
    loop_seconds_tick s e
    = set_timerSeconds t (set_ledPin l (set_nextCheck c s)).
Proof.
  exists (nextCheck (loop_seconds_tick s e)), (ledPin (loop_seconds_tick s e)),
    (timerSeconds (loop_seconds_tick s e)).
  unfold loop_seconds_tick. split_ifs; destruct s; reflexivity.
Qed.

Lemma update_lcd_writes (s : State) (e : Env) :
  exists u, loop_update_lcd s e = set_updateLcd u s.
Proof.
  exists (updateLcd (loop_update_lcd s e)).
  unfold loop_update_lcd. split_ifs; destruct s; reflexivity.
Qed.

Lemma read_thermocouple_writes (s : State) (e : Env) :
  exists st ss f i n,
    loop_read_thermocouple hw s e
    = set_reflowStatus ss
        (set_reflowState st (set_fault f (set_input i (set_nextRead n s)))).
Proof.
  exists (reflowState (loop_read_thermocouple hw s e)),
    (reflowStatus (loop_read_thermocouple hw s e)),
    (fault (loop_read_thermocouple hw s e)),
    (input (loop_read_thermocouple hw s e)),
    (nextRead (loop_read_thermocouple hw s e)).
  unfold loop_read_thermocouple. split_ifs; destruct s; reflexivity.
Qed.

Lemma debounce_writes (s : State) (e : Env) :
  exists d t m v p,
    loop_debounce s e
    = set_debounceState d
        (set_lastDebounceTime t
           (set_switchMask m (set_switchValue v (set_switchStatus p s)))).
Proof.
  exists (debounceState (loop_debounce s e)),
    (lastDebounceTime (loop_debounce s e)),
    (switchMask (loop_debounce s e)),
    (switchValue (loop_debounce s e)),
    (switchStatus (loop_debounce s e)).
  unfold loop_debounce. split_ifs; destruct s; reflexivity.
Qed.

Lemma switch_action_writes (s : State) :
  exists b p st ss,
    loop_switch_action s
    = set_switchStatus SWITCH_NONE
        (set_eeprom b
           (set_reflowProfile p (set_reflowState st (set_reflowStatus ss s)))).
Proof.
  exists (eeprom (loop_switch_action s)),
    (reflowProfile (loop_switch_action s)),
    (reflowState (loop_switch_action s)),
    (reflowStatus (loop_switch_action s)).
  unfold loop_switch_action. split_ifs; destruct s; reflexivity.
Qed.

Lemma ssr_control_writes (s : State) (e : Env) :
  exists p w o,
    loop_ssr_control s e
    = set_ssrPin p (set_windowStartTime w (set_output o s)).
Proof.
  exists (ssrPin (loop_ssr_control s e)),
    (windowStartTime (loop_ssr_control s e)),
    (output (loop_ssr_control s e)).
  unfold loop_ssr_control. split_ifs; destruct s; reflexivity.
Qed.

Lemma ssr_control_off (s : State) (e : Env) :
  reflowStatus s = REFLOW_STATUS_OFF ->
  loop_ssr_control s e = set_ssrPin false s.
Proof. intros H. unfold loop_ssr_control. rewrite H. reflexivity. Qed.

(** The state machine leaves the switch, the debounce machine, the profile,
    the measured temperature and the relay alone. *)
Lemma state_machine_frame (s : State) (e : Env) :
  let s' := loop_state_machine hw s e in
  switchStatus s' = switchStatus s
  /\ debounceState s' = debounceState s
  /\ switchMask s' = switchMask s
  /\ lastDebounceTime s' = lastDebounceTime s
  /\ reflowProfile s' = reflowProfile s
  /\ eeprom s' = eeprom s
  /\ input s' = input s
  /\ ssrPin s' = ssrPin s.
Proof.
  state_machine_cases; cbn; repeat split; congruence.
Qed.

Lemma state_machine_switchStatus (s : State) (e : Env) :
  switchStatus (loop_state_machine hw s e) = switchStatus s.
Proof. apply state_machine_frame. Qed.

Lemma state_machine_debounceState (s : State) (e : Env) :
  debounceState (loop_state_machine hw s e) = debounceState s.
Proof. apply state_machine_frame. Qed.

Lemma state_machine_switchMask (s : State) (e : Env) :
  switchMask (loop_state_machine hw s e) = switchMask s.
Proof. apply state_machine_frame. Qed.

Lemma state_machine_lastDebounceTime (s : State) (e : Env) :
  lastDebounceTime (loop_state_machine hw s e) = lastDebounceTime s.
Proof. apply state_machine_frame. Qed.

Lemma state_machine_reflowProfile (s : State) (e : Env) :
  reflowProfile (loop_state_machine hw s e) = reflowProfile s.
Proof. apply state_machine_frame. Qed.

Lemma state_machine_eeprom (s : State) (e : Env) :
  eeprom (loop_state_machine hw s e) = eeprom s.
Proof. apply state_machine_frame. Qed.

Lemma state_machine_input (s : State) (e : Env) :
  input (loop_state_machine hw s e) = input s.
Proof. apply state_machine_frame. Qed.

Lemma state_machine_ssrPin (s : State) (e : Env) :
  ssrPin (loop_state_machine hw s e) = ssrPin s.
Proof. apply state_machine_frame. Qed.

(** Replace a block by what it writes. *)
Ltac writes :=
  repeat match goal with
    | |- context [loop_ssr_control ?s ?e] =>
        let H := fresh in
        destruct (ssr_control_writes s e) as (? & ? & ? & H);
        rewrite H; clear H
    | |- context [loop_debounce ?s ?e] =>
        let H := fresh in
        destruct (debounce_writes s e) as (? & ? & ? & ? & ? & H);
        rewrite H; clear H
    | |- context [loop_switch_action ?s] =>
        let H := fresh in
        destruct (switch_action_writes s) as (? & ? & ? & ? & H);
        rewrite H; clear H
    | |- context [loop_update_lcd ?s ?e] =>
        let H := fresh in
        destruct (update_lcd_writes s e) as (? & H);
        rewrite H; clear H
    | |- context [loop_seconds_tick ?s ?e] =>
        let H := fresh in
        destruct (seconds_tick_writes s e) as (? & ? & ? & H);
        rewrite H; clear H
    | |- context [loop_read_thermocouple ?h ?s ?e] =>
        let H := fresh in
        destruct (read_thermocouple_writes s e) as (? & ? & ? & ? & ? & H);
        rewrite H; clear H
    end.

(** ** The end of a pass in terms of its blocks *)

Lemma loop_reflowState (s : State) (e : Env) :
  reflowState (loop hw s e)
  = reflowState (loop_switch_action (after_state_machine hw s e)).
Proof.
  unfold loop, before_ssr_control.
  generalize (loop_switch_action (after_state_machine hw s e)); intros a.
  writes. reflexivity.
Qed.

Lemma loop_reflowStatus (s : State) (e : Env) :
  reflowStatus (loop hw s e)
  = reflowStatus (loop_switch_action (after_state_machine hw s e)).
Proof.
  unfold loop, before_ssr_control.
  generalize (loop_switch_action (after_state_machine hw s e)); intros a.
  writes. reflexivity.
Qed.

Lemma loop_reflowProfile (s : State) (e : Env) :
  reflowProfile (loop hw s e)
  = reflowProfile (loop_switch_action (after_state_machine hw s e)).
Proof.
  unfold loop, before_ssr_control.
  generalize (loop_switch_action (after_state_machine hw s e)); intros a.
  writes. reflexivity.
Qed.

Lemma loop_eeprom (s : State) (e : Env) :
  eeprom (loop hw s e)
  = eeprom (loop_switch_action (after_state_machine hw s e)).
Proof.
  unfold loop, before_ssr_control.
  generalize (loop_switch_action (after_state_machine hw s e)); intros a.
  writes. reflexivity.
Qed.

Lemma loop_setpoint (s : State) (e : Env) :
  setpoint (loop hw s e) = setpoint (after_state_machine hw s e).
Proof.
  unfold loop, before_ssr_control.
  generalize (after_state_machine hw s e); intros a.
  writes. reflexivity.
Qed.

Lemma loop_timerSoak (s : State) (e : Env) :
  timerSoak (loop hw s e) = timerSoak (after_state_machine hw s e).
Proof.
  unfold loop, before_ssr_control.
  generalize (after_state_machine hw s e); intros a.
  writes. reflexivity.
Qed.

Lemma loop_reflowOvenPID (s : State) (e : Env) :
  reflowOvenPID (loop hw s e) = reflowOvenPID (after_state_machine hw s e).
Proof.
  unfold loop, before_ssr_control.
  generalize (after_state_machine hw s e); intros a.
  writes. reflexivity.
Qed.

Lemma before_state_machine_reflowState (s : State) (e : Env) :
  reflowState (before_state_machine hw s e)
  = reflowState (after_sampling hw s e).
Proof.
  unfold before_state_machine.
  generalize (after_sampling hw s e); intros a. writes. reflexivity.
Qed.

Lemma before_state_machine_reflowStatus (s : State) (e : Env) :
  reflowStatus (before_state_machine hw s e)
  = reflowStatus (after_sampling hw s e).
Proof.
  unfold before_state_machine.
  generalize (after_sampling hw s e); intros a. writes. reflexivity.
Qed.

Lemma loop_input (s : State) (e : Env) :
  input (loop hw s e) = input (before_state_machine hw s e).
Proof.
  unfold loop, before_ssr_control.
  transitivity (input (after_state_machine hw s e)).
  - generalize (after_state_machine hw s e); intros a. writes. reflexivity.
  - unfold after_state_machine. apply state_machine_input.
Qed.

Lemma loop_ssrPin_off (s : State) (e : Env) :
  reflowStatus (loop hw s e) = REFLOW_STATUS_OFF ->
  ssrPin (loop hw s e) = false.
Proof.
  unfold loop. generalize (before_ssr_control hw s e); intros a H.
  assert (Ha : reflowStatus a = REFLOW_STATUS_OFF).
  { destruct (ssr_control_writes a e) as (p & w & o & E).
    rewrite E in H. exact H. }
  rewrite (ssr_control_off _ e Ha). reflexivity.
Qed.

(** The state machine finds the switch and the debounce variables as the
    pass found them. *)
Lemma before_state_machine_switch (s : State) (e : Env) :
  switchStatus (before_state_machine hw s e) = switchStatus s.
Proof. unfold before_state_machine, after_sampling. writes. reflexivity. Qed.

Lemma after_state_machine_switch (s : State) (e : Env) :
  switchStatus (after_state_machine hw s e) = switchStatus s.
Proof.
  unfold after_state_machine. rewrite state_machine_switchStatus.
  apply before_state_machine_switch.
Qed.

Lemma before_state_machine_debounce (s : State) (e : Env) :
  debounceState (before_state_machine hw s e) = debounceState s
  /\ switchMask (before_state_machine hw s e) = switchMask s
  /\ lastDebounceTime (before_state_machine hw s e) = lastDebounceTime s.
Proof.
  unfold before_state_machine, after_sampling. writes. cbn. auto.
Qed.

(** Up to the state machine, a pass writes the sampling variables and the
    two periodic timers only. *)
Lemma before_state_machine_writes (s : State) (e : Env) :
  exists u t l c ss st f i n,
    before_state_machine hw s e
    = set_updateLcd u
        (set_timerSeconds t
           (set_ledPin l
              (set_nextCheck c
                 (set_reflowStatus ss
                    (set_reflowState st
                       (set_fault f (set_input i (set_nextRead n s)))))))).
Proof.
  unfold before_state_machine, after_sampling. writes.
  do 9 eexists. reflexivity.
Qed.

Lemma debounce_inputs (s : State) (e : Env) :
  let x := loop_switch_action (after_state_machine hw s e) in
  debounceState x = debounceState s
  /\ switchMask x = switchMask s
  /\ lastDebounceTime x = lastDebounceTime s
  /\ switchStatus x = SWITCH_NONE.
Proof.
  cbv zeta.
  destruct (before_state_machine_debounce s e) as (E1 & E2 & E3).
  rewrite <- E1, <- E2, <- E3.
  unfold after_state_machine.
  rewrite <- (state_machine_debounceState (before_state_machine hw s e) e).
  rewrite <- (state_machine_switchMask (before_state_machine hw s e) e).
  rewrite <- (state_machine_lastDebounceTime (before_state_machine hw s e) e).
  generalize (loop_state_machine hw (before_state_machine hw s e) e).
  intros a. writes. cbn. auto.
Qed.

(** ** An invariant of the firmware *)

Lemma read_thermocouple_on_only_running (s : State) (e : Env) :
  on_only_running s -> on_only_running (loop_read_thermocouple hw s e).
Proof.
  unfold on_only_running, loop_read_thermocouple.
  intros HP. split_ifs_eqn; cbn; auto; discriminate.
Qed.

Lemma state_machine_on_only_running (s : State) (e : Env) :
  on_only_running s -> on_only_running (loop_state_machine hw s e).
Proof.
  unfold on_only_running. intros HP.
  state_machine_cases; cbn in *; intros Hon;
    try reflexivity; try discriminate;
    try (specialize (HP Hon); discriminate);
    match goal with
    | H : reflowState s = _ |- _ => rewrite H; auto
    end.
Qed.

Lemma switch_action_on_only_running (s : State) :
  on_only_running s -> on_only_running (loop_switch_action s).
Proof.
  unfold on_only_running, loop_switch_action. intros HP.
  split_ifs_eqn; cbn; auto; try discriminate; congruence.
Qed.

Lemma after_state_machine_on_only_running (s : State) (e : Env) :
  on_only_running s -> on_only_running (after_state_machine hw s e).
Proof.
  intros HP. unfold after_state_machine.
  apply state_machine_on_only_running.
  unfold on_only_running.
  rewrite before_state_machine_reflowState, before_state_machine_reflowStatus.
  apply read_thermocouple_on_only_running. exact HP.
Qed.

Lemma debounce_pending (x : State) (e : Env) :
  switchStatus x = SWITCH_NONE ->
  (debounceState x = DEBOUNCE_STATE_CHECK -> switchMask x <> SWITCH_NONE) ->
  let x' := loop_debounce x e in
  (switchStatus x' <> SWITCH_NONE ->
   debounceState x' = DEBOUNCE_STATE_RELEASE)
  /\ (debounceState x' = DEBOUNCE_STATE_CHECK ->
      switchMask x' <> SWITCH_NONE).
Proof.
  intros Hnone Hmask. cbv zeta. unfold loop_debounce.
  destruct (debounceState x) eqn:Ed; cbn.
  - destruct (readSwitch e) eqn:Er; cbn; split; intros H;
      congruence.
  - destruct (switch_eqb (readSwitch e) (switchMask x));
      [destruct (_ >? _)|]; cbn; split; intros H;
      try reflexivity; try congruence; auto.
  - destruct (switch_eqb (readSwitch e) SWITCH_NONE); cbn; split; intros H;
      try reflexivity; try congruence; auto.
Qed.

Theorem consistent_loop (s : State) (e : Env) :
  consistent s -> consistent (loop hw s e).
Proof.
  intros (H1 & H2 & H3 & H4).
  split; [|split].
  - unfold on_only_running.
    rewrite loop_reflowState, loop_reflowStatus.
    apply switch_action_on_only_running.
    apply after_state_machine_on_only_running. exact H1.
  - apply loop_ssrPin_off.
  - destruct (debounce_inputs s e) as (E1 & E2 & E3 & E4).
    unfold loop, before_ssr_control.
    revert E1 E2 E3 E4.
    generalize (loop_switch_action (after_state_machine hw s e)).
    intros x E1 E2 E3 E4.
    assert (Hx : debounceState x = DEBOUNCE_STATE_CHECK ->
                 switchMask x <> SWITCH_NONE)
      by (rewrite E1, E2; exact H4).
    pose proof (debounce_pending x e E4 Hx) as Hd. cbv zeta in Hd.
    revert Hd. generalize (loop_debounce x e). intros y Hd.
    destruct (ssr_control_writes y e) as (p & w & o & ->). cbn.
    exact Hd.
Qed.

Lemma consistent_setup (stored t_check t_read t_lcd : Z) :
  consistent (setup stored t_check t_read t_lcd).
Proof.
  unfold setup, consistent, on_only_running.
  destruct (profile_of_byte (eeprom (power_on (u8 stored))));
    cbn; repeat split; intros; congruence.
Qed.

Theorem reachable_consistent (s : State) :
  reachable hw s -> consistent s.
Proof.
  induction 1.
  - apply consistent_setup.
  - apply consistent_loop. assumption.
Qed.

Lemma reachable_run (s : State) (es : list Env) :
  reachable hw s -> reachable hw (run hw s es).
Proof.
  revert s. induction es as [|e es IH]; intros s H; cbn.
  - exact H.
  - apply IH. apply reachable_loop. exact H.
Qed.

(** ** The relay is off whenever the process is off *)

(** C1. Whenever [reflowStatus] is OFF where the relay is decided (line 937),
    the pass ends with [ssrPin] LOW, whatever the state, the set point, the
    PID output and the window are; and the time-proportioning block does not
    run: the pass does nothing there but write the pin, so neither [Compute]
    is called nor the window moved. *)
Theorem ssr_off_when_status_off (s : State) (e : Env) :
  reflowStatus (before_ssr_control hw s e) = REFLOW_STATUS_OFF ->
  ssrPin (loop hw s e) = false
  /\ loop hw s e = set_ssrPin false (before_ssr_control hw s e)
  /\ reflowStatus (loop hw s e) = REFLOW_STATUS_OFF.
Proof.
  unfold loop. generalize (before_ssr_control hw s e). intros a H.
  rewrite (ssr_control_off a e H). cbn. auto.
Qed.

(** ** The soak ramp *)

(** C7. In SOAK, when the sub-timer has expired the set point is stepped by
    [SOAK_TEMPERATURE_STEP] (5); if the stepped value exceeds the profile's
    [soakTemperatureMax], the set point is set to [reflowTemperatureMax]
    instead, the reflow gains are set and the state machine goes to REFLOW;
    while the sub-timer has not expired the state machine changes nothing,
    and the pass leaves the set point as it found it. *)
Theorem soak_setpoint_steps (s : State) (e : Env) :
  reflowState (before_state_machine hw s e) = REFLOW_STATE_SOAK ->
  (millis (clock_fsm e) <= timerSoak s ->
     after_state_machine hw s e = before_state_machine hw s e
     /\ setpoint (loop hw s e) = setpoint s)
  /\ (timerSoak s < millis (clock_fsm e) ->
      (setpoint s + inject_Z SOAK_TEMPERATURE_STEP
       <= inject_Z (soakTemperatureMax s))%Q ->
      setpoint (loop hw s e)
      = (setpoint s + inject_Z SOAK_TEMPERATURE_STEP)%Q
      /\ reflowState (after_state_machine hw s e) = REFLOW_STATE_SOAK
      /\ reflowOvenPID (loop hw s e) = reflowOvenPID s)
  /\ (timerSoak s < millis (clock_fsm e) ->
      (inject_Z (soakTemperatureMax s)
       < setpoint s + inject_Z SOAK_TEMPERATURE_STEP)%Q ->
      setpoint (loop hw s e) = inject_Z (reflowTemperatureMax s)
      /\ reflowState (after_state_machine hw s e) = REFLOW_STATE_REFLOW
      /\ pid_tunings (reflowOvenPID (loop hw s e)) = PID_REFLOW).
Proof.
  intros Hst.
  rewrite loop_setpoint, loop_reflowOvenPID.
  unfold after_state_machine.
  destruct (before_state_machine_writes s e)
    as (u & t & l & c & ss & st & f & i & n & E).
  rewrite E in *. cbn in Hst. subst st.
  unfold loop_state_machine. cbn.
  split; [|split].
  - intros H. apply gtb_false in H. rewrite H. split; reflexivity.
  - intros H H0. apply gtb_true in H. rewrite H. cbn.
    apply Qgtb_false in H0. rewrite H0. repeat split; reflexivity.
  - intros H H0. apply gtb_true in H. rewrite H. cbn.
    apply Qgtb_true in H0. rewrite H0. repeat split; reflexivity.
Qed.

(** ** Re-arming the two periodic deadlines *)

(** C6, as the program has it. The relay window re-arms from its previous
    start: while the process is on, when the time since [windowStartTime]
    exceeds [windowSize] the new [windowStartTime] is the old one plus
    [windowSize] (in 32-bit arithmetic), whatever the current time is, and
    otherwise it is unchanged. The soak sub-timer re-arms from the clock:
    when it has expired, the new [timerSoak] is the time read at line 747
    plus [soakMicroPeriod]. *)
Theorem window_rearms_from_start_soak_from_clock (s : State) (e : Env) :
  (reflowStatus (before_ssr_control hw s e) = REFLOW_STATUS_ON ->
   let a := before_ssr_control hw s e in
   (windowSize a < u32 (millis (clock_now e) - windowStartTime a) ->
    windowStartTime (loop hw s e) = u32 (windowStartTime a + windowSize a))
   /\ (u32 (millis (clock_now e) - windowStartTime a) <= windowSize a ->
       windowStartTime (loop hw s e) = windowStartTime a))
  /\ (reflowState (before_state_machine hw s e) = REFLOW_STATE_SOAK ->
      timerSoak s < millis (clock_fsm e) ->
      timerSoak (loop hw s e)
      = u32 (millis (clock_rearm e) + soakMicroPeriod s)).
Proof.
  split.
  - unfold loop. generalize (before_ssr_control hw s e). intros a Hon.
    cbv zeta. unfold loop_ssr_control. rewrite Hon. cbn.
    split; intros H.
    + apply gtb_true in H. rewrite H. cbn. split_ifs; reflexivity.
    + apply gtb_false in H. rewrite H. split_ifs; reflexivity.
  - intros Hst H. rewrite loop_timerSoak. unfold after_state_machine.
    destruct (before_state_machine_writes s e)
      as (u & t & l & c & ss & st & f & i & n & E).
    rewrite E in *. cbn in Hst. subst st.
    unfold loop_state_machine. cbn.
    apply gtb_true in H. rewrite H. cbn. split_ifs; reflexivity.
Qed.

(** ** Thermocouple faults *)

Lemma switch_action_off (x : State) :
  reflowStatus x = REFLOW_STATUS_OFF ->
  reflowState (loop_switch_action x) = reflowState x
  /\ reflowStatus (loop_switch_action x) = REFLOW_STATUS_OFF.
Proof.
  intros H. unfold loop_switch_action. rewrite H.
  split_ifs_eqn; cbn; auto.
Qed.

Lemma state_machine_error (x : State) (e : Env) :
  reflowState x = REFLOW_STATE_ERROR ->
  reflowState (loop_state_machine hw x e)
  = (if fault_detected hw (u8 (readFault_error e))
     then REFLOW_STATE_ERROR else REFLOW_STATE_IDLE)
  /\ reflowStatus (loop_state_machine hw x e) = reflowStatus x.
Proof.
  intros H. unfold loop_state_machine. rewrite H. cbn.
  destruct (fault_detected hw (u8 (readFault_error e))); cbn; auto.
Qed.

(** A pass whose state machine starts in ERROR with the process off. *)
Lemma error_pass (s : State) (e : Env) :
  reflowState (after_sampling hw s e) = REFLOW_STATE_ERROR ->
  reflowStatus (after_sampling hw s e) = REFLOW_STATUS_OFF ->
  reflowState (loop hw s e)
  = (if fault_detected hw (u8 (readFault_error e))
     then REFLOW_STATE_ERROR else REFLOW_STATE_IDLE)
  /\ reflowStatus (loop hw s e) = REFLOW_STATUS_OFF.
Proof.
  intros Hst Hoff.
  rewrite <- before_state_machine_reflowState in Hst.
  rewrite <- before_state_machine_reflowStatus in Hoff.
  rewrite loop_reflowState, loop_reflowStatus. unfold after_state_machine.
  destruct (state_machine_error _ e Hst) as (E1 & E2).
  rewrite Hoff in E2.
  destruct (switch_action_off _ E2) as (E3 & E4).
  rewrite E3, E4, E1. auto.
Qed.

(** C2. In a pass that samples the thermocouple (line 456), if the fault
    byte read at line 463 has one of the listed fault bits set, the sampling
    block sets [reflowState] to ERROR and [reflowStatus] to OFF, and the
    pass ends with [reflowStatus] OFF and [ssrPin] LOW, whatever the state
    was.  The last part tells where the state stands at the end of the
    pass: the ERROR case of the state machine reads the fault byte again in
    the same pass (line 812) and keeps ERROR if a fault bit is still set. *)
Theorem sampled_fault_forces_error (s : State) (e : Env) :
  nextRead s < millis (clock_read e) ->
  fault_detected hw (u8 (readFault_sample e)) = true ->
  reflowState (after_sampling hw s e) = REFLOW_STATE_ERROR
  /\ reflowStatus (after_sampling hw s e) = REFLOW_STATUS_OFF
  /\ reflowStatus (loop hw s e) = REFLOW_STATUS_OFF
  /\ ssrPin (loop hw s e) = false
  /\ reflowState (loop hw s e)
     = (if fault_detected hw (u8 (readFault_error e))
        then REFLOW_STATE_ERROR else REFLOW_STATE_IDLE).
Proof.
  intros Hdue Hfault.
  assert (Hs : reflowState (after_sampling hw s e) = REFLOW_STATE_ERROR
               /\ reflowStatus (after_sampling hw s e) = REFLOW_STATUS_OFF).
  { unfold after_sampling, loop_read_thermocouple.
    apply gtb_true in Hdue. rewrite Hdue. cbn. rewrite Hfault. cbn. auto. }
  destruct Hs as (Hst & Hoff).
  destruct (error_pass s e Hst Hoff) as (E1 & E2).
  repeat split; auto using loop_ssrPin_off.
Qed.

Lemma read_thermocouple_error (s : State) (e : Env) :
  reflowState s = REFLOW_STATE_ERROR ->
  reflowStatus s = REFLOW_STATUS_OFF ->
  reflowState (after_sampling hw s e) = REFLOW_STATE_ERROR
  /\ reflowStatus (after_sampling hw s e) = REFLOW_STATUS_OFF.
Proof.
  intros H1 H2. unfold after_sampling, loop_read_thermocouple.
  split_ifs_eqn; cbn; auto.
Qed.

Lemma consistent_error_off (s : State) :
  consistent s -> reflowState s = REFLOW_STATE_ERROR ->
  reflowStatus s = REFLOW_STATUS_OFF.
Proof.
  intros (H & _) Hst. unfold on_only_running in H. rewrite Hst in H.
  destruct (reflowStatus s); [reflexivity|].
  specialize (H eq_refl). discriminate.
Qed.

Lemma error_stays (s : State) (es : list Env) :
  reachable hw s -> reflowState s = REFLOW_STATE_ERROR ->
  Forall (fun e' => fault_detected hw (u8 (readFault_error e')) = true) es ->
  reflowState (run hw s es) = REFLOW_STATE_ERROR.
Proof.
  revert s. induction es as [|e' es IH]; intros s Hr Hst Hall; cbn.
  - exact Hst.
  - inversion Hall as [|? ? Hf Hrest]; subst.
    apply IH; [apply reachable_loop; exact Hr | | exact Hrest].
    pose proof (consistent_error_off s (reachable_consistent s Hr) Hst) as Hoff.
    destruct (read_thermocouple_error s e' Hst Hoff) as (A & B).
    destruct (error_pass s e' A B) as (E & _).
    rewrite E, Hf. reflexivity.
Qed.

(** C3. From ERROR, the state is still ERROR after any number of passes in
    each of which the fault byte read again at line 812 has a listed fault
    bit set, whatever the clock, the switches and the temperature do in
    them; the next pass leaves the state in ERROR if its fault byte has a
    fault bit set and moves it to IDLE if it has none. *)
Theorem error_left_on_clean_reread_only
  (s : State) (es : list Env) (e : Env) :
  reachable hw s ->
  reflowState s = REFLOW_STATE_ERROR ->
  Forall (fun e' => fault_detected hw (u8 (readFault_error e')) = true) es ->
  reflowState (run hw s es) = REFLOW_STATE_ERROR
  /\ (fault_detected hw (u8 (readFault_error e)) = true ->
      reflowState (loop hw (run hw s es) e) = REFLOW_STATE_ERROR)
  /\ (fault_detected hw (u8 (readFault_error e)) = false ->
      reflowState (loop hw (run hw s es) e) = REFLOW_STATE_IDLE).
Proof.
  intros Hr Hst Hall.
  pose proof (error_stays s es Hr Hst Hall) as Hrun.
  pose proof (reachable_run s es Hr) as Hr'.
  pose proof (consistent_error_off _ (reachable_consistent _ Hr') Hrun)
    as Hoff.
  destruct (read_thermocouple_error _ e Hrun Hoff) as (A & B).
  destruct (error_pass _ e A B) as (E & _).
  split; [exact Hrun|].
  split; intros Hf; rewrite E, Hf; reflexivity.
Qed.

(** ** What a validated press does *)

(** C5. When the press consumed by a pass is switch 1 (start) and
    [reflowStatus] is ON where the press is looked at (line 844), the pass
    ends with [reflowStatus] OFF and [reflowState] IDLE, whatever the state
    machine decided before in the same pass, and with the relay off. *)
Theorem start_press_cancels (s : State) (e : Env) :
  switchStatus s = SWITCH_1 ->
  reflowStatus (after_state_machine hw s e) = REFLOW_STATUS_ON ->
  reflowStatus (loop hw s e) = REFLOW_STATUS_OFF
  /\ reflowState (loop hw s e) = REFLOW_STATE_IDLE
  /\ ssrPin (loop hw s e) = false.
Proof.
  intros Hsw Hon.
  rewrite <- (after_state_machine_switch s e) in Hsw.
  assert (H : reflowStatus (loop hw s e) = REFLOW_STATUS_OFF
              /\ reflowState (loop hw s e) = REFLOW_STATE_IDLE).
  { rewrite loop_reflowState, loop_reflowStatus.
    revert Hsw Hon. generalize (after_state_machine hw s e). intros x Hsw Hon.
    unfold loop_switch_action. rewrite Hsw, Hon. cbn. auto. }
  destruct H as (H1 & H2). auto using loop_ssrPin_off.
Qed.

Lemma after_state_machine_profile (s : State) (e : Env) :
  reflowProfile (after_state_machine hw s e) = reflowProfile s
  /\ eeprom (after_state_machine hw s e) = eeprom s.
Proof.
  unfold after_state_machine.
  rewrite state_machine_reflowProfile, state_machine_eeprom.
  destruct (before_state_machine_writes s e)
    as (u & t & l & c & ss & st & f & i & n & ->).
  cbn. auto.
Qed.

Lemma next_profile_persisted (x : State) :
  switchStatus x = SWITCH_2 ->
  reflowState x = REFLOW_STATE_IDLE ->
  reflowProfile (loop_switch_action x) = next_profile (reflowProfile x)
  /\ eeprom (loop_switch_action x)
     = byte_of_profile (next_profile (reflowProfile x)).
Proof.
  intros Hsw Hst. unfold loop_switch_action. rewrite Hsw, Hst. cbn.
  destruct (reflowProfile x); cbn; auto.
Qed.

Lemma profile_kept (x : State) :
  switchStatus x = SWITCH_2 ->
  reflowState x <> REFLOW_STATE_IDLE ->
  reflowProfile (loop_switch_action x) = reflowProfile x
  /\ eeprom (loop_switch_action x) = eeprom x.
Proof.
  intros Hsw Hst. unfold loop_switch_action. rewrite Hsw.
  destruct (reflowState x); cbn; auto. congruence.
Qed.

(** C8. When the press consumed by a pass is switch 2 (profile): if
    [reflowState] is IDLE where the press is looked at (line 857), the
    profile moves one step along lead-free, leaded, bake, lead-free and the
    new profile is written to the EEPROM in the same pass, so that three
    such presses bring the profile back; if [reflowState] is not IDLE there,
    the profile and the EEPROM stay as they were. *)
Theorem select_press_cycles_profile (s : State) (e : Env) :
  switchStatus s = SWITCH_2 ->
  (reflowState (after_state_machine hw s e) = REFLOW_STATE_IDLE ->
   reflowProfile (loop hw s e) = next_profile (reflowProfile s)
   /\ eeprom (loop hw s e) = byte_of_profile (reflowProfile (loop hw s e)))
  /\ (reflowState (after_state_machine hw s e) <> REFLOW_STATE_IDLE ->
      reflowProfile (loop hw s e) = reflowProfile s
      /\ eeprom (loop hw s e) = eeprom s)
  /\ next_profile REFLOW_PROFILE_LEADFREE = REFLOW_PROFILE_LEADED
  /\ next_profile REFLOW_PROFILE_LEADED = REFLOW_PROFILE_BAKE
  /\ next_profile REFLOW_PROFILE_BAKE = REFLOW_PROFILE_LEADFREE
  /\ next_profile (next_profile (next_profile (reflowProfile s)))
     = reflowProfile s.
Proof.
  intros Hsw.
  rewrite <- (after_state_machine_switch s e) in Hsw.
  rewrite loop_reflowProfile, loop_eeprom.
  destruct (after_state_machine_profile s e) as (Ep & Ee).
  rewrite <- Ep, <- Ee.
  revert Hsw. generalize (after_state_machine hw s e). intros x Hsw.
  split; [|split].
  - intros Hst. destruct (next_profile_persisted x Hsw Hst) as (A & B).
    rewrite A, B. auto.
  - intros Hst. apply profile_kept; assumption.
  - repeat split. destruct (reflowProfile x); reflexivity.
Qed.

(** ** Starting a run *)

Lemma state_machine_idle_hot (x : State) (e : Env) :
  reflowState x = REFLOW_STATE_IDLE ->
  (inject_Z TEMPERATURE_ROOM <= input x)%Q ->
  loop_state_machine hw x e = set_reflowState REFLOW_STATE_TOO_HOT x.
Proof.
  intros Hst Hhot. unfold loop_state_machine. rewrite Hst.
  apply Qgeb_true in Hhot. rewrite Hhot. reflexivity.
Qed.

Lemma state_machine_too_hot (x : State) (e : Env) :
  reflowState x = REFLOW_STATE_TOO_HOT ->
  reflowStatus (loop_state_machine hw x e) = reflowStatus x
  /\ ((input x < inject_Z TEMPERATURE_ROOM)%Q ->
      reflowState (loop_state_machine hw x e) = REFLOW_STATE_IDLE)
  /\ ((inject_Z TEMPERATURE_ROOM <= input x)%Q ->
      reflowState (loop_state_machine hw x e) = REFLOW_STATE_TOO_HOT).
Proof.
  intros Hst. unfold loop_state_machine. rewrite Hst.
  split; [split_ifs; reflexivity|]. split; intros H.
  - apply Qltb_true in H. rewrite H. reflexivity.
  - apply Qgeb_true in H. unfold Qltb. unfold Qgeb in H. rewrite H.
    cbn. exact Hst.
Qed.

(** The state machine enters a driven state from IDLE only, below the room
    threshold and on a start press. *)
Lemma state_machine_begins_run (x : State) (e : Env) :
  running (reflowState x) = false ->
  running (reflowState (loop_state_machine hw x e)) = true ->
  reflowState x = REFLOW_STATE_IDLE
  /\ (input x < inject_Z TEMPERATURE_ROOM)%Q
  /\ switchStatus x = SWITCH_1.
Proof.
  intros Hnot. state_machine_cases; cbn in *; intros Hrun;
    try discriminate;
    try (match goal with
         | H : reflowState x = _ |- _ => rewrite H in Hrun; discriminate
         end);
    repeat split; try reflexivity; apply Qgeb_false; assumption.
Qed.

Lemma switch_action_running (x : State) :
  running (reflowState (loop_switch_action x)) = true ->
  running (reflowState x) = true.
Proof.
  unfold loop_switch_action. split_ifs_eqn; cbn; auto; discriminate.
Qed.

Lemma read_thermocouple_running (s : State) (e : Env) :
  running (reflowState s) = false ->
  running (reflowState (after_sampling hw s e)) = false.
Proof.
  unfold after_sampling, loop_read_thermocouple.
  split_ifs_eqn; cbn; auto.
Qed.

(** The sampling block changes the state to ERROR only. *)
Lemma read_thermocouple_keeps (s : State) (e : Env) :
  reflowState (after_sampling hw s e) <> REFLOW_STATE_ERROR ->
  reflowState (after_sampling hw s e) = reflowState s
  /\ reflowStatus (after_sampling hw s e) = reflowStatus s.
Proof.
  unfold after_sampling, loop_read_thermocouple.
  split_ifs_eqn; cbn; auto; congruence.
Qed.

Lemma read_thermocouple_idle (s : State) (e : Env) :
  reflowState (after_sampling hw s e) = REFLOW_STATE_IDLE ->
  reflowState s = REFLOW_STATE_IDLE
  /\ reflowStatus (after_sampling hw s e) = reflowStatus s.
Proof.
  intros H. destruct (read_thermocouple_keeps s e) as (A & B).
  - rewrite H. discriminate.
  - rewrite <- A. auto.
Qed.

Lemma consistent_idle_off (s : State) :
  consistent s -> running (reflowState s) = false ->
  reflowStatus s = REFLOW_STATUS_OFF.
Proof.
  intros (H & _) Hst. unfold on_only_running in H.
  destruct (reflowStatus s); [reflexivity|].
  specialize (H eq_refl). congruence.
Qed.

(** C9. In IDLE the temperature check comes before the start switch: with
    the measured temperature ([input]) at or above [TEMPERATURE_ROOM] (50)
    the state machine does nothing but go to TOO_HOT, whatever the pending
    press is, and the pass ends in TOO_HOT with the process off; TOO_HOT
    goes back to IDLE exactly when the measured temperature is below the
    threshold; and a pass that takes the oven from a state where it is not
    driven to one where it is does so from IDLE with the measured
    temperature below the threshold. *)
Theorem too_hot_before_start (s : State) (e : Env) :
  reachable hw s ->
  let x := before_state_machine hw s e in
  (reflowState x = REFLOW_STATE_IDLE ->
   (inject_Z TEMPERATURE_ROOM <= input x)%Q ->
   after_state_machine hw s e = set_reflowState REFLOW_STATE_TOO_HOT x
   /\ reflowState (loop hw s e) = REFLOW_STATE_TOO_HOT
   /\ reflowStatus (loop hw s e) = REFLOW_STATUS_OFF)
  /\ (reflowState x = REFLOW_STATE_TOO_HOT ->
      ((input x < inject_Z TEMPERATURE_ROOM)%Q ->
       reflowState (loop hw s e) = REFLOW_STATE_IDLE)
      /\ ((inject_Z TEMPERATURE_ROOM <= input x)%Q ->
          reflowState (loop hw s e) = REFLOW_STATE_TOO_HOT))
  /\ (running (reflowState s) = false ->
      running (reflowState (loop hw s e)) = true ->
      reflowState x = REFLOW_STATE_IDLE
      /\ (input (loop hw s e) < inject_Z TEMPERATURE_ROOM)%Q).
Proof.
  intros Hr x. subst x.
  pose proof (reachable_consistent s Hr) as Hc.
  split; [|split].
  - intros Hst Hhot.
    pose proof (state_machine_idle_hot _ e Hst Hhot) as E.
    assert (Hoff : reflowStatus (before_state_machine hw s e)
                   = REFLOW_STATUS_OFF).
    { rewrite before_state_machine_reflowState in Hst.
      rewrite before_state_machine_reflowStatus.
      destruct (read_thermocouple_idle s e Hst) as (Hs & ->).
      apply consistent_idle_off; [exact Hc | rewrite Hs; reflexivity]. }
    rewrite loop_reflowState, loop_reflowStatus.
    unfold after_state_machine. rewrite E.
    split; [reflexivity|].
    assert (Hoff' : reflowStatus
                      (set_reflowState REFLOW_STATE_TOO_HOT
                         (before_state_machine hw s e))
                    = REFLOW_STATUS_OFF) by exact Hoff.
    destruct (switch_action_off _ Hoff') as (A & B).
    rewrite A, B. auto.
  - intros Hst.
    assert (Hoff : reflowStatus (before_state_machine hw s e)
                   = REFLOW_STATUS_OFF).
    { rewrite before_state_machine_reflowState in Hst.
      rewrite before_state_machine_reflowStatus.
      destruct (read_thermocouple_keeps s e) as (Hs & ->).
      - rewrite Hst. discriminate.
      - apply consistent_idle_off; [exact Hc|].
        rewrite <- Hs, Hst. reflexivity. }
    destruct (state_machine_too_hot _ e Hst) as (A & B & C).
    rewrite Hoff in A. fold (after_state_machine hw s e) in A, B, C.
    destruct (switch_action_off _ A) as (D & _).
    rewrite loop_reflowState, D. auto.
  - intros Hnot Hrun. rewrite loop_input.
    rewrite loop_reflowState in Hrun.
    apply switch_action_running in Hrun.
    unfold after_state_machine in Hrun.
    apply state_machine_begins_run in Hrun.
    + tauto.
    + rewrite before_state_machine_reflowState.
      apply read_thermocouple_running. exact Hnot.
Qed.

Lemma state_machine_idle_start (x : State) (e : Env) :
  reflowState x = REFLOW_STATE_IDLE ->
  (input x < inject_Z TEMPERATURE_ROOM)%Q ->
  switchStatus x = SWITCH_1 ->
  reflowState (loop_state_machine hw x e)
  = match reflowProfile x with
    | REFLOW_PROFILE_BAKE => REFLOW_STATE_BAKE
    | _ => REFLOW_STATE_PREHEAT
    end
  /\ reflowStatus (loop_state_machine hw x e) = reflowStatus x.
Proof.
  intros Hst Hcool Hsw. unfold loop_state_machine. rewrite Hst.
  apply Qgeb_false in Hcool. rewrite Hcool, Hsw. cbn.
  destruct (reflowProfile x); cbn; auto.
Qed.

Lemma state_machine_turns_on (x : State) (e : Env) :
  reflowState x = REFLOW_STATE_PREHEAT \/ reflowState x = REFLOW_STATE_BAKE ->
  reflowStatus (loop_state_machine hw x e) = REFLOW_STATUS_ON.
Proof.
  intros [H|H]; unfold loop_state_machine; rewrite H; cbn;
    split_ifs; reflexivity.
Qed.

Lemma switch_action_none (x : State) :
  switchStatus x = SWITCH_NONE ->
  reflowStatus (loop_switch_action x) = reflowStatus x.
Proof. intros H. unfold loop_switch_action. rewrite H. reflexivity. Qed.

Lemma loop_switchStatus_release (s : State) (e : Env) :
  debounceState s = DEBOUNCE_STATE_RELEASE ->
  switchStatus (loop hw s e) = SWITCH_NONE.
Proof.
  intros Hd. destruct (debounce_inputs s e) as (E1 & _ & _ & E4).
  rewrite Hd in E1. unfold loop, before_ssr_control.
  revert E1 E4. generalize (loop_switch_action (after_state_machine hw s e)).
  intros x E1 E4.
  destruct (ssr_control_writes (loop_debounce x e) e) as (p & w & o & ->).
  cbn. unfold loop_debounce. rewrite E1. cbn.
  destruct (switch_eqb (readSwitch e) SWITCH_NONE); cbn; exact E4.
Qed.

Lemma before_ssr_control_ssrPin (s : State) (e : Env) :
  ssrPin (before_ssr_control hw s e) = ssrPin s.
Proof.
  unfold before_ssr_control.
  transitivity (ssrPin (after_state_machine hw s e)).
  - generalize (after_state_machine hw s e). intros x. writes. reflexivity.
  - unfold after_state_machine. rewrite state_machine_ssrPin.
    destruct (before_state_machine_writes s e)
      as (u & t & l & c & ss & st & f & i & n & ->).
    reflexivity.
Qed.

(** C10. The press that starts a run cannot cancel it. When a pass consumes
    a start press with the state machine in IDLE below the room threshold,
    the state machine goes to PREHEAT (to BAKE for the bake profile) and
    leaves [reflowStatus] OFF; the press check that follows finds it OFF and
    cancels nothing, so the pass ends in PREHEAT or BAKE with the process
    off, the relay is LOW at the start of the pass, where the relay is
    decided and at the end of the pass, and no press is left pending.  In
    the following pass, unless the sampling block takes the state away, the
    PREHEAT or BAKE case sets [reflowStatus] to ON and the pass ends with it
    ON. *)
Theorem start_press_does_not_cancel_its_run (s : State) (e e' : Env) :
  reachable hw s ->
  reflowState (before_state_machine hw s e) = REFLOW_STATE_IDLE ->
  (input (before_state_machine hw s e) < inject_Z TEMPERATURE_ROOM)%Q ->
  switchStatus s = SWITCH_1 ->
  reflowState (loop hw s e)
  = match reflowProfile s with
    | REFLOW_PROFILE_BAKE => REFLOW_STATE_BAKE
    | _ => REFLOW_STATE_PREHEAT
    end
  /\ reflowStatus (after_state_machine hw s e) = REFLOW_STATUS_OFF
  /\ reflowStatus (loop hw s e) = REFLOW_STATUS_OFF
  /\ ssrPin s = false
  /\ ssrPin (before_ssr_control hw s e) = false
  /\ ssrPin (loop hw s e) = false
  /\ switchStatus (loop hw s e) = SWITCH_NONE
  /\ (reflowState (after_sampling hw (loop hw s e) e')
      = reflowState (loop hw s e) ->
      reflowStatus (after_state_machine hw (loop hw s e) e')
      = REFLOW_STATUS_ON
      /\ reflowStatus (loop hw (loop hw s e) e') = REFLOW_STATUS_ON).
Proof.
  intros Hr Hst Hcool Hsw.
  pose proof (reachable_consistent s Hr) as Hc.
  assert (Hidle : reflowState s = REFLOW_STATE_IDLE
                  /\ reflowStatus (before_state_machine hw s e)
                     = reflowStatus s).
  { rewrite before_state_machine_reflowState in Hst.
    rewrite before_state_machine_reflowStatus.
    apply read_thermocouple_idle. exact Hst. }
  destruct Hidle as (Hs & Hss).
  assert (Hoff : reflowStatus s = REFLOW_STATUS_OFF)
    by (apply consistent_idle_off; [exact Hc | rewrite Hs; reflexivity]).
  assert (Hsw' : switchStatus (before_state_machine hw s e) = SWITCH_1)
    by (rewrite before_state_machine_switch; exact Hsw).
  destruct (state_machine_idle_start _ e Hst Hcool Hsw') as (A & B).
  fold (after_state_machine hw s e) in A, B.
  rewrite Hss, Hoff in B.
  assert (Hp : reflowProfile (before_state_machine hw s e) = reflowProfile s).
  { destruct (before_state_machine_writes s e)
      as (u & t & l & c & ss & st & f & i & n & ->). reflexivity. }
  rewrite Hp in A.
  destruct (switch_action_off _ B) as (C & D).
  assert (Hend : reflowState (loop hw s e)
                 = match reflowProfile s with
                   | REFLOW_PROFILE_BAKE => REFLOW_STATE_BAKE
                   | _ => REFLOW_STATE_PREHEAT
                   end)
    by (rewrite loop_reflowState, C; exact A).
  assert (Hendoff : reflowStatus (loop hw s e) = REFLOW_STATUS_OFF)
    by (rewrite loop_reflowStatus; exact D).
  assert (Hssr : ssrPin s = false) by (apply Hc; exact Hoff).
  assert (Hnone : switchStatus (loop hw s e) = SWITCH_NONE).
  { apply loop_switchStatus_release. apply Hc. rewrite Hsw. discriminate. }
  assert (Hmid : ssrPin (before_ssr_control hw s e) = false)
    by (rewrite before_ssr_control_ssrPin; exact Hssr).
  do 7 (split; [auto using loop_ssrPin_off|]).
  intros Hkeep.
  assert (Hon : reflowStatus (after_state_machine hw (loop hw s e) e')
                = REFLOW_STATUS_ON).
  { unfold after_state_machine. apply state_machine_turns_on.
    rewrite before_state_machine_reflowState, Hkeep, Hend.
    destruct (reflowProfile s); auto. }
  split; [exact Hon|].
  rewrite loop_reflowStatus, switch_action_none; [exact Hon|].
  rewrite after_state_machine_switch. exact Hnone.
Qed.

(** ** The switch debounce machine *)

Lemma u32_to_long (t : Z) : u32 (to_long t) = u32 t.
Proof.
  unfold u32, to_long.
  rewrite Zminus_mod_idemp_l. f_equal. lia.
Qed.

Lemma u32_idem (t : Z) : u32 (u32 t) = u32 t.
Proof. unfold u32. apply Z.mod_mod. lia. Qed.

(** What a pass does to the debounce machine, by case.  The pass clears
    [switchStatus] (line 882) before the machine runs, and nothing but the
    machine writes its variables. *)
Lemma debounce_view (s : State) (e : Env) :
  exists x,
    debounceState x = debounceState s
    /\ switchMask x = switchMask s
    /\ lastDebounceTime x = lastDebounceTime s
    /\ switchStatus x = SWITCH_NONE
    /\ debounceState (loop hw s e) = debounceState (loop_debounce x e)
    /\ switchMask (loop hw s e) = switchMask (loop_debounce x e)
    /\ lastDebounceTime (loop hw s e) = lastDebounceTime (loop_debounce x e)
    /\ switchStatus (loop hw s e) = switchStatus (loop_debounce x e).
Proof.
  exists (loop_switch_action (after_state_machine hw s e)).
  destruct (debounce_inputs s e) as (E1 & E2 & E3 & E4).
  repeat (split; [assumption|]).
  unfold loop, before_ssr_control.
  generalize
    (loop_debounce (loop_switch_action (after_state_machine hw s e)) e).
  intros y. destruct (ssr_control_writes y e) as (p & w & o & ->).
  cbn. auto.
Qed.

Lemma idle_press (s : State) (e : Env) :
  debounceState s = DEBOUNCE_STATE_IDLE ->
  readSwitch e <> SWITCH_NONE ->
  debounceState (loop hw s e) = DEBOUNCE_STATE_CHECK
  /\ switchMask (loop hw s e) = readSwitch e
  /\ lastDebounceTime (loop hw s e) = to_long (millis (clock_debounce e))
  /\ switchStatus (loop hw s e) = SWITCH_NONE.
Proof.
  intros Hd Hr.
  destruct (debounce_view s e) as (x & E1 & E2 & E3 & E4 & -> & -> & -> & ->).
  unfold loop_debounce. rewrite E1, Hd. cbn.
  destruct (readSwitch e); cbn; repeat split; congruence.
Qed.

Lemma check_wait (s : State) (e : Env) :
  debounceState s = DEBOUNCE_STATE_CHECK ->
  readSwitch e = switchMask s ->
  u32 (millis (clock_debounce e) - u32 (lastDebounceTime s))
  <= DEBOUNCE_PERIOD_MIN ->
  debounceState (loop hw s e) = DEBOUNCE_STATE_CHECK
  /\ switchMask (loop hw s e) = switchMask s
  /\ lastDebounceTime (loop hw s e) = lastDebounceTime s
  /\ switchStatus (loop hw s e) = SWITCH_NONE.
Proof.
  intros Hd Hr Ht.
  destruct (debounce_view s e) as (x & E1 & E2 & E3 & E4 & -> & -> & -> & ->).
  unfold loop_debounce. rewrite E1, Hd. cbn. rewrite E2, E3, Hr.
  apply gtb_false in Ht. rewrite Ht.
  destruct (switchMask s); cbn; repeat split; congruence.
Qed.

Lemma check_fire (s : State) (e : Env) :
  debounceState s = DEBOUNCE_STATE_CHECK ->
  readSwitch e = switchMask s ->
  DEBOUNCE_PERIOD_MIN
  < u32 (millis (clock_debounce e) - u32 (lastDebounceTime s)) ->
  debounceState (loop hw s e) = DEBOUNCE_STATE_RELEASE
  /\ switchStatus (loop hw s e) = switchMask s.
Proof.
  intros Hd Hr Ht.
  destruct (debounce_view s e) as (x & E1 & E2 & E3 & E4 & -> & _ & _ & ->).
  unfold loop_debounce. rewrite E1, Hd. cbn. rewrite E2, E3, Hr.
  apply gtb_true in Ht. rewrite Ht.
  destruct (switchMask s); cbn; repeat split; congruence.
Qed.

Lemma check_abort (s : State) (e : Env) :
  debounceState s = DEBOUNCE_STATE_CHECK ->
  readSwitch e <> switchMask s ->
  debounceState (loop hw s e) = DEBOUNCE_STATE_IDLE
  /\ switchStatus (loop hw s e) = SWITCH_NONE.
Proof.
  intros Hd Hr.
  destruct (debounce_view s e) as (x & E1 & E2 & E3 & E4 & -> & _ & _ & ->).
  unfold loop_debounce. rewrite E1, Hd. cbn. rewrite E2.
  destruct (readSwitch e), (switchMask s); cbn; repeat split; congruence.
Qed.

Lemma release_hold (s : State) (e : Env) :
  debounceState s = DEBOUNCE_STATE_RELEASE ->
  readSwitch e <> SWITCH_NONE ->
  debounceState (loop hw s e) = DEBOUNCE_STATE_RELEASE
  /\ switchStatus (loop hw s e) = SWITCH_NONE.
Proof.
  intros Hd Hr.
  destruct (debounce_view s e) as (x & E1 & E2 & E3 & E4 & -> & _ & _ & ->).
  unfold loop_debounce. rewrite E1, Hd. cbn.
  destruct (readSwitch e); cbn; repeat split; congruence.
Qed.

Lemma release_free (s : State) (e : Env) :
  debounceState s = DEBOUNCE_STATE_RELEASE ->
  readSwitch e = SWITCH_NONE ->
  debounceState (loop hw s e) = DEBOUNCE_STATE_IDLE
  /\ switchStatus (loop hw s e) = SWITCH_NONE.
Proof.
  intros Hd Hr.
  destruct (debounce_view s e) as (x & E1 & E2 & E3 & E4 & -> & _ & _ & ->).
  unfold loop_debounce. rewrite E1, Hd. cbn. rewrite Hr. cbn.
  repeat split; congruence.
Qed.

Lemma presses_app (s : State) (es1 es2 : list Env) :
  presses hw s (es1 ++ es2)
  = presses hw s es1 ++ presses hw (run hw s es1) es2.
Proof.
  revert s. induction es1 as [|e es1 IH]; intros s; cbn.
  - reflexivity.
  - rewrite IH. reflexivity.
Qed.

Lemma run_app (s : State) (es1 es2 : list Env) :
  run hw s (es1 ++ es2) = run hw (run hw s es1) es2.
Proof.
  revert s. induction es1 as [|e es1 IH]; intros s; cbn; auto.
Qed.

(** While the switch under check is still read and at most the debounce
    period has gone by, the machine stays in CHECK without a press. *)
Lemma check_waits (e0 : Env) (v : switch_t) (es : list Env) :
  forall s,
    debounceState s = DEBOUNCE_STATE_CHECK ->
    switchMask s = v ->
    lastDebounceTime s = to_long (millis (clock_debounce e0)) ->
    Forall (fun e => readSwitch e = v
                     /\ debounce_elapsed e0 e <= DEBOUNCE_PERIOD_MIN) es ->
    presses hw s es = repeat SWITCH_NONE (length es)
    /\ debounceState (run hw s es) = DEBOUNCE_STATE_CHECK
    /\ switchMask (run hw s es) = v
    /\ lastDebounceTime (run hw s es) = to_long (millis (clock_debounce e0)).
Proof.
  induction es as [|e es IH]; intros s Hd Hm Hl Hall; cbn.
  - auto.
  - inversion Hall as [|? ? (Hr & Ht) Hrest]; subst.
    destruct (check_wait s e Hd Hr) as (A & B & C & D).
    { rewrite Hl, u32_to_long. unfold millis at 2. rewrite u32_idem.
      exact Ht. }
    rewrite D.
    destruct (IH (loop hw s e) A B (eq_trans C Hl) Hrest) as (P & Q).
    rewrite P. auto.
Qed.

(** While the machine waits for the release and some switch is read, it
    keeps waiting without a press. *)
Lemma release_holds (es : list Env) :
  forall s,
    debounceState s = DEBOUNCE_STATE_RELEASE ->
    Forall (fun e => readSwitch e <> SWITCH_NONE) es ->
    presses hw s es = repeat SWITCH_NONE (length es)
    /\ debounceState (run hw s es) = DEBOUNCE_STATE_RELEASE.
Proof.
  induction es as [|e es IH]; intros s Hd Hall; cbn.
  - auto.
  - inversion Hall as [|? ? Hr Hrest]; subst.
    destruct (release_hold s e Hd Hr) as (A & B).
    rewrite B. destruct (IH (loop hw s e) A Hrest) as (P & Q).
    rewrite P. auto.
Qed.

(** C4, as the program has it. Let the debounce machine be in IDLE and a
    switch [v] be read from the pass [e0] on.  As long as the time since
    [e0], taken in the passes that follow, is at most 100 ms (100 ms
    included), no pass leaves a validated press, and if the next pass reads
    something else, it leaves none either and the machine is back in IDLE.
    The first pass in which [v] is read and that time is more than 100 ms
    leaves the one validated press [v], and the passes after it leave none
    as long as any switch is read, however long that is; the machine then
    waits for the release and is back in IDLE after the first pass that
    reads no switch. *)
Theorem debounce_one_press_per_hold
  (s : State) (v : switch_t) (e0 : Env) (es1 : list Env)
  (e1 : Env) (es2 : list Env) (e3 : Env) :
  debounceState s = DEBOUNCE_STATE_IDLE ->
  v <> SWITCH_NONE ->
  readSwitch e0 = v ->
  Forall (fun e => readSwitch e = v
                   /\ debounce_elapsed e0 e <= DEBOUNCE_PERIOD_MIN) es1 ->
  presses hw s (e0 :: es1) = repeat SWITCH_NONE (S (length es1))
  /\ (readSwitch e1 <> v ->
      presses hw s (e0 :: es1 ++ [e1])
      = repeat SWITCH_NONE (S (S (length es1)))
      /\ debounceState (run hw s (e0 :: es1 ++ [e1])) = DEBOUNCE_STATE_IDLE)
  /\ (readSwitch e1 = v ->
      DEBOUNCE_PERIOD_MIN < debounce_elapsed e0 e1 ->
      Forall (fun e => readSwitch e <> SWITCH_NONE) es2 ->
      readSwitch e3 = SWITCH_NONE ->
      presses hw s (e0 :: es1 ++ e1 :: es2 ++ [e3])
      = repeat SWITCH_NONE (S (length es1))
        ++ v :: repeat SWITCH_NONE (S (length es2))
      /\ debounceState (run hw s (e0 :: es1 ++ e1 :: es2))
         = DEBOUNCE_STATE_RELEASE
      /\ debounceState (run hw s (e0 :: es1 ++ e1 :: es2 ++ [e3]))
         = DEBOUNCE_STATE_IDLE).
Proof.
  intros Hd Hv Hr0 Hall.
  assert (Hr0' : readSwitch e0 <> SWITCH_NONE) by congruence.
  destruct (idle_press s e0 Hd Hr0') as (A & B & C & D).
  rewrite Hr0 in B.
  destruct (check_waits e0 v es1 (loop hw s e0) A B C Hall)
    as (P & Q & R & T).
  split; [|split].
  - cbn. rewrite D, P. reflexivity.
  - intros Hr1.
    destruct (check_abort (run hw (loop hw s e0) es1) e1 Q) as (F1 & F2).
    { rewrite R. exact Hr1. }
    cbn [presses run]. rewrite D, presses_app, run_app, P.
    cbn [presses run]. rewrite F1, F2. split; [|reflexivity].
    change (S (S (length es1))) with (1 + S (length es1))%nat.
    rewrite Nat.add_comm, repeat_app. reflexivity.
  - intros Hr1 Ht1 Hall2 Hr3.
    assert (Hfire : debounceState (loop hw (run hw (loop hw s e0) es1) e1)
                    = DEBOUNCE_STATE_RELEASE
                    /\ switchStatus (loop hw (run hw (loop hw s e0) es1) e1)
                       = v).
    { destruct (check_fire (run hw (loop hw s e0) es1) e1 Q) as (F1 & F2).
      - rewrite R. exact Hr1.
      - rewrite T, u32_to_long. unfold millis at 2. rewrite u32_idem.
        exact Ht1.
      - rewrite R in F2. auto. }
    destruct Hfire as (F1 & F2).
    destruct (release_holds es2 _ F1 Hall2) as (G1 & G2).
    destruct (release_free _ e3 G2 Hr3) as (I1 & I2).
    cbn [presses run].
    rewrite D, !presses_app, !run_app, P. cbn [presses run].
    rewrite F2, presses_app, run_app, G1. cbn [presses run].
    rewrite I2, G2, I1.
    repeat split.
    rewrite <- repeat_cons. reflexivity.
Qed.

(** * Further properties of the firmware *)

(** ** The relay and the driven states *)

(** X1. Between two passes the relay is HIGH only while the process is on,
    and so only in PREHEAT, SOAK, REFLOW, COOL or BAKE: never in IDLE,
    COMPLETE, TOO_HOT or ERROR. *)
Theorem relay_on_only_when_driven (s : State) :
  reachable hw s ->
  ssrPin s = true ->
  reflowStatus s = REFLOW_STATUS_ON /\ running (reflowState s) = true.
Proof.
  intros Hr Hssr.
  destruct (reachable_consistent s Hr) as (H1 & H2 & _).
  destruct (reflowStatus s) eqn:E.
  - specialize (H2 eq_refl). congruence.
  - split; [reflexivity | apply H1; exact E].
Qed.

(** ** The stored profile *)

Lemma profile_of_byte_inv (v : Z) (p : reflowProfile_t) :
  profile_of_byte v = Some p -> v = byte_of_profile p.
Proof.
  unfold profile_of_byte.
  destruct (v =? 0) eqn:E0; [apply Z.eqb_eq in E0; intros [= <-]; auto|].
  destruct (v =? 1) eqn:E1; [apply Z.eqb_eq in E1; intros [= <-]; auto|].
  destruct (v =? 2) eqn:E2; [apply Z.eqb_eq in E2; intros [= <-]; auto|].
  discriminate.
Qed.

Lemma switch_action_eeprom (x : State) :
  eeprom x = byte_of_profile (reflowProfile x) ->
  eeprom (loop_switch_action x)
  = byte_of_profile (reflowProfile (loop_switch_action x)).
Proof.
  intros H. unfold loop_switch_action.
  split_ifs_eqn; cbn; auto; congruence.
Qed.

Lemma eeprom_byte_reachable (s : State) :
  reachable hw s -> eeprom s = byte_of_profile (reflowProfile s).
Proof.
  induction 1 as [stored a b c | s e Hr IH].
  - unfold setup.
    destruct (profile_of_byte (eeprom (power_on (u8 stored)))) eqn:E; cbn.
    + apply profile_of_byte_inv in E. exact E.
    + reflexivity.
  - rewrite loop_eeprom, loop_reflowProfile.
    apply switch_action_eeprom.
    destruct (after_state_machine_profile s e) as (-> & ->). exact IH.
Qed.

(** X2. The EEPROM cell always holds the byte of the current profile: after
    [setup()], whatever byte was stored before, and after every pass. *)
Theorem eeprom_holds_profile (s : State) :
  reachable hw s -> eeprom s = byte_of_profile (reflowProfile s).
Proof. exact (eeprom_byte_reachable s). Qed.

(** X3. The firmware remembers the selected profile: [setup()] run on the
    EEPROM as any pass left it finds the profile of that pass again and
    leaves the EEPROM as it is. *)
Theorem profile_survives_power_cycle (s : State) (t_check t_read t_lcd : Z) :
  reachable hw s ->
  reflowProfile (setup (eeprom s) t_check t_read t_lcd) = reflowProfile s
  /\ eeprom (setup (eeprom s) t_check t_read t_lcd) = eeprom s.
Proof.
  intros Hr. rewrite (eeprom_byte_reachable s Hr).
  unfold setup. destruct (reflowProfile s); cbn; auto.
Qed.

(** ** The order of the stages *)

Lemma state_machine_order (x : State) (e : Env) :
  let st := reflowState x in
  let st' := reflowState (loop_state_machine hw x e) in
  (st' = REFLOW_STATE_PREHEAT ->
   st = REFLOW_STATE_PREHEAT \/ st = REFLOW_STATE_IDLE)
  /\ (st' = REFLOW_STATE_BAKE ->
      st = REFLOW_STATE_BAKE \/ st = REFLOW_STATE_IDLE)
  /\ (st' = REFLOW_STATE_SOAK ->
      st = REFLOW_STATE_SOAK \/ st = REFLOW_STATE_PREHEAT)
  /\ (st' = REFLOW_STATE_REFLOW ->
      st = REFLOW_STATE_REFLOW \/ st = REFLOW_STATE_SOAK)
  /\ (st' = REFLOW_STATE_COOL ->
      st = REFLOW_STATE_COOL \/ st = REFLOW_STATE_REFLOW)
  /\ (st' = REFLOW_STATE_COMPLETE ->
      st = REFLOW_STATE_COMPLETE \/ st = REFLOW_STATE_COOL)
  /\ (st' = REFLOW_STATE_TOO_HOT ->
      st = REFLOW_STATE_TOO_HOT \/ st = REFLOW_STATE_IDLE)
  /\ (st' = REFLOW_STATE_ERROR -> st = REFLOW_STATE_ERROR).
Proof.
  cbv zeta. state_machine_cases; cbn;
    repeat split; intros H; auto; try discriminate; congruence.
Qed.

Lemma switch_action_state (x : State) :
  reflowState (loop_switch_action x) = reflowState x
  \/ reflowState (loop_switch_action x) = REFLOW_STATE_IDLE.
Proof.
  unfold loop_switch_action. split_ifs_eqn; cbn; auto.
Qed.

Lemma read_thermocouple_state (s : State) (e : Env) :
  reflowState (after_sampling hw s e) = reflowState s
  \/ reflowState (after_sampling hw s e) = REFLOW_STATE_ERROR.
Proof.
  unfold after_sampling, loop_read_thermocouple.
  split_ifs_eqn; cbn; auto.
Qed.

(** X4. No stage is skipped. A pass ends in PREHEAT or BAKE only from that
    state or from IDLE, in SOAK only from SOAK or PREHEAT, in REFLOW only
    from REFLOW or SOAK, in COOL only from COOL or REFLOW, in COMPLETE only
    from COMPLETE or COOL, and in TOO_HOT only from TOO_HOT or IDLE,
    whatever the inputs of the pass are. *)
Theorem stages_in_order (s : State) (e : Env) :
  let st := reflowState s in
  let st' := reflowState (loop hw s e) in
  (st' = REFLOW_STATE_PREHEAT ->
   st = REFLOW_STATE_PREHEAT \/ st = REFLOW_STATE_IDLE)
  /\ (st' = REFLOW_STATE_BAKE ->
      st = REFLOW_STATE_BAKE \/ st = REFLOW_STATE_IDLE)
  /\ (st' = REFLOW_STATE_SOAK ->
      st = REFLOW_STATE_SOAK \/ st = REFLOW_STATE_PREHEAT)
  /\ (st' = REFLOW_STATE_REFLOW ->
      st = REFLOW_STATE_REFLOW \/ st = REFLOW_STATE_SOAK)
  /\ (st' = REFLOW_STATE_COOL ->
      st = REFLOW_STATE_COOL \/ st = REFLOW_STATE_REFLOW)
  /\ (st' = REFLOW_STATE_COMPLETE ->
      st = REFLOW_STATE_COMPLETE \/ st = REFLOW_STATE_COOL)
  /\ (st' = REFLOW_STATE_TOO_HOT ->
      st = REFLOW_STATE_TOO_HOT \/ st = REFLOW_STATE_IDLE).
Proof.
  cbv zeta. rewrite loop_reflowState.
  pose proof (state_machine_order (before_state_machine hw s e) e) as Ho.
  cbv zeta in Ho. fold (after_state_machine hw s e) in Ho.
  rewrite before_state_machine_reflowState in Ho.
  destruct (switch_action_state (after_state_machine hw s e)) as [Ea|Ea];
    rewrite Ea; clear Ea;
    destruct (read_thermocouple_state s e) as [Es|Es];
    rewrite Es in Ho; clear Es;
    destruct Ho as (H1 & H2 & H3 & H4 & H5 & H6 & H7 & H8);
    repeat split; intros H; try discriminate; auto;
    match goal with
    | Hi : reflowState (after_state_machine hw s e) = _ -> _ |- _ =>
        destruct (Hi H); discriminate
    end.
Qed.

(** ** The set point and the stage constants during a run *)

Lemma stage_ok_ext (a b : State) :
  windowSize a = windowSize b ->
  reflowState a = reflowState b ->
  reflowStatus a = reflowStatus b ->
  setpoint a = setpoint b ->
  reflowProfile a = reflowProfile b ->
  soakTemperatureMax a = soakTemperatureMax b ->
  reflowTemperatureMax a = reflowTemperatureMax b ->
  soakMicroPeriod a = soakMicroPeriod b ->
  reflowOvenPID a = reflowOvenPID b ->
  stage_ok a -> stage_ok b.
Proof.
  unfold stage_ok, stage_loaded, pid_ready.
  intros -> -> -> -> -> -> -> -> ->. auto.
Qed.

Lemma read_thermocouple_stage_ok (s : State) (e : Env) :
  stage_ok s -> stage_ok (loop_read_thermocouple hw s e).
Proof.
  unfold loop_read_thermocouple. intros H.
  split_ifs_eqn; auto.
  destruct H as (Hw & _). split; [exact Hw | exact I].
Qed.

Lemma soak_max_above_first_step (p : reflowProfile_t) :
  (inject_Z (TEMPERATURE_SOAK_MIN + SOAK_TEMPERATURE_STEP)
   <= inject_Z (profile_soak_max p))%Q.
Proof. destruct p; vm_compute; discriminate. Qed.

Lemma state_machine_stage_ok (y : State) (e : Env) :
  (reflowState y = REFLOW_STATE_IDLE ->
   reflowStatus y = REFLOW_STATUS_OFF) ->
  stage_ok y -> stage_ok (loop_state_machine hw y e).
Proof.
  intros Hoff H. unfold stage_ok in H. destruct H as (Hw & H).
  state_machine_cases; unfold stage_ok, stage_loaded, pid_ready in *;
    cbn -[Z.add Z.mul] in *;
    try match goal with
        | Hs : reflowState y = _ |- _ => rewrite ?Hs; cbn -[Z.add Z.mul]
        end;
    rewrite ?Hw in *;
    try (split; [reflexivity | exact I]);
    try (split; [reflexivity | assumption]);
    try (split; [exact Hw | exact I]);
    try (split; [exact Hw | assumption]);
    try match goal with
        | Hp : reflowProfile y = _ |- _ =>
            rewrite ?Hp; cbn -[Z.add Z.mul]
        end;
    try (specialize (Hoff eq_refl));
    repeat match goal with |- _ /\ _ => split end;
    try reflexivity; try tauto; try congruence;
    repeat match goal with
           | Hc : _ /\ _ |- _ => destruct Hc
           | Hc : exists _, _ |- _ => destruct Hc
           end;
    try (exists 1; split; [lia | reflexivity]);
    try (apply Qgtb_false; assumption);
    try match goal with
        | Hm : soakTemperatureMax y = _ |- _ =>
            rewrite Hm; apply soak_max_above_first_step
        end.
  match goal with
  | Hk : (setpoint y == inject_Z (_ + ?k * _))%Q |- _ =>
      exists (k + 1); split; [lia|]; rewrite Hk, <- inject_Z_plus;
      unfold TEMPERATURE_SOAK_MIN, SOAK_TEMPERATURE_STEP;
      replace (150 + k * 5 + 5) with (150 + (k + 1) * 5) by lia;
      reflexivity
  end.
Qed.

Lemma switch_action_stage_ok (x : State) :
  stage_ok x -> stage_ok (loop_switch_action x).
Proof.
  intros H. unfold loop_switch_action.
  split_ifs_eqn;
    try (revert H; apply stage_ok_ext; reflexivity);
    unfold stage_ok in *; cbn;
    try (split; [tauto | exact I]);
    match goal with
    | Hs : reflowState_eqb (reflowState x) REFLOW_STATE_IDLE = true |- _ =>
        destruct (reflowState x); try discriminate Hs; tauto
    end.
Qed.

(** The invariant from one pass to the next. *)
Lemma stage_ok_loop (s : State) (e : Env) :
  consistent s -> stage_ok s -> stage_ok (loop hw s e).
Proof.
  intros Hc H.
  assert (Hx : stage_ok (loop_switch_action (after_state_machine hw s e))).
  { apply switch_action_stage_ok. unfold after_state_machine.
    apply state_machine_stage_ok.
    - intros Hidle.
      rewrite before_state_machine_reflowState in Hidle.
      rewrite before_state_machine_reflowStatus.
      destruct (read_thermocouple_idle s e Hidle) as (Hs & ->).
      apply consistent_idle_off; [exact Hc | rewrite Hs; reflexivity].
    - apply read_thermocouple_stage_ok with (e := e) in H.
      fold (after_sampling hw s e) in H.
      unfold before_state_machine.
      revert H. generalize (after_sampling hw s e). intros a H.
      writes. revert H. apply stage_ok_ext; reflexivity. }
  unfold loop, before_ssr_control.
  revert Hx. generalize (loop_switch_action (after_state_machine hw s e)).
  intros x Hx. writes. revert Hx. apply stage_ok_ext; reflexivity.
Qed.

Lemma stage_ok_setup (stored t_check t_read t_lcd : Z) :
  stage_ok (setup stored t_check t_read t_lcd).
Proof.
  unfold setup, stage_ok.
  destruct (profile_of_byte (eeprom (power_on (u8 stored)))); cbn; auto.
Qed.

(** The invariant holds from [setup()] on. *)
Lemma stage_ok_reachable (s : State) :
  reachable hw s -> stage_ok s.
Proof.
  induction 1 as [stored a b c | s e Hr IH].
  - apply stage_ok_setup.
  - apply stage_ok_loop; [apply reachable_consistent; exact Hr | exact IH].
Qed.

(** X5. Throughout a run the stage constants are those of the profile the
    run started with, which stays selected, the PID is in automatic mode
    with its output limited to the relay window of 2000 ms, and the set
    point is the one of the stage: 150 in PREHEAT; 150 plus a number of
    steps of 5, and at most the profile's soak maximum, in SOAK; the
    profile's reflow maximum in REFLOW; 100 in COOL; 120 in BAKE.  The soak
    gains are set in SOAK, the reflow gains in REFLOW and COOL, the bake
    gains in BAKE once the process is on. *)
Theorem run_keeps_stage (s : State) :
  reachable hw s -> stage_ok s.
Proof. exact (stage_ok_reachable s). Qed.

(** X6. In every driven state the set point lies between 100 and 250
    degrees. *)
Theorem setpoint_within_limits (s : State) :
  reachable hw s ->
  running (reflowState s) = true ->
  (inject_Z TEMPERATURE_COOL_MIN <= setpoint s
   <= inject_Z TEMPERATURE_REFLOW_MAX_LF)%Q.
Proof.
  intros Hr Hrun. pose proof (stage_ok_reachable s Hr) as (_ & H).
  unfold stage_loaded in H.
  destruct (reflowState s); try discriminate Hrun;
    repeat match goal with
           | Hc : _ /\ _ |- _ => destruct Hc
           | Hc : exists _, _ |- _ => destruct Hc
           end;
    repeat match goal with
           | Hm : soakTemperatureMax s = _ |- _ => rewrite Hm in *; clear Hm
           | Hm : reflowTemperatureMax s = _ |- _ => rewrite Hm in *; clear Hm
           | Hm : setpoint s = _ |- _ => rewrite Hm in *; clear Hm
           end;
    try match goal with
        | Hk : (setpoint s == inject_Z _)%Q, Hle : (setpoint s <= _)%Q |- _ =>
            split;
            [rewrite Hk, <- Zle_Qle;
             unfold TEMPERATURE_COOL_MIN, TEMPERATURE_SOAK_MIN,
               SOAK_TEMPERATURE_STEP; lia
            |apply Qle_trans with (1 := Hle);
             destruct (reflowProfile s); vm_compute; discriminate]
        end;
    destruct (reflowProfile s); try congruence;
    split; vm_compute; discriminate.
Qed.



(** X7. In REFLOW the oven turns to COOL, set point 100, as soon as the
    measured temperature is within 5 degrees of the reflow maximum of the
    selected profile, that is at 245 degrees for the lead-free profile and
    at 219 degrees for the leaded one; below that the state machine leaves
    REFLOW and the set point alone. *)
Theorem reflow_peak_threshold (s : State) (e : Env) :
  reachable hw s ->
  reflowState (before_state_machine hw s e) = REFLOW_STATE_REFLOW ->
  let peak := inject_Z (profile_reflow_max (reflowProfile s) - 5) in
  ((peak <= input (before_state_machine hw s e))%Q ->
   reflowState (after_state_machine hw s e) = REFLOW_STATE_COOL
   /\ setpoint (loop hw s e) = inject_Z TEMPERATURE_COOL_MIN)
  /\ ((input (before_state_machine hw s e) < peak)%Q ->
      reflowState (after_state_machine hw s e) = REFLOW_STATE_REFLOW
      /\ setpoint (loop hw s e) = setpoint s).
Proof.
  intros Hr Hst peak. subst peak.
  assert (Hs : reflowState s = REFLOW_STATE_REFLOW).
  { rewrite before_state_machine_reflowState in Hst.
    destruct (read_thermocouple_keeps s e) as (A & _).
    - rewrite Hst. discriminate.
    - rewrite <- A. exact Hst. }
  pose proof (stage_ok_reachable s Hr) as (_ & Hk). rewrite Hs in Hk.
  destruct Hk as (_ & (_ & _ & Hmax & _) & _).
  rewrite <- Hmax. rewrite loop_setpoint. unfold after_state_machine.
  destruct (before_state_machine_writes s e)
    as (u & t & l & c & ss & st & f & i & n & E).
  rewrite E in *. cbn in Hst. subst st.
  unfold loop_state_machine. cbn.
  split; intros H.
  - apply Qgeb_true in H. rewrite H. split; reflexivity.
  - apply Qgeb_false in H. rewrite H. split; reflexivity.
Qed.

(** ** The gain sets *)

Lemma state_machine_tunings (y : State) (e : Env) :
  let k' := pid_tunings (reflowOvenPID (loop_state_machine hw y e)) in
  k' = pid_tunings (reflowOvenPID y)
  \/ k' = PID_SOAK \/ k' = PID_REFLOW \/ k' = PID_BAKE.
Proof.
  cbv zeta. state_machine_cases; cbn; auto.
Qed.

(** X8. A pass either leaves the gains of the PID as they are or sets the
    soak, the reflow or the bake gains: the preheat gains are those of the
    construction of the PID only.  In particular the pass that starts a run
    leaves the gains as it finds them, so that a run started after another
    one preheats with the gains that one left. *)
Theorem preheat_gains_never_set (s : State) (e : Env) :
  let k' := pid_tunings (reflowOvenPID (loop hw s e)) in
  (k' = pid_tunings (reflowOvenPID s)
   \/ k' = PID_SOAK \/ k' = PID_REFLOW \/ k' = PID_BAKE)
  /\ (reflowState (before_state_machine hw s e) = REFLOW_STATE_IDLE ->
      k' = pid_tunings (reflowOvenPID s)).
Proof.
  cbv zeta. rewrite loop_reflowOvenPID. unfold after_state_machine.
  assert (Hy : reflowOvenPID (before_state_machine hw s e) = reflowOvenPID s).
  { destruct (before_state_machine_writes s e)
      as (u & t & l & c & ss & st & f & i & n & ->). reflexivity. }
  rewrite <- Hy. split.
  - apply state_machine_tunings.
  - intros Hst. unfold loop_state_machine. rewrite Hst.
    split_ifs; reflexivity.
Qed.

(** ** The end of a run and the buzzer *)

Lemma loop_buzzer (s : State) (e : Env) :
  buzzerPin (loop hw s e) = buzzerPin (after_state_machine hw s e)
  /\ buzzerPeriod (loop hw s e) = buzzerPeriod (after_state_machine hw s e).
Proof.
  unfold loop, before_ssr_control.
  generalize (after_state_machine hw s e). intros a. writes. cbn. auto.
Qed.

Lemma before_state_machine_buzzer (s : State) (e : Env) :
  buzzerPin (before_state_machine hw s e) = buzzerPin s
  /\ buzzerPeriod (before_state_machine hw s e) = buzzerPeriod s.
Proof.
  destruct (before_state_machine_writes s e)
    as (u & t & l & c & ss & st & f & i & n & ->). cbn. auto.
Qed.

(** X9. In COOL, the pass in which the measured temperature is at or below
    100 degrees ends the run: it ends in COMPLETE with the process off, the
    relay LOW and the buzzer on, and sets the buzzer's deadline 1000 ms
    after the clock; above 100 degrees the state machine stays in COOL and
    the buzzer is left alone. *)
Theorem cooled_oven_completes (s : State) (e : Env) :
  reflowState (before_state_machine hw s e) = REFLOW_STATE_COOL ->
  ((input (before_state_machine hw s e) <= inject_Z TEMPERATURE_COOL_MIN)%Q ->
   reflowState (loop hw s e) = REFLOW_STATE_COMPLETE
   /\ reflowStatus (loop hw s e) = REFLOW_STATUS_OFF
   /\ ssrPin (loop hw s e) = false
   /\ buzzerPin (loop hw s e) = true
   /\ buzzerPeriod (loop hw s e) = u32 (millis (clock_fsm e) + 1000))
  /\ ((inject_Z TEMPERATURE_COOL_MIN < input (before_state_machine hw s e))%Q ->
      reflowState (after_state_machine hw s e) = REFLOW_STATE_COOL
      /\ buzzerPin (loop hw s e) = buzzerPin s).
Proof.
  intros Hst.
  destruct (loop_buzzer s e) as (-> & ->).
  destruct (before_state_machine_buzzer s e) as (Hb & _). rewrite <- Hb.
  split; intros H.
  - assert (Hsm : reflowState (after_state_machine hw s e)
                  = REFLOW_STATE_COMPLETE
                  /\ reflowStatus (after_state_machine hw s e)
                     = REFLOW_STATUS_OFF
                  /\ buzzerPin (after_state_machine hw s e) = true
                  /\ buzzerPeriod (after_state_machine hw s e)
                     = u32 (millis (clock_fsm e) + 1000)).
    { unfold after_state_machine, loop_state_machine. rewrite Hst.
      apply Qleb_true in H. rewrite H. cbn. auto. }
    destruct Hsm as (A & B & C & D).
    destruct (switch_action_off _ B) as (E1 & E2).
    assert (Hoff : reflowStatus (loop hw s e) = REFLOW_STATUS_OFF)
      by (rewrite loop_reflowStatus; exact E2).
    rewrite loop_reflowState, E1.
    auto using loop_ssrPin_off.
  - unfold after_state_machine, loop_state_machine. rewrite Hst.
    assert (Hn : Qleb (input (before_state_machine hw s e))
                   (inject_Z TEMPERATURE_COOL_MIN) = false).
    { unfold Qleb. apply Qgtb_true in H. unfold Qgtb in H.
      apply negb_true_iff in H. exact H. }
    rewrite Hn. auto.
Qed.

Lemma state_machine_buzzer (y : State) (e : Env) :
  buzzerPin (loop_state_machine hw y e) = buzzerPin y
  \/ (reflowState y = REFLOW_STATE_COOL
      /\ (input y <= inject_Z TEMPERATURE_COOL_MIN)%Q
      /\ buzzerPin (loop_state_machine hw y e) = true)
  \/ (reflowState y = REFLOW_STATE_COMPLETE
      /\ buzzerPeriod y < millis (clock_fsm e)
      /\ buzzerPin (loop_state_machine hw y e) = false).
Proof.
  state_machine_cases; cbn; auto.
  - right. left. repeat split; auto. apply Qleb_true. assumption.
  - right. right. repeat split; auto. apply gtb_true. assumption.
Qed.

(** X10. Only two places of the program touch the buzzer: a pass changes
    the buzzer pin only by switching it on when COOL reaches 100 degrees,
    or by switching it off in COMPLETE once its deadline has passed.  So
    when a thermocouple fault takes the state machine out of COMPLETE, the
    buzzer stays on until another run completes. *)
Theorem buzzer_changes_only_at_completion (s : State) (e : Env) :
  let y := before_state_machine hw s e in
  buzzerPin (loop hw s e) = buzzerPin s
  \/ (reflowState y = REFLOW_STATE_COOL
      /\ (input y <= inject_Z TEMPERATURE_COOL_MIN)%Q
      /\ buzzerPin (loop hw s e) = true)
  \/ (reflowState y = REFLOW_STATE_COMPLETE
      /\ buzzerPeriod s < millis (clock_fsm e)
      /\ buzzerPin (loop hw s e) = false).
Proof.
  cbv zeta. destruct (loop_buzzer s e) as (-> & _).
  destruct (before_state_machine_buzzer s e) as (Hb & Hp).
  rewrite <- Hb, <- Hp. unfold after_state_machine.
  apply state_machine_buzzer.
Qed.

(** ** Baking *)

Lemma read_thermocouple_no_fault (s : State) (e : Env) :
  fault_detected hw (u8 (readFault_sample e)) = false ->
  reflowState (after_sampling hw s e) = reflowState s.
Proof.
  intros Hf. unfold after_sampling, loop_read_thermocouple.
  destruct (millis (clock_read e) >? nextRead s); [|reflexivity].
  cbn. rewrite Hf. reflexivity.
Qed.

Lemma debounce_press_is_read (x : State) (e : Env) :
  switchStatus x = SWITCH_NONE ->
  switchStatus (loop_debounce x e) = SWITCH_NONE
  \/ switchStatus (loop_debounce x e) = readSwitch e.
Proof.
  intros Hn. unfold loop_debounce.
  destruct (debounceState x); cbn.
  - destruct (negb (switch_eqb (readSwitch e) SWITCH_NONE)); cbn; auto.
  - destruct (switch_eqb (readSwitch e) (switchMask x)) eqn:E;
      [destruct (_ >? _)|]; cbn; auto.
    right. destruct (readSwitch e), (switchMask x);
      try discriminate E; reflexivity.
  - destruct (switch_eqb (readSwitch e) SWITCH_NONE); cbn; auto.
Qed.

(** A validated press is the switch read in the pass that validates it. *)
Lemma loop_press_is_read (s : State) (e : Env) :
  switchStatus (loop hw s e) = SWITCH_NONE
  \/ switchStatus (loop hw s e) = readSwitch e.
Proof.
  destruct (debounce_view s e) as (x & _ & _ & _ & E4 & _ & _ & _ & ->).
  apply debounce_press_is_read. exact E4.
Qed.

Lemma bake_pass (s : State) (e : Env) :
  reflowState s = REFLOW_STATE_BAKE ->
  switchStatus s <> SWITCH_1 ->
  switchStartStopPin e = true ->
  fault_detected hw (u8 (readFault_sample e)) = false ->
  reflowState (loop hw s e) = REFLOW_STATE_BAKE
  /\ reflowStatus (loop hw s e) = REFLOW_STATUS_ON
  /\ pid_tunings (reflowOvenPID (loop hw s e)) = PID_BAKE
  /\ switchStatus (loop hw s e) <> SWITCH_1.
Proof.
  intros Hst Hsw Hpin Hf.
  assert (Hy : reflowState (before_state_machine hw s e) = REFLOW_STATE_BAKE).
  { rewrite before_state_machine_reflowState.
    rewrite read_thermocouple_no_fault; assumption. }
  assert (Hsm : reflowState (after_state_machine hw s e) = REFLOW_STATE_BAKE
                /\ reflowStatus (after_state_machine hw s e)
                   = REFLOW_STATUS_ON
                /\ pid_tunings (reflowOvenPID (after_state_machine hw s e))
                   = PID_BAKE).
  { unfold after_state_machine, loop_state_machine. rewrite Hy. cbn. auto. }
  destruct Hsm as (A & B & C).
  pose proof (after_state_machine_switch s e) as Esw.
  rewrite loop_reflowState, loop_reflowStatus, loop_reflowOvenPID.
  assert (Hact : reflowState (loop_switch_action (after_state_machine hw s e))
                 = REFLOW_STATE_BAKE
                 /\ reflowStatus
                      (loop_switch_action (after_state_machine hw s e))
                    = REFLOW_STATUS_ON).
  { revert A B Esw. generalize (after_state_machine hw s e). intros x A B Esw.
    unfold loop_switch_action. rewrite Esw.
    destruct (switchStatus s); try congruence; cbn; auto.
    rewrite A. cbn. auto. }
  destruct Hact as (D & E).
  repeat split; auto.
  destruct (loop_press_is_read s e) as [-> | ->]; [discriminate|].
  unfold readSwitch. rewrite Hpin. cbn.
  destruct (negb (switchLfPbPin e)); discriminate.
Qed.

(** X11. Baking has no end of its own: from BAKE with no start press
    pending, the oven is still in BAKE after any number of passes in which
    the start switch is not read pressed and the sampling block reads no
    fault, whatever the clock, the temperature and the other switch do;
    after the first such pass the process is on with the bake gains, and
    the set point is 120 degrees throughout. *)
Theorem bake_holds (s : State) (es : list Env) :
  reachable hw s ->
  reflowState s = REFLOW_STATE_BAKE ->
  switchStatus s <> SWITCH_1 ->
  Forall (fun e => switchStartStopPin e = true
                   /\ fault_detected hw (u8 (readFault_sample e)) = false)
    es ->
  reflowState (run hw s es) = REFLOW_STATE_BAKE
  /\ setpoint (run hw s es) = inject_Z TEMPERATURE_BAKE
  /\ (es <> [] ->
      reflowStatus (run hw s es) = REFLOW_STATUS_ON
      /\ pid_tunings (reflowOvenPID (run hw s es)) = PID_BAKE).
Proof.
  intros Hr Hst Hsw Hall.
  assert (H : reflowState (run hw s es) = REFLOW_STATE_BAKE
              /\ (es <> [] ->
                  reflowStatus (run hw s es) = REFLOW_STATUS_ON
                  /\ pid_tunings (reflowOvenPID (run hw s es)) = PID_BAKE)).
  { clear Hr. revert s Hst Hsw.
    induction Hall as [|e es (Hpin & Hf) Hrest IH]; intros s Hst Hsw; cbn.
    - split; [exact Hst | congruence].
    - destruct (bake_pass s e Hst Hsw Hpin Hf) as (A & B & C & D).
      destruct (IH (loop hw s e) A D) as (I1 & I2).
      split; [exact I1|]. intros _.
      destruct es as [|e' es'].
      + exact (conj B C).
      + apply I2. discriminate. }
  destruct H as (H1 & H2).
  pose proof (stage_ok_reachable _ (reachable_run s es Hr)) as (_ & Hk).
  rewrite H1 in Hk. destruct Hk as (Hsp & _).
  exact (conj H1 (conj Hsp H2)).
Qed.

(** ** The relay window *)

Lemma window_after_shift (now start size : Z) :
  0 <= size ->
  size < u32 (now - start) ->
  u32 (now - u32 (start + size)) = u32 (now - start) - size.
Proof.
  unfold u32. intros Hs Hgt.
  rewrite Zminus_mod_idemp_r.
  replace (now - (start + size)) with (now - start - size) by lia.
  rewrite <- Zminus_mod_idemp_l.
  pose proof (Z.mod_pos_bound (now - start) (2 ^ 32) ltac:(lia)).
  apply Z.mod_small. lia.
Qed.

Lemma before_ssr_control_windowSize (s : State) (e : Env) :
  windowSize (before_ssr_control hw s e) = windowSize s.
Proof.
  unfold before_ssr_control.
  transitivity (windowSize (after_state_machine hw s e)).
  - generalize (after_state_machine hw s e). intros x. writes. reflexivity.
  - unfold after_state_machine.
    transitivity (windowSize (before_state_machine hw s e)).
    + unfold loop_state_machine. split_ifs; reflexivity.
    + destruct (before_state_machine_writes s e)
        as (u & t & l & c & ss & st & f & i & n & ->). reflexivity.
Qed.

(** X12. While the process is on, the relay follows the PID output over
    the window of 2000 ms: with [elapsed] the time since the start of the
    window, taken back by one window when it exceeds 2000 ms (the window is
    moved once in a pass, not more), the pass sets the relay HIGH exactly
    when the output of the PID is above [elapsed].  An output of zero or
    less never drives the relay. *)
Theorem relay_follows_output (s : State) (e : Env) :
  reachable hw s ->
  reflowStatus (before_ssr_control hw s e) = REFLOW_STATUS_ON ->
  let since :=
    u32 (millis (clock_now e) - windowStartTime (before_ssr_control hw s e)) in
  let elapsed := if since >? 2000 then since - 2000 else since in
  output (loop hw s e) = pid_output e
  /\ (ssrPin (loop hw s e) = true <-> (inject_Z elapsed < pid_output e)%Q)
  /\ ((pid_output e <= 0)%Q -> ssrPin (loop hw s e) = false).
Proof.
  intros Hr Hon since elapsed.
  pose proof (stage_ok_reachable s Hr) as (Hw & _).
  rewrite <- (before_ssr_control_windowSize s e) in Hw.
  unfold loop. subst elapsed since. revert Hon Hw.
  generalize (before_ssr_control hw s e). intros a Hon Hw.
  assert (Hpin : ssrPin (loop_ssr_control a e)
                 = Qgtb (pid_output e)
                     (inject_Z
                        (if u32 (millis (clock_now e) - windowStartTime a)
                            >? 2000
                         then u32 (millis (clock_now e) - windowStartTime a)
                              - 2000
                         else u32 (millis (clock_now e) - windowStartTime a)))
                 /\ output (loop_ssr_control a e) = pid_output e).
  { unfold loop_ssr_control. rewrite Hon. cbn. rewrite Hw.
    destruct (u32 (millis (clock_now e) - windowStartTime a) >? 2000) eqn:E;
      cbn.
    - apply gtb_true in E.
      rewrite (window_after_shift _ _ 2000 ltac:(lia) E).
      split_ifs; cbn; auto.
    - split_ifs; cbn; auto. }
  destruct Hpin as (Hpin & Hout).
  split; [exact Hout|]. rewrite Hpin. split.
  - apply Qgtb_true.
  - intros Hle. apply Qgtb_false.
    apply Qle_trans with (y := 0%Q); [exact Hle|].
    change 0%Q with (inject_Z 0). rewrite <- Zle_Qle.
    pose proof (Z.mod_pos_bound
                  (millis (clock_now e) - windowStartTime a) (2 ^ 32)
                  ltac:(lia)) as Hb.
    fold (u32 (millis (clock_now e) - windowStartTime a)) in Hb.
    destruct (u32 (millis (clock_now e) - windowStartTime a) >? 2000) eqn:E.
    + apply gtb_true in E. lia.
    + lia.
Qed.

(** ** The periodic blocks *)

Lemma tail_periodic (a : State) (e : Env) :
  let z := loop_ssr_control (loop_debounce (loop_switch_action a) e) e in
  nextRead z = nextRead a
  /\ nextCheck z = nextCheck a
  /\ updateLcd z = updateLcd a.
Proof. cbv zeta. writes. cbn. auto. Qed.

Lemma state_machine_periodic (a : State) (e : Env) :
  nextRead (loop_state_machine hw a e) = nextRead a
  /\ nextCheck (loop_state_machine hw a e) = nextCheck a
  /\ updateLcd (loop_state_machine hw a e) = updateLcd a.
Proof. unfold loop_state_machine. split_ifs; cbn; auto. Qed.

Lemma loop_periodic_frames (s : State) (e : Env) :
  nextRead (loop hw s e) = nextRead (after_sampling hw s e)
  /\ nextCheck (loop hw s e)
     = nextCheck (loop_seconds_tick (after_sampling hw s e) e)
  /\ updateLcd (loop hw s e) = updateLcd (before_state_machine hw s e).
Proof.
  unfold loop, before_ssr_control, after_state_machine.
  destruct (tail_periodic
              (loop_state_machine hw (before_state_machine hw s e) e) e)
    as (-> & -> & ->).
  destruct (state_machine_periodic (before_state_machine hw s e) e)
    as (-> & -> & ->).
  unfold before_state_machine.
  generalize (after_sampling hw s e). intros a.
  destruct (update_lcd_writes (loop_seconds_tick a e) e) as (u & E).
  split; [|split; [|reflexivity]].
  - rewrite E. cbn.
    destruct (seconds_tick_writes a e) as (c & l & t & ->). reflexivity.
  - rewrite E. reflexivity.
Qed.

(** X13. The three periodic blocks of a pass (thermocouple sampling every
    1000 ms, the one-second tick, the display refresh every 100 ms) each run
    at most once in a pass, when the clock has passed their deadline, and
    move the deadline by exactly one period from where it was, in 32-bit
    arithmetic; nothing else in the pass writes the three deadlines. *)
Theorem periodic_deadlines_step (s : State) (e : Env) :
  nextRead (loop hw s e)
  = (if millis (clock_read e) >? nextRead s
     then u32 (nextRead s + SENSOR_SAMPLING_TIME) else nextRead s)
  /\ nextCheck (loop hw s e)
     = (if millis (clock_check e) >? nextCheck s
        then u32 (nextCheck s + SENSOR_SAMPLING_TIME) else nextCheck s)
  /\ updateLcd (loop hw s e)
     = (if millis (clock_lcd e) >? updateLcd s
        then u32 (updateLcd s + UPDATE_RATE) else updateLcd s).
Proof.
  destruct (loop_periodic_frames s e) as (-> & -> & ->).
  assert (Hs : nextRead (after_sampling hw s e)
               = (if millis (clock_read e) >? nextRead s
                  then u32 (nextRead s + SENSOR_SAMPLING_TIME)
                  else nextRead s)
               /\ nextCheck (after_sampling hw s e) = nextCheck s
               /\ updateLcd (after_sampling hw s e) = updateLcd s).
  { unfold after_sampling, loop_read_thermocouple.
    split_ifs; cbn; auto. }
  destruct Hs as (A & B & C).
  split; [exact A|]. rewrite <- B, <- C.
  unfold before_state_machine.
  generalize (after_sampling hw s e). intros a.
  assert (Ht : nextCheck (loop_seconds_tick a e)
               = (if millis (clock_check e) >? nextCheck a
                  then u32 (nextCheck a + SENSOR_SAMPLING_TIME)
                  else nextCheck a)
               /\ updateLcd (loop_seconds_tick a e) = updateLcd a).
  { unfold loop_seconds_tick. split_ifs; cbn; auto. }
  destruct Ht as (D & E). split; [exact D|]. rewrite <- E.
  generalize (loop_seconds_tick a e). intros b.
  unfold loop_update_lcd. split_ifs; reflexivity.
Qed.

(** ** The 32-bit clock *)

Lemma u32_elapsed (t0 t1 : Z) :
  0 <= t0 <= t1 ->
  t1 - t0 < 2 ^ 32 ->
  u32 (millis t1 - u32 (to_long (millis t0))) = t1 - t0.
Proof.
  intros H0 H1.
  rewrite u32_to_long. unfold millis at 2. rewrite u32_idem.
  unfold millis, u32.
  rewrite Zminus_mod_idemp_l, Zminus_mod_idemp_r.
  apply Z.mod_small. lia.
Qed.

(** X14. The debounce time is right across the roll-over of the millisecond
    clock.  A switch first read pressed at the true time [t0] and read again
    at the true time [t1], less than 2^32 ms later, is validated by the
    second pass exactly when more than 100 ms lie between the two, also when
    the 32-bit clock has rolled over in between: the time of line 910, taken
    by subtraction through the signed [lastDebounceTime], is [t1 - t0]. *)
Theorem elapsed_times_survive_rollover (s : State) (e0 e : Env) :
  debounceState s = DEBOUNCE_STATE_IDLE ->
  readSwitch e0 <> SWITCH_NONE ->
  readSwitch e = readSwitch e0 ->
  0 <= clock_debounce e0 <= clock_debounce e ->
  clock_debounce e - clock_debounce e0 < 2 ^ 32 ->
  let held := clock_debounce e - clock_debounce e0 in
  (DEBOUNCE_PERIOD_MIN < held ->
   switchStatus (loop hw (loop hw s e0) e) = readSwitch e0)
  /\ (held <= DEBOUNCE_PERIOD_MIN ->
      switchStatus (loop hw (loop hw s e0) e) = SWITCH_NONE
      /\ debounceState (loop hw (loop hw s e0) e) = DEBOUNCE_STATE_CHECK).
Proof.
  intros Hd Hp Hsame H0 H1 held. subst held.
  destruct (idle_press s e0 Hd Hp) as (A & B & C & _).
  pose proof (u32_elapsed _ _ H0 H1) as Hel. rewrite <- C in Hel.
  revert A B Hel. generalize (loop hw s e0). intros s1 A B Hel.
  rewrite <- B in Hsame.
  split; intros H.
  - rewrite <- B. apply (check_fire s1 e A Hsame). rewrite Hel. exact H.
  - destruct (check_wait s1 e A Hsame) as (D & _ & _ & E).
    + rewrite Hel. exact H.
    + auto.
Qed.

(** X15. The deadlines the program tests by comparison are not: when the
    soak sub-timer is re-armed less than one soak period before the clock
    rolls over, the new deadline wraps around and lies before the time at
    which it was armed, so that the sub-timer has already expired for every
    pass until the clock rolls over. *)
Theorem soak_deadline_wraps (s : State) (e : Env) :
  reflowState (before_state_machine hw s e) = REFLOW_STATE_SOAK ->
  timerSoak s < millis (clock_fsm e) ->
  0 <= soakMicroPeriod s < 2 ^ 32 ->
  2 ^ 32 <= millis (clock_rearm e) + soakMicroPeriod s ->
  timerSoak (loop hw s e)
  = millis (clock_rearm e) + soakMicroPeriod s - 2 ^ 32
  /\ timerSoak (loop hw s e) < millis (clock_rearm e).
Proof.
  intros Hst Hexp Hp Hwrap.
  assert (E : timerSoak (loop hw s e)
              = u32 (millis (clock_rearm e) + soakMicroPeriod s)).
  { rewrite loop_timerSoak. unfold after_state_machine.
    destruct (before_state_machine_writes s e)
      as (u & t & l & c & ss & st & f & i & n & Ey).
    rewrite Ey in *. cbn in Hst. subst st.
    unfold loop_state_machine. cbn.
    apply gtb_true in Hexp. rewrite Hexp. cbn. split_ifs; reflexivity. }
  rewrite E.
  pose proof (Z.mod_pos_bound (clock_rearm e) (2 ^ 32) ltac:(lia)) as Hb.
  fold (u32 (clock_rearm e)) in Hb. fold (millis (clock_rearm e)) in Hb.
  assert (Hu : u32 (millis (clock_rearm e) + soakMicroPeriod s)
               = millis (clock_rearm e) + soakMicroPeriod s - 2 ^ 32).
  { unfold u32 at 1.
    rewrite <- (Z.mod_add _ (-1) (2 ^ 32)) by lia.
    apply Z.mod_small. lia. }
  rewrite Hu. split; [reflexivity | lia].
Qed.

(** ** The display *)

(** X16. Every state has its entry in the table of status texts, and the
    text with its terminating zero fits the buffer of 8 bytes into which
    the display refresh copies it. *)
Theorem status_message_fits (st : reflowState_t) :
  exists m,
    Display.status_message st = Some m
    /\ (Display.strcpy_size m <= Display.txtBuffer_size)%nat.
Proof.
  destruct st; eexists; (split; [reflexivity | vm_compute; lia]).
Qed.

Lemma store_at_length (i : nat) (v : Z) (a : list Z) :
  length (store_at i v a) = length a.
Proof.
  revert i. induction a as [|h t IH]; intros [|i]; cbn; auto.
Qed.

Lemma store_at_same (i : nat) (v : Z) (a : list Z) :
  (i < length a)%nat -> nth i (store_at i v a) 0 = v.
Proof.
  revert i. induction a as [|h t IH]; intros [|i] H; cbn in *;
    try lia; auto. apply IH. lia.
Qed.

Lemma store_at_other (i j : nat) (v : Z) (a : list Z) :
  i <> j -> nth j (store_at i v a) 0 = nth j a 0.
Proof.
  revert i j. induction a as [|h t IH]; intros [|i] [|j] H; cbn;
    auto; try congruence.
Qed.

Lemma u8_small (x : Z) : 0 <= x < 256 -> u8 x = x.
Proof. intros H. unfold u8. apply Z.mod_small. lia. Qed.

Lemma plot_store_ok (r : Z) (p : Plot) :
  plot_ok p -> plot_ok (plot_store r p).
Proof.
  unfold plot_ok, plot_store, SCREEN_WIDTH, X_AXIS_START.
  intros (Hl & Hc & Hh & Ho & Hz).
  change (128 - 18) with 110 in *.
  destruct (xCnt p <? 110) eqn:E; cbn.
  - apply Z.ltb_lt in E. rewrite store_at_length, u8_small by lia.
    repeat split; try lia; auto.
  - apply Z.ltb_ge in E. rewrite store_at_length.
    rewrite (u8_small (xHead p + 1)), (u8_small (xScrollOffset p + 1))
      by lia.
    destruct (Z.eqb_spec (xHead p + 1) 110) as [E1|E1];
      (destruct (xScrollOffset p + 1 >? 19) eqn:E2;
       [apply gtb_true in E2 | apply gtb_false in E2]);
      repeat split; try lia.
Qed.

Lemma plot_update_ok (s : State) (r : Z) (p : Plot) :
  plot_ok p -> plot_ok (plot_update s r p).
Proof.
  intros H. unfold plot_update.
  destruct (reflowStatus s); [exact H|].
  destruct (timerSeconds s >? timerUpdate p); [|exact H].
  destruct (timerSeconds s mod 3 =? 0); [|exact H].
  apply plot_store_ok. exact H.
Qed.

Lemma plot_reset_ok (p : Plot) : plot_ok p -> plot_ok (plot_reset p).
Proof.
  unfold plot_ok, plot_reset, SCREEN_WIDTH, X_AXIS_START. cbn.
  intros (Hl & _). repeat split; auto; lia.
Qed.

Lemma plot_power_on_ok : plot_ok plot_power_on.
Proof.
  unfold plot_ok, plot_power_on, SCREEN_WIDTH, X_AXIS_START. cbn.
  repeat split; lia.
Qed.

(** X17. The plot never leaves its array nor the screen. From power-up and
    through every pass, the array keeps its 110 elements, [xCnt] is at most
    110, [xHead] is below 110 and is 0 until the array is full,
    [xScrollOffset] is at most 19; and the element a reading is stored at
    is inside the array, so the reading is found there afterwards. *)
Theorem plot_stays_in_bounds (s : State) (e : Env) (r : Z) (p : Plot) :
  plot_ok plot_power_on
  /\ (plot_ok p ->
      plot_ok (loop_plot hw s e r p)
      /\ plot_ok (plot_store r p)
      /\ let i := if xCnt p <? SCREEN_WIDTH - X_AXIS_START
                  then xCnt p else xHead p in
         0 <= i < Z.of_nat (length (temperature p))
         /\ nth (Z.to_nat i) (temperature (plot_store r p)) 0 = r).
Proof.
  split.
  - exact plot_power_on_ok.
  - intros H. split; [|split].
    + unfold loop_plot.
      destruct (run_starts (before_state_machine hw s e));
        [apply plot_reset_ok|];
        destruct (millis (clock_lcd e) >? updateLcd _);
        auto using plot_update_ok.
    + apply plot_store_ok. exact H.
    + unfold plot_ok, SCREEN_WIDTH, X_AXIS_START in H.
      destruct H as (Hl & Hc & Hh & Ho & Hz).
      unfold plot_store, SCREEN_WIDTH, X_AXIS_START.
      change (128 - 18) with 110 in *.
      destruct (xCnt p <? 110) eqn:E; cbn.
      * apply Z.ltb_lt in E. split; [lia|].
        apply store_at_same. lia.
      * split; [lia|]. apply store_at_same. lia.
Qed.

Lemma draw_from_values (n : nat) :
  forall (a : Z) (h : nat) (t : list Z),
    (h < 110)%nat ->
    map snd (draw_from n a (Z.of_nat h) t)
    = map (fun i => nth ((h + i) mod 110) t 0) (seq 0 n).
Proof.
  induction n as [|n IH]; intros a h t Hh.
  - reflexivity.
  - cbn [draw_from map seq snd].
    rewrite Nat2Z.id. f_equal.
    + rewrite Nat.add_0_r, Nat.mod_small by lia. reflexivity.
    + rewrite <- seq_shift, map_map.
      assert (Hn : (if u8 (Z.of_nat h + 1) =? SCREEN_WIDTH - X_AXIS_START
                    then 0 else u8 (Z.of_nat h + 1))
                   = Z.of_nat ((h + 1) mod 110)).
      { rewrite u8_small by lia.
        unfold SCREEN_WIDTH, X_AXIS_START. change (128 - 18) with 110.
        destruct (Z.of_nat h + 1 =? 110) eqn:E.
        - apply Z.eqb_eq in E.
          replace (h + 1)%nat with 110%nat by lia. reflexivity.
        - apply Z.eqb_neq in E. rewrite Nat.mod_small by lia. lia. }
      rewrite Hn, IH by (apply Nat.mod_upper_bound; lia).
      apply map_ext. intros i.
      rewrite Nat.Div0.add_mod_idemp_l.
      f_equal. f_equal. lia.
Qed.

Lemma draw_from_columns (n : nat) :
  forall (a : Z) (h : Z) (t : list Z),
    0 <= a -> a + Z.of_nat n <= 256 ->
    map fst (draw_from n a h t)
    = map (fun i => a + Z.of_nat i + X_AXIS_START) (seq 0 n).
Proof.
  induction n as [|n IH]; intros a h t Ha Hn.
  - reflexivity.
  - cbn [draw_from map seq fst]. f_equal.
    + f_equal. lia.
    + destruct n as [|n'].
      * reflexivity.
      * rewrite <- seq_shift, map_map, u8_small by lia.
        rewrite IH by lia. apply map_ext. intros i. lia.
Qed.

Lemma mod_110_step (h i : nat) :
  (h < 110 -> i < 109 -> (h + 1 + i) mod 110 <> h)%nat.
Proof.
  intros Hh Hi.
  pose proof (Nat.div_mod (h + 1 + i) 110 ltac:(lia)).
  pose proof (Nat.mod_upper_bound (h + 1 + i) 110 ltac:(lia)).
  lia.
Qed.

Lemma shift_window (g g' : nat -> Z) (n : nat) (r : Z) :
  (forall i, (i < n)%nat -> g' i = g (S i)) ->
  g' n = r ->
  map g' (seq 0 (S n)) = tl (map g (seq 0 (S n))) ++ [r].
Proof.
  intros Hg Hr.
  change (map g (seq 0 (S n))) with (g 0%nat :: map g (seq 1 n)).
  cbn [tl]. rewrite <- seq_shift, map_map.
  rewrite seq_S, map_app. cbn [map Nat.add]. rewrite Hr. f_equal.
  apply map_ext_in. intros i Hi. apply in_seq in Hi. apply Hg. lia.
Qed.

(** X18. The plot shows the stored readings in the order in which they
    were stored, the oldest on the left, one per column from column 18 on
    and inside the 128 columns of the screen: storing a reading appends it
    on the right of what is drawn and, once 110 readings are shown, drops
    the oldest one on the left. *)
Theorem plot_draws_readings_in_order (r : Z) (p : Plot) :
  plot_ok p ->
  map snd (drawn (plot_store r p))
  = (if xCnt p <? SCREEN_WIDTH - X_AXIS_START
     then map snd (drawn p) else tl (map snd (drawn p))) ++ [r]
  /\ map fst (drawn p)
     = map (fun i => Z.of_nat i + X_AXIS_START) (seq 0 (Z.to_nat (xCnt p)))
  /\ Forall (fun x => X_AXIS_START <= x < SCREEN_WIDTH) (map fst (drawn p)).
Proof.
  intros H.
  pose proof H as (Hl & Hc & Hh & Ho & Hz).
  unfold SCREEN_WIDTH, X_AXIS_START in *. change (128 - 18) with 110 in *.
  assert (Hcols : map fst (drawn p)
                  = map (fun i => Z.of_nat i + 18)
                      (seq 0 (Z.to_nat (xCnt p)))).
  { unfold drawn. rewrite draw_from_columns by lia.
    apply map_ext. intros i. unfold X_AXIS_START. lia. }
  split; [|split; [exact Hcols|]].
  - unfold drawn, plot_store, SCREEN_WIDTH, X_AXIS_START.
    change (128 - 18) with 110.
    destruct (xCnt p <? 110) eqn:E; cbn [xCnt xHead temperature].
    + apply Z.ltb_lt in E. rewrite (Hz E).
      change 0 with (Z.of_nat 0).
      rewrite !draw_from_values by lia.
      rewrite u8_small by lia.
      replace (Z.to_nat (xCnt p + 1)) with (S (Z.to_nat (xCnt p))) by lia.
      rewrite seq_S, map_app. cbn [map Nat.add]. f_equal.
      * apply map_ext_in. intros i Hi. apply in_seq in Hi.
        rewrite Nat.mod_small by lia. apply store_at_other. lia.
      * rewrite Nat.mod_small by lia. f_equal.
        apply store_at_same. lia.
    + apply Z.ltb_ge in E.
      assert (Ec : Z.to_nat (xCnt p) = 110%nat) by lia. rewrite Ec.
      assert (Eh : xHead p = Z.of_nat (Z.to_nat (xHead p))) by lia.
      remember (Z.to_nat (xHead p)) as h eqn:Hh'.
      assert (Hlt : (h < 110)%nat) by lia.
      rewrite Eh, u8_small by lia.
      assert (Hn : (if Z.of_nat h + 1 =? 110 then 0 else Z.of_nat h + 1)
                   = Z.of_nat ((h + 1) mod 110)).
      { destruct (Z.eqb_spec (Z.of_nat h + 1) 110) as [E1|E1].
        - replace (h + 1)%nat with 110%nat by lia. reflexivity.
        - rewrite Nat.mod_small by lia. lia. }
      rewrite Hn.
      rewrite !draw_from_values
        by (try apply Nat.mod_upper_bound; lia).
      change 110%nat with (S 109) at 1 3.
      apply shift_window.
      * intros i Hi.
        rewrite Nat.Div0.add_mod_idemp_l.
        rewrite store_at_other.
        -- f_equal. f_equal. lia.
        -- intros Heq. symmetry in Heq. revert Heq.
           apply mod_110_step; lia.
      * rewrite Nat.Div0.add_mod_idemp_l.
        replace (h + 1 + 109)%nat with (h + 1 * 110)%nat by lia.
        rewrite Nat.Div0.mod_add, Nat.mod_small by lia.
        apply store_at_same. lia.
  - rewrite Hcols. apply Forall_forall. intros x Hx.
    apply in_map_iff in Hx. destruct Hx as (i & <- & Hi).
    apply in_seq in Hi. lia.
Qed.

(** X19. A reading is stored in the plot only while the process is on and
    in a second that is a multiple of three, and once in that second
    however often the display is refreshed in it: a second refresh under
    the same globals changes nothing. *)
Theorem plot_stores_once_per_third_second (s : State) (r1 r2 : Z) (p : Plot) :
  plot_update s r2 (plot_update s r1 p) = plot_update s r1 p
  /\ (plot_update s r1 p <> p ->
      reflowStatus s = REFLOW_STATUS_ON
      /\ timerSeconds s mod 3 = 0
      /\ timerUpdate p < timerSeconds s
      /\ timerUpdate (plot_update s r1 p) = timerSeconds s).
Proof.
  assert (Hnone : forall r q,
             reflowStatus s = REFLOW_STATUS_OFF
             \/ (timerSeconds s >? timerUpdate q) = false
             \/ (timerSeconds s mod 3 =? 0) = false ->
             plot_update s r q = q).
  { intros r q Hq. unfold plot_update.
    destruct (reflowStatus s); [reflexivity|].
    destruct (timerSeconds s >? timerUpdate q); [|reflexivity].
    destruct (timerSeconds s mod 3 =? 0); [|reflexivity].
    destruct Hq as [Hq | [Hq | Hq]]; discriminate. }
  destruct (reflowStatus s) eqn:Es;
    [rewrite (Hnone r1 p), (Hnone r2 p) by auto;
     split; [reflexivity | congruence]|].
  destruct (timerSeconds s >? timerUpdate p) eqn:E1;
    [|rewrite (Hnone r1 p), (Hnone r2 p) by auto;
      split; [reflexivity | congruence]].
  destruct (timerSeconds s mod 3 =? 0) eqn:E2;
    [|rewrite (Hnone r1 p), (Hnone r2 p) by auto;
      split; [reflexivity | congruence]].
  assert (Ht : timerUpdate (plot_update s r1 p) = timerSeconds s).
  { unfold plot_update. rewrite Es, E1, E2.
    unfold plot_store. cbn. split_ifs; reflexivity. }
  split.
  - apply Hnone. right. left. rewrite Ht. apply gtb_false. lia.
  - intros _. apply gtb_true in E1. apply Z.eqb_eq in E2. auto.
Qed.

(** X20. The seconds counter of a run is an [unsigned int] and the plot
    stores a reading only when it is above the second of the last reading:
    once a reading has been stored in second 65535, the largest value of
    the counter, no reading is stored any more, whatever the counter does
    after it has wrapped around, until a new run clears the plot. *)
Theorem plot_freezes_after_65535_seconds (s : State) (r : Z) (p : Plot) :
  timerUpdate p = 65535 ->
  0 <= timerSeconds s < 2 ^ 16 ->
  plot_update s r p = p.
Proof.
  intros Hu Ht. unfold plot_update.
  destruct (reflowStatus s); [reflexivity|].
  assert (Hn : (timerSeconds s >? timerUpdate p) = false)
    by (apply gtb_false; lia).
  rewrite Hn. reflexivity.
Qed.

(** X21. The time markers under the plot stay between the temperature axis
    and the right edge of the screen: each is drawn at a column above 18
    and below 128. *)
Theorem time_markers_on_screen (p : Plot) :
  plot_ok p ->
  Forall (fun x => X_AXIS_START < x < SCREEN_WIDTH) (time_markers p).
Proof.
  unfold plot_ok, time_markers, SCREEN_WIDTH, X_AXIS_START.
  intros (_ & _ & _ & Ho & _).
  destruct (xScrollOffset p >? 10) eqn:E;
    [apply gtb_true in E | apply gtb_false in E];
    repeat constructor; lia.
Qed.

(** ** From PREHEAT to REFLOW *)

Lemma before_state_machine_stage (s : State) (e : Env) :
  let y := before_state_machine hw s e in
  setpoint y = setpoint s
  /\ timerSoak y = timerSoak s
  /\ soakTemperatureMax y = soakTemperatureMax s
  /\ reflowTemperatureMax y = reflowTemperatureMax s
  /\ soakMicroPeriod y = soakMicroPeriod s
  /\ reflowOvenPID y = reflowOvenPID s
  /\ reflowProfile y = reflowProfile s.
Proof.
  cbv zeta. destruct (before_state_machine_writes s e)
    as (u & t & l & c & ss & st & f & i & n & ->).
  cbn. repeat split.
Qed.

Lemma before_state_machine_keeps (s : State) (e : Env) :
  reflowState (before_state_machine hw s e) <> REFLOW_STATE_ERROR ->
  reflowState s = reflowState (before_state_machine hw s e).
Proof.
  rewrite before_state_machine_reflowState. intros H.
  destruct (read_thermocouple_keeps s e H) as (A & _). auto.
Qed.


Lemma multiple_of_5_in_window (a m : Z) :
  a mod 5 = 0 -> m mod 5 = 0 -> a <= m -> (m < a + 5 <-> a = m).
Proof.
  intros Ha Hm Hle. split; [|lia].
  intros Hlt.
  pose proof (Z.div_mod a 5 ltac:(lia)).
  pose proof (Z.div_mod m 5 ltac:(lia)).
  lia.
Qed.

(** X23. In SOAK the set point climbs by steps of 5 without overshooting:
    at the expiry of the sub-timer the state machine goes to REFLOW exactly
    when the set point has reached the soak maximum of the selected profile
    (200 lead-free, 180 leaded), and otherwise stays in SOAK with the set
    point one step higher and still at most that maximum. *)
Theorem soak_ends_at_soak_max (s : State) (e : Env) :
  reachable hw s ->
  reflowState (before_state_machine hw s e) = REFLOW_STATE_SOAK ->
  timerSoak s < millis (clock_fsm e) ->
  let top := inject_Z (profile_soak_max (reflowProfile s)) in
  ((setpoint s == top)%Q ->
   reflowState (after_state_machine hw s e) = REFLOW_STATE_REFLOW)
  /\ (~ (setpoint s == top)%Q ->
      reflowState (after_state_machine hw s e) = REFLOW_STATE_SOAK
      /\ setpoint (loop hw s e)
         = (setpoint s + inject_Z SOAK_TEMPERATURE_STEP)%Q
      /\ (setpoint (loop hw s e) <= top)%Q).
Proof.
  intros Hr Hst Hexp top. subst top.
  assert (Hs : reflowState s = REFLOW_STATE_SOAK).
  { rewrite (before_state_machine_keeps s e); [exact Hst|].
    rewrite Hst. discriminate. }
  pose proof (stage_ok_reachable s Hr) as (_ & Hk). rewrite Hs in Hk.
  destruct Hk as ((k & Hk1 & Hk) & Hle & (Hnb & Hmax & _) & _).
  rewrite Hmax in Hle.
  assert (Hiff : (inject_Z (profile_soak_max (reflowProfile s))
                  < setpoint s + inject_Z SOAK_TEMPERATURE_STEP)%Q
                 <-> (setpoint s
                      == inject_Z (profile_soak_max (reflowProfile s)))%Q).
  { rewrite Hk in *. rewrite <- inject_Z_plus.
    rewrite <- Zlt_Qlt, inject_Z_injective. rewrite <- Zle_Qle in Hle.
    unfold TEMPERATURE_SOAK_MIN, SOAK_TEMPERATURE_STEP in *.
    apply multiple_of_5_in_window; [| |exact Hle].
    - replace (150 + k * 5) with (0 + (30 + k) * 5) by lia.
      apply Z.mod_add. lia.
    - destruct (reflowProfile s); reflexivity. }
  rewrite loop_setpoint.
  destruct (before_state_machine_stage s e)
    as (Esp & Et & Em & _ & _ & _ & _).
  rewrite <- Hmax, <- Em, <- Esp in *. rewrite <- Et in Hexp.
  clear Hk Hle.
  unfold after_state_machine.
  revert Hst Hexp Hiff. generalize (before_state_machine hw s e).
  intros y Hst Hexp Hiff.
  unfold loop_state_machine. rewrite Hst.
  apply gtb_true in Hexp. rewrite Hexp. cbn.
  split; intros H.
  - apply Hiff in H. apply Qgtb_true in H. rewrite H. reflexivity.
  - assert (Hn : Qgtb (setpoint y + inject_Z SOAK_TEMPERATURE_STEP)
                   (inject_Z (soakTemperatureMax y)) = false).
    { destruct (Qgtb _ _) eqn:E; [|reflexivity].
      apply Qgtb_true in E. apply Hiff in E. contradiction. }
    rewrite Hn. cbn. split; [exact Hst|]. split; [reflexivity|].
    apply Qgtb_false. exact Hn.
Qed.

(** ** The start of a run *)

Lemma start_pass_off (s : State) (e : Env) :
  reachable hw s ->
  reflowState (before_state_machine hw s e) = REFLOW_STATE_IDLE ->
  (input (before_state_machine hw s e) < inject_Z TEMPERATURE_ROOM)%Q ->
  switchStatus s = SWITCH_1 ->
  reflowStatus (before_ssr_control hw s e) = REFLOW_STATUS_OFF.
Proof.
  intros Hr Hst Hcool Hsw.
  pose proof (reachable_consistent s Hr) as Hc.
  assert (Hoff : reflowStatus (before_state_machine hw s e)
                 = REFLOW_STATUS_OFF).
  { pose proof Hst as Hst'.
    rewrite before_state_machine_reflowState in Hst'.
    rewrite before_state_machine_reflowStatus.
    destruct (read_thermocouple_idle s e Hst') as (Hs & ->).
    apply consistent_idle_off; [exact Hc | rewrite Hs; reflexivity]. }
  assert (Hsw' : switchStatus (before_state_machine hw s e) = SWITCH_1)
    by (rewrite before_state_machine_switch; exact Hsw).
  destruct (state_machine_idle_start _ e Hst Hcool Hsw') as (_ & B).
  fold (after_state_machine hw s e) in B. rewrite Hoff in B.
  destruct (switch_action_off _ B) as (_ & D).
  unfold before_ssr_control. revert D.
  generalize (loop_switch_action (after_state_machine hw s e)).
  intros x D. writes. exact D.
Qed.

(** X24. The pass that starts a run starts its records afresh: it ends
    with the seconds counter at 0 and the relay window starting at the
    clock, and it leaves the plot empty, whatever was drawn before. *)
Theorem start_clears_run_records
  (s : State) (e : Env) (reading : Z) (p : Plot) :
  reachable hw s ->
  reflowState (before_state_machine hw s e) = REFLOW_STATE_IDLE ->
  (input (before_state_machine hw s e) < inject_Z TEMPERATURE_ROOM)%Q ->
  switchStatus s = SWITCH_1 ->
  timerSeconds (loop hw s e) = 0
  /\ windowStartTime (loop hw s e) = millis (clock_fsm e)
  /\ xCnt (loop_plot hw s e reading p) = 0
  /\ timerUpdate (loop_plot hw s e reading p) = 0
  /\ drawn (loop_plot hw s e reading p) = [].
Proof.
  intros Hr Hst Hcool Hsw.
  pose proof (start_pass_off s e Hr Hst Hcool Hsw) as Hoff.
  assert (Hsw' : switchStatus (before_state_machine hw s e) = SWITCH_1)
    by (rewrite before_state_machine_switch; exact Hsw).
  assert (Hstart : run_starts (before_state_machine hw s e) = true).
  { unfold run_starts. rewrite Hst, Hsw'.
    apply Qgeb_false in Hcool. rewrite Hcool. reflexivity. }
  assert (Hsm : timerSeconds (after_state_machine hw s e) = 0
                /\ windowStartTime (after_state_machine hw s e)
                   = millis (clock_fsm e)).
  { unfold after_state_machine, loop_state_machine. rewrite Hst.
    apply Qgeb_false in Hcool. rewrite Hcool, Hsw'.
    cbn. destruct (reflowProfile _); cbn; auto. }
  destruct Hsm as (A & B).
  assert (Hl : timerSeconds (loop hw s e) = 0
               /\ windowStartTime (loop hw s e) = millis (clock_fsm e)).
  { unfold loop. rewrite (ssr_control_off _ e Hoff).
    unfold before_ssr_control. revert A B.
    generalize (after_state_machine hw s e). intros x A B.
    writes. cbn. auto. }
  destruct Hl as (L1 & L2).
  unfold loop_plot. rewrite Hstart.
  repeat split; assumption.
Qed.

(** ** The switches *)

(** X25. The press a pass validates is the switch the pass reads, and the
    start switch is read first: a pass leaves a start press only if its
    start pin reads LOW, and a profile press only if its start pin reads
    HIGH and its profile pin LOW.  So when both switches are held the press
    is a start press, and no profile press is validated while the start
    switch is held. *)
Theorem press_matches_pins (s : State) (e : Env) :
  (switchStatus (loop hw s e) = SWITCH_1 -> switchStartStopPin e = false)
  /\ (switchStatus (loop hw s e) = SWITCH_2 ->
      switchStartStopPin e = true /\ switchLfPbPin e = false).
Proof.
  destruct (loop_press_is_read s e) as [-> | ->].
  - split; discriminate.
  - unfold readSwitch.
    destruct (switchStartStopPin e), (switchLfPbPin e); cbn;
      split; intros H; try discriminate; auto.
Qed.

End Properties.

(** * Concrete runs *)

(** Witness of C1: the pass after [setup()]. *)
Lemma ssr_off_when_status_off_witness :
  reflowStatus
    (before_ssr_control max31856 fresh (pass 3001 (25 # 1) true true 0))
  = REFLOW_STATUS_OFF
  /\ ssrPin (loop max31856 fresh (pass 3001 (25 # 1) true true 0)) = false.
Proof.
  split; [reflexivity |].
  apply (ssr_off_when_status_off max31856 fresh
           (pass 3001 (25 # 1) true true 0)).
  reflexivity.
Defined.

(** Witness of C7: the soaking oven, a pass after the sub-timer's
    deadline; the set point goes from 155 to 160. *)
Lemma soak_setpoint_steps_witness :
  reflowState (before_state_machine max31856 soaking late_pass)
  = REFLOW_STATE_SOAK
  /\ timerSoak soaking < millis (clock_fsm late_pass)
  /\ setpoint (loop max31856 soaking late_pass)
     = (setpoint soaking + inject_Z SOAK_TEMPERATURE_STEP)%Q.
Proof.
  assert (H1 : reflowState (before_state_machine max31856 soaking late_pass)
               = REFLOW_STATE_SOAK) by (vm_compute; reflexivity).
  assert (H2 : timerSoak soaking < millis (clock_fsm late_pass))
    by (vm_compute; reflexivity).
  assert (H3 : (setpoint soaking + inject_Z SOAK_TEMPERATURE_STEP
                <= inject_Z (soakTemperatureMax soaking))%Q)
    by (vm_compute; discriminate).
  split; [exact H1 | split; [exact H2 |]].
  destruct (soak_setpoint_steps max31856 soaking late_pass H1)
    as (_ & Hstep & _).
  destruct (Hstep H2 H3) as (Hsp & _). exact Hsp.
Defined.

(** Witness of C6 on the same pass: the window, started at 3103 ms and
    seen at 13500 ms, moves to 5103 ms; the sub-timer, due at 13002 ms,
    moves to 22500 ms. *)
Lemma window_rearms_from_start_soak_from_clock_witness :
  windowStartTime (loop max31856 soaking late_pass) = 5103
  /\ timerSoak (loop max31856 soaking late_pass) = 22500.
Proof.
  destruct (window_rearms_from_start_soak_from_clock max31856 soaking
              late_pass) as (Hw & Hs).
  split.
  - assert (Hon : reflowStatus (before_ssr_control max31856 soaking late_pass)
                  = REFLOW_STATUS_ON) by (vm_compute; reflexivity).
    destruct (Hw Hon) as (Hshift & _).
    rewrite Hshift; [reflexivity | vm_compute; reflexivity].
  - rewrite Hs; [reflexivity | reflexivity | vm_compute; reflexivity].
Defined.

(** Counterexample to C6 as stated: on that pass the new soak deadline is
    not the previous deadline plus one period (13002 + 9000 = 22002), it is
    the current time plus one period (22500). *)
Lemma soak_rearm_drifts :
  reflowState (before_state_machine max31856 soaking late_pass)
  = REFLOW_STATE_SOAK
  /\ timerSoak soaking < millis (clock_fsm late_pass)
  /\ timerSoak soaking + soakMicroPeriod soaking = 22002
  /\ timerSoak (loop max31856 soaking late_pass) = 22500
  /\ timerSoak (loop max31856 soaking late_pass)
     <> timerSoak soaking + soakMicroPeriod soaking.
Proof.
  repeat split; try reflexivity.
  vm_compute. discriminate.
Qed.

(** Witness of C2: an open-circuit fault at the first sampling after
    [setup()], still there when the ERROR case reads the fault byte again. *)
Lemma sampled_fault_forces_error_witness :
  reflowState (loop max31856 fresh (faulty_pass 3001 (25 # 1) 1 1))
  = REFLOW_STATE_ERROR
  /\ reflowStatus (loop max31856 fresh (faulty_pass 3001 (25 # 1) 1 1))
     = REFLOW_STATUS_OFF
  /\ ssrPin (loop max31856 fresh (faulty_pass 3001 (25 # 1) 1 1)) = false.
Proof.
  assert (H1 : nextRead fresh
               < millis (clock_read (faulty_pass 3001 (25 # 1) 1 1)))
    by (vm_compute; reflexivity).
  assert (H2 : fault_detected max31856
                 (u8 (readFault_sample (faulty_pass 3001 (25 # 1) 1 1)))
               = true) by (vm_compute; reflexivity).
  destruct (sampled_fault_forces_error max31856 fresh
              (faulty_pass 3001 (25 # 1) 1 1) H1 H2)
    as (_ & _ & Hoff & Hssr & Hst).
  repeat split; assumption.
Defined.

Lemma reachable_fresh : reachable max31856 fresh.
Proof. exact (reachable_setup max31856 0 3000 3000 3000). Qed.

(** Witness of C3: in ERROR, two passes that still read a fault, then a pass
    that reads none. *)
Lemma error_left_on_clean_reread_only_witness :
  reflowState
    (run max31856 errored
       [faulty_pass 3500 (25 # 1) 0 1; faulty_pass 4100 (25 # 1) 0 4])
  = REFLOW_STATE_ERROR
  /\ reflowState
       (loop max31856
          (run max31856 errored
             [faulty_pass 3500 (25 # 1) 0 1; faulty_pass 4100 (25 # 1) 0 4])
          (faulty_pass 5000 (25 # 1) 0 0))
     = REFLOW_STATE_IDLE.
Proof.
  assert (Hr : reachable max31856 errored)
    by (apply reachable_loop; exact reachable_fresh).
  assert (Hst : reflowState errored = REFLOW_STATE_ERROR)
    by (vm_compute; reflexivity).
  assert (Hall : Forall
                   (fun e' => fault_detected max31856 (u8 (readFault_error e'))
                              = true)
                   [faulty_pass 3500 (25 # 1) 0 1;
                    faulty_pass 4100 (25 # 1) 0 4])
    by (repeat constructor).
  destruct (error_left_on_clean_reread_only max31856 errored _
              (faulty_pass 5000 (25 # 1) 0 0) Hr Hst Hall)
    as (Hrun & _ & Hclean).
  split; [exact Hrun | apply Hclean; reflexivity].
Defined.

(** Witness of C5: in REFLOW with a start press pending, a pass that
    measures 246 degrees: the state machine goes to COOL, and the pass ends
    in IDLE with the process off. *)
Lemma start_press_cancels_witness :
  reflowState
    (after_state_machine max31856 reflowing_start_pending
       (pass 110102 (246 # 1) true true 0))
  = REFLOW_STATE_COOL
  /\ reflowStatus
       (loop max31856 reflowing_start_pending
          (pass 110102 (246 # 1) true true 0))
     = REFLOW_STATUS_OFF
  /\ reflowState
       (loop max31856 reflowing_start_pending
          (pass 110102 (246 # 1) true true 0))
     = REFLOW_STATE_IDLE.
Proof.
  assert (H1 : switchStatus reflowing_start_pending = SWITCH_1)
    by (vm_compute; reflexivity).
  assert (H2 : reflowStatus
                 (after_state_machine max31856 reflowing_start_pending
                    (pass 110102 (246 # 1) true true 0))
               = REFLOW_STATUS_ON) by (vm_compute; reflexivity).
  destruct (start_press_cancels max31856 reflowing_start_pending
              (pass 110102 (246 # 1) true true 0) H1 H2)
    as (Hoff & Hidle & _).
  split; [vm_compute; reflexivity | split; assumption].
Defined.

(** Witness of C8: in IDLE with a profile press pending, the lead-free
    profile becomes the leaded one and 1 is stored. *)
Lemma select_press_cycles_profile_witness :
  reflowProfile (loop max31856 select_pending (pass 3103 (25 # 1) true true 0))
  = REFLOW_PROFILE_LEADED
  /\ eeprom (loop max31856 select_pending (pass 3103 (25 # 1) true true 0))
     = 1.
Proof.
  assert (H1 : switchStatus select_pending = SWITCH_2)
    by (vm_compute; reflexivity).
  assert (H2 : reflowState
                 (after_state_machine max31856 select_pending
                    (pass 3103 (25 # 1) true true 0))
               = REFLOW_STATE_IDLE) by (vm_compute; reflexivity).
  destruct (select_press_cycles_profile max31856 select_pending
              (pass 3103 (25 # 1) true true 0) H1)
    as (Hnext & _).
  destruct (Hnext H2) as (Hp & He).
  split; [exact Hp | rewrite He, Hp; reflexivity].
Defined.

Lemma reachable_start_pending : reachable max31856 start_pending.
Proof. apply reachable_run. exact reachable_fresh. Qed.

(** Counterexample to C2 as stated: the soaking oven samples the
    thermocouple at 5001 ms and reads a fault byte with the cold-junction
    range bit (0x80); the sampling block sets ERROR, but the ERROR case of
    the state machine reads the fault byte again in the same pass (line
    812), finds it clean and sets IDLE (line 830): the pass does not end in
    ERROR.  The process is off and the relay LOW all the same. *)
Lemma transient_fault_ends_idle :
  reachable max31856 soaking
  /\ reflowState soaking = REFLOW_STATE_SOAK
  /\ nextRead soaking
     < millis (clock_read (faulty_pass 5001 (150 # 1) 128 0))
  /\ fault_detected max31856
       (u8 (readFault_sample (faulty_pass 5001 (150 # 1) 128 0))) = true
  /\ reflowState
       (after_sampling max31856 soaking (faulty_pass 5001 (150 # 1) 128 0))
     = REFLOW_STATE_ERROR
  /\ reflowState (loop max31856 soaking (faulty_pass 5001 (150 # 1) 128 0))
     = REFLOW_STATE_IDLE
  /\ reflowState (loop max31856 soaking (faulty_pass 5001 (150 # 1) 128 0))
     <> REFLOW_STATE_ERROR
  /\ reflowStatus (loop max31856 soaking (faulty_pass 5001 (150 # 1) 128 0))
     = REFLOW_STATUS_OFF
  /\ ssrPin (loop max31856 soaking (faulty_pass 5001 (150 # 1) 128 0))
     = false.
Proof.
  split.
  - unfold soaking, preheating. do 2 apply reachable_loop.
    exact reachable_start_pending.
  - repeat split; try (vm_compute; reflexivity).
    vm_compute. discriminate.
Qed.

(** Witness of C9: in IDLE with a start press pending, a pass that measures
    60 degrees goes to TOO_HOT and starts nothing. *)
Lemma too_hot_before_start_witness :
  switchStatus start_pending = SWITCH_1
  /\ reflowState
       (loop max31856 start_pending (pass 4001 (60 # 1) true true 0))
     = REFLOW_STATE_TOO_HOT
  /\ reflowStatus
       (loop max31856 start_pending (pass 4001 (60 # 1) true true 0))
     = REFLOW_STATUS_OFF.
Proof.
  assert (H1 : reflowState
                 (before_state_machine max31856 start_pending
                    (pass 4001 (60 # 1) true true 0))
               = REFLOW_STATE_IDLE) by (vm_compute; reflexivity).
  assert (H2 : (inject_Z TEMPERATURE_ROOM
                <= input (before_state_machine max31856 start_pending
                            (pass 4001 (60 # 1) true true 0)))%Q)
    by (vm_compute; discriminate).
  destruct (too_hot_before_start max31856 start_pending
              (pass 4001 (60 # 1) true true 0) reachable_start_pending)
    as (Hhot & _).
  destruct (Hhot H1 H2) as (_ & Hst & Hoff).
  split; [vm_compute; reflexivity | split; assumption].
Defined.

(** Witness of C10: the same pending press consumed at 25 degrees starts
    the lead-free run; the process is off and the relay LOW in that pass,
    and on in the next. *)
Lemma start_press_does_not_cancel_its_run_witness :
  reflowState (loop max31856 start_pending (pass 3103 (25 # 1) true true 0))
  = REFLOW_STATE_PREHEAT
  /\ reflowStatus
       (loop max31856 start_pending (pass 3103 (25 # 1) true true 0))
     = REFLOW_STATUS_OFF
  /\ ssrPin (loop max31856 start_pending (pass 3103 (25 # 1) true true 0))
     = false
  /\ reflowStatus
       (loop max31856
          (loop max31856 start_pending (pass 3103 (25 # 1) true true 0))
          (pass 3200 (25 # 1) true true 0))
     = REFLOW_STATUS_ON.
Proof.
  assert (H1 : reflowState
                 (before_state_machine max31856 start_pending
                    (pass 3103 (25 # 1) true true 0))
               = REFLOW_STATE_IDLE) by (vm_compute; reflexivity).
  assert (H2 : (input (before_state_machine max31856 start_pending
                         (pass 3103 (25 # 1) true true 0))
                < inject_Z TEMPERATURE_ROOM)%Q)
    by (vm_compute; reflexivity).
  assert (H3 : switchStatus start_pending = SWITCH_1)
    by (vm_compute; reflexivity).
  destruct (start_press_does_not_cancel_its_run max31856 start_pending
              (pass 3103 (25 # 1) true true 0)
              (pass 3200 (25 # 1) true true 0)
              reachable_start_pending H1 H2 H3)
    as (Hst & _ & Hoff & _ & _ & Hssr & _ & Hnext).
  destruct Hnext as (_ & Hon); [vm_compute; reflexivity|].
  repeat split; assumption.
Defined.

(** Witness of C4: the start switch read from 3001 ms on; the passes at
    3050 ms and 3101 ms (100 ms after the first) leave no press, the pass at
    3102 ms leaves the press, the passes at 5000 ms (start still held) and
    9000 ms (the other switch held) leave none, and the pass at 9100 ms
    reads no switch. *)
Lemma debounce_one_press_per_hold_witness :
  presses max31856 fresh
    (pass 3001 (25 # 1) false true 0
     :: [pass 3050 (25 # 1) false true 0; pass 3101 (25 # 1) false true 0]
     ++ pass 3102 (25 # 1) false true 0
     :: [pass 5000 (25 # 1) false true 0; pass 9000 (25 # 1) true false 0]
     ++ [pass 9100 (25 # 1) true true 0])
  = [SWITCH_NONE; SWITCH_NONE; SWITCH_NONE; SWITCH_1;
     SWITCH_NONE; SWITCH_NONE; SWITCH_NONE].
Proof.
  assert (Hd : debounceState fresh = DEBOUNCE_STATE_IDLE)
    by (vm_compute; reflexivity).
  assert (Hv : SWITCH_1 <> SWITCH_NONE) by discriminate.
  assert (H0 : readSwitch (pass 3001 (25 # 1) false true 0) = SWITCH_1)
    by (vm_compute; reflexivity).
  assert (H1 : Forall
                 (fun e => readSwitch e = SWITCH_1
                           /\ debounce_elapsed
                                (pass 3001 (25 # 1) false true 0) e
                              <= DEBOUNCE_PERIOD_MIN)
                 [pass 3050 (25 # 1) false true 0;
                  pass 3101 (25 # 1) false true 0])
    by (repeat constructor; vm_compute; discriminate).
  destruct (debounce_one_press_per_hold max31856 fresh SWITCH_1
              (pass 3001 (25 # 1) false true 0)
              [pass 3050 (25 # 1) false true 0;
               pass 3101 (25 # 1) false true 0]
              (pass 3102 (25 # 1) false true 0)
              [pass 5000 (25 # 1) false true 0;
               pass 9000 (25 # 1) true false 0]
              (pass 9100 (25 # 1) true true 0) Hd Hv H0 H1)
    as (_ & _ & Hfire).
  destruct Hfire as (Hp & _).
  - reflexivity.
  - vm_compute. reflexivity.
  - repeat constructor; discriminate.
  - reflexivity.
  - exact Hp.
Defined.

(** Counterexample to C4 as stated: the start switch is read in three
    passes that span 100 ms and is released after; no pass leaves a
    validated press, where the claim has exactly one. *)
Lemma held_100ms_no_press :
  Forall (fun e => readSwitch e = SWITCH_1)
    [pass 3001 (25 # 1) false true 0; pass 3051 (25 # 1) false true 0;
     pass 3101 (25 # 1) false true 0]
  /\ debounce_elapsed (pass 3001 (25 # 1) false true 0)
       (pass 3101 (25 # 1) false true 0) = 100
  /\ readSwitch (pass 3102 (25 # 1) true true 0) = SWITCH_NONE
  /\ debounceState fresh = DEBOUNCE_STATE_IDLE
  /\ presses max31856 fresh
       [pass 3001 (25 # 1) false true 0; pass 3051 (25 # 1) false true 0;
        pass 3101 (25 # 1) false true 0; pass 3102 (25 # 1) true true 0]
     = [SWITCH_NONE; SWITCH_NONE; SWITCH_NONE; SWITCH_NONE]
  /\ count_presses
       (presses max31856 fresh
          [pass 3001 (25 # 1) false true 0; pass 3051 (25 # 1) false true 0;
           pass 3101 (25 # 1) false true 0; pass 3102 (25 # 1) true true 0])
     = 0%nat.
Proof.
  repeat split; try reflexivity.
  repeat constructor.
Qed.

(** * Concrete runs of the further properties *)

Lemma reachable_preheating : reachable max31856 preheating.
Proof. apply reachable_loop. exact reachable_start_pending. Qed.

Lemma reachable_soaking : reachable max31856 soaking.
Proof. apply reachable_loop. exact reachable_preheating. Qed.

Lemma reachable_reflowing : reachable max31856 reflowing.
Proof. apply reachable_run. exact reachable_soaking. Qed.

Lemma reachable_heating : reachable max31856 heating.
Proof. apply reachable_loop. exact reachable_preheating. Qed.

Lemma reachable_profile_selected : reachable max31856 profile_selected.
Proof. apply reachable_loop, reachable_run. exact reachable_fresh. Qed.

Lemma reachable_baking : reachable max31856 baking.
Proof. apply reachable_run. exact reachable_profile_selected. Qed.

(** Witness of X1: preheating with the relay HIGH. *)
Lemma relay_on_only_when_driven_witness :
  ssrPin heating = true
  /\ reflowStatus heating = REFLOW_STATUS_ON
  /\ running (reflowState heating) = true.
Proof.
  assert (H : ssrPin heating = true) by (vm_compute; reflexivity).
  split; [exact H|].
  exact (relay_on_only_when_driven max31856 heating reachable_heating H).
Defined.

(** Witness of X2: after the profile press, the leaded profile and its
    byte 1. *)
Lemma eeprom_holds_profile_witness :
  reflowProfile profile_selected = REFLOW_PROFILE_LEADED
  /\ eeprom profile_selected
     = byte_of_profile (reflowProfile profile_selected).
Proof.
  split; [vm_compute; reflexivity|].
  exact (eeprom_holds_profile max31856 profile_selected
           reachable_profile_selected).
Defined.

(** Witness of X3: the bake profile is found again by [setup()]. *)
Lemma profile_survives_power_cycle_witness :
  reflowProfile baking = REFLOW_PROFILE_BAKE
  /\ reflowProfile (setup (eeprom baking) 3000 3000 3000)
     = reflowProfile baking.
Proof.
  split; [vm_compute; reflexivity|].
  exact (proj1 (profile_survives_power_cycle max31856 baking 3000 3000 3000
                  reachable_baking)).
Defined.

(** Witness of X4: the pass that ends in SOAK started in PREHEAT. *)
Lemma stages_in_order_witness :
  reflowState soaking = REFLOW_STATE_SOAK
  /\ (reflowState preheating = REFLOW_STATE_SOAK
      \/ reflowState preheating = REFLOW_STATE_PREHEAT).
Proof.
  assert (H : reflowState
                (loop max31856 preheating
                   (pass 4002 (150 # 1) true true 0))
              = REFLOW_STATE_SOAK) by (vm_compute; reflexivity).
  split; [exact H|].
  destruct (stages_in_order max31856 preheating
              (pass 4002 (150 # 1) true true 0))
    as (_ & _ & Hsoak & _).
  exact (Hsoak H).
Defined.

(** Witness of X5 and X6: the lead-free run in REFLOW, set point 250. *)
Lemma run_keeps_stage_witness :
  reflowState reflowing = REFLOW_STATE_REFLOW /\ stage_ok reflowing.
Proof.
  split; [vm_compute; reflexivity|].
  exact (run_keeps_stage max31856 reflowing reachable_reflowing).
Defined.

Lemma setpoint_within_limits_witness :
  (inject_Z TEMPERATURE_COOL_MIN <= setpoint reflowing
   <= inject_Z TEMPERATURE_REFLOW_MAX_LF)%Q.
Proof.
  apply (setpoint_within_limits max31856 reflowing reachable_reflowing).
  vm_compute. reflexivity.
Defined.

(** Witness of X7: 246 degrees in the lead-free REFLOW. *)
Lemma reflow_peak_threshold_witness :
  reflowState
    (after_state_machine max31856 reflowing
       (pass 110000 (246 # 1) true true 0))
  = REFLOW_STATE_COOL.
Proof.
  assert (H1 : reflowState
                 (before_state_machine max31856 reflowing
                    (pass 110000 (246 # 1) true true 0))
               = REFLOW_STATE_REFLOW) by (vm_compute; reflexivity).
  destruct (reflow_peak_threshold max31856 reflowing
              (pass 110000 (246 # 1) true true 0) reachable_reflowing H1)
    as (Hcool & _).
  destruct Hcool as (Hst & _); [vm_compute; discriminate | exact Hst].
Defined.

(** Witness of X8: the run started after a cancelled one preheats with the
    reflow gains. *)
Lemma preheat_gains_never_set_witness :
  reflowState
    (loop max31856 second_start_pending (pass 111202 (25 # 1) true true 0))
  = REFLOW_STATE_PREHEAT
  /\ pid_tunings
       (reflowOvenPID
          (loop max31856 second_start_pending
             (pass 111202 (25 # 1) true true 0)))
     = PID_REFLOW.
Proof.
  split; [vm_compute; reflexivity|].
  destruct (preheat_gains_never_set max31856 second_start_pending
              (pass 111202 (25 # 1) true true 0)) as (_ & Hkeep).
  rewrite Hkeep; vm_compute; reflexivity.
Defined.

(** Witness of X9: the cooling oven measures 100 degrees. *)
Lemma cooled_oven_completes_witness :
  reflowState (loop max31856 cooling (pass 200000 (100 # 1) true true 0))
  = REFLOW_STATE_COMPLETE
  /\ buzzerPin (loop max31856 cooling (pass 200000 (100 # 1) true true 0))
     = true.
Proof.
  assert (H1 : reflowState
                 (before_state_machine max31856 cooling
                    (pass 200000 (100 # 1) true true 0))
               = REFLOW_STATE_COOL) by (vm_compute; reflexivity).
  destruct (cooled_oven_completes max31856 cooling
              (pass 200000 (100 # 1) true true 0) H1) as (Hdone & _).
  destruct Hdone as (A & _ & _ & B & _); [vm_compute; discriminate|].
  exact (conj A B).
Defined.

(** Witness of X11: baking through three passes, the profile switch held
    in two of them, 200 degrees measured in the last. *)
Lemma bake_holds_witness :
  reflowState
    (run max31856 baking
       [pass 4000 (30 # 1) true true 0; pass 5000 (120 # 1) true false 0;
        pass 90000 (200 # 1) true false 2000])
  = REFLOW_STATE_BAKE.
Proof.
  assert (H1 : reflowState baking = REFLOW_STATE_BAKE)
    by (vm_compute; reflexivity).
  assert (H2 : switchStatus baking <> SWITCH_1)
    by (vm_compute; discriminate).
  refine (proj1 (bake_holds max31856 baking _ reachable_baking H1 H2 _)).
  repeat constructor.
Defined.

(** Witness of X12: the preheating pass of X1, 899 ms into the window with
    the output at 2000. *)
Lemma relay_follows_output_witness :
  ssrPin (loop max31856 preheating (pass 4002 (100 # 1) true true 2000))
  = true.
Proof.
  assert (H1 : reflowStatus
                 (before_ssr_control max31856 preheating
                    (pass 4002 (100 # 1) true true 2000))
               = REFLOW_STATUS_ON) by (vm_compute; reflexivity).
  destruct (relay_follows_output max31856 preheating
              (pass 4002 (100 # 1) true true 2000)
              reachable_preheating H1) as (_ & Hiff & _).
  apply Hiff. vm_compute. reflexivity.
Defined.

(** Witness of X14: the start switch read pressed 50 ms before the
    roll-over and again 60 ms after it. *)
Lemma elapsed_times_survive_rollover_witness :
  millis (clock_debounce rollover_press_end) = 60
  /\ switchStatus
       (loop max31856 (loop max31856 fresh rollover_press_begin)
          rollover_press_end)
     = SWITCH_1.
Proof.
  split; [vm_compute; reflexivity|].
  assert (H1 : debounceState fresh = DEBOUNCE_STATE_IDLE)
    by (vm_compute; reflexivity).
  assert (H2 : readSwitch rollover_press_begin <> SWITCH_NONE)
    by (vm_compute; discriminate).
  assert (H3 : readSwitch rollover_press_end
               = readSwitch rollover_press_begin)
    by (vm_compute; reflexivity).
  assert (H4 : 0 <= clock_debounce rollover_press_begin
               <= clock_debounce rollover_press_end)
    by (vm_compute; split; discriminate).
  assert (H5 : clock_debounce rollover_press_end
               - clock_debounce rollover_press_begin < 2 ^ 32)
    by (vm_compute; reflexivity).
  destruct (elapsed_times_survive_rollover max31856 fresh
              rollover_press_begin rollover_press_end H1 H2 H3 H4 H5)
    as (Hfire & _).
  rewrite Hfire; vm_compute; reflexivity.
Defined.

Lemma reachable_soaking_before_rollover :
  reachable max31856 soaking_before_rollover.
Proof. apply reachable_run. exact reachable_fresh. Qed.

(** Witness of X15: re-armed 9 s before the roll-over with the lead-free
    period of 9 s, the soak deadline is 0. *)
Lemma soak_deadline_wraps_witness :
  timerSoak (loop max31856 soaking_before_rollover pass_before_rollover) = 0
  /\ timerSoak (loop max31856 soaking_before_rollover pass_before_rollover)
     < millis (clock_rearm pass_before_rollover).
Proof.
  assert (H1 : reflowState
                 (before_state_machine max31856 soaking_before_rollover
                    pass_before_rollover)
               = REFLOW_STATE_SOAK) by (vm_compute; reflexivity).
  assert (H2 : timerSoak soaking_before_rollover
               < millis (clock_fsm pass_before_rollover))
    by (vm_compute; reflexivity).
  assert (H3 : 0 <= soakMicroPeriod soaking_before_rollover < 2 ^ 32)
    by (vm_compute; split; [discriminate | reflexivity]).
  assert (H4 : 2 ^ 32
               <= millis (clock_rearm pass_before_rollover)
                  + soakMicroPeriod soaking_before_rollover)
    by (vm_compute; discriminate).
  destruct (soak_deadline_wraps max31856 soaking_before_rollover
              pass_before_rollover H1 H2 H3 H4) as (A & B).
  split; [rewrite A; vm_compute; reflexivity | exact B].
Defined.

(** Witness of X17: the first reading stored after power-up is at element
    0 of the array. *)
Lemma plot_stays_in_bounds_witness :
  plot_ok (plot_store 40 plot_power_on)
  /\ nth 0 (temperature (plot_store 40 plot_power_on)) 0 = 40.
Proof.
  destruct (plot_stays_in_bounds max31856 fresh
              (pass 3001 (25 # 1) true true 0) 40 plot_power_on)
    as (H0 & H).
  destruct (H H0) as (_ & Hok & _ & Hnth).
  exact (conj Hok Hnth).
Defined.

(** Witness of X18: two readings stored after power-up are drawn in
    columns 18 and 19, in their order. *)
Lemma plot_draws_readings_in_order_witness :
  drawn (plot_store 41 (plot_store 40 plot_power_on)) = [(18, 40); (19, 41)]
  /\ map snd (drawn (plot_store 41 (plot_store 40 plot_power_on)))
     = map snd (drawn (plot_store 40 plot_power_on)) ++ [41].
Proof.
  split; [vm_compute; reflexivity|].
  assert (Hok : plot_ok (plot_store 40 plot_power_on))
    by (apply plot_store_ok; exact plot_power_on_ok).
  exact (proj1 (plot_draws_readings_in_order 41 _ Hok)).
Defined.

(** Witness of X19: in the third second of the soaking run a reading is
    stored, and a second refresh in that second stores nothing. *)
Lemma plot_stores_once_per_third_second_witness :
  plot_update third_second 40 plot_power_on <> plot_power_on
  /\ timerSeconds third_second mod 3 = 0
  /\ plot_update third_second 41 (plot_update third_second 40 plot_power_on)
     = plot_update third_second 40 plot_power_on.
Proof.
  assert (H : plot_update third_second 40 plot_power_on <> plot_power_on)
    by (vm_compute; discriminate).
  destruct (plot_stores_once_per_third_second third_second 40 41
              plot_power_on) as (Hidem & Hwhen).
  destruct (Hwhen H) as (_ & Hmod & _).
  exact (conj H (conj Hmod Hidem)).
Defined.

(** Witness of X20: a plot whose last reading is of second 65535, with the
    counter wrapped around to 3. *)
Lemma plot_freezes_after_65535_seconds_witness :
  plot_update third_second 40 (mkPlot 65535 (repeat 0 110%nat) 0 110 0)
  = mkPlot 65535 (repeat 0 110%nat) 0 110 0.
Proof.
  apply plot_freezes_after_65535_seconds.
  - reflexivity.
  - vm_compute. split; [discriminate | reflexivity].
Defined.

(** Witness of X21: the markers of the plot at power-up. *)
Lemma time_markers_on_screen_witness :
  Forall (fun x => X_AXIS_START < x < SCREEN_WIDTH)
    (time_markers plot_power_on).
Proof. exact (time_markers_on_screen plot_power_on plot_power_on_ok). Defined.


Lemma reachable_soak_top : reachable max31856 soak_top.
Proof. apply reachable_run. exact reachable_soaking. Qed.

(** Witness of X23: the tenth expiry finds the set point at 200. *)
Lemma soak_ends_at_soak_max_witness :
  (setpoint soak_top == 200 # 1)%Q
  /\ reflowState (after_state_machine max31856 soak_top last_expiry)
     = REFLOW_STATE_REFLOW.
Proof.
  assert (H0 : (setpoint soak_top == 200 # 1)%Q)
    by (vm_compute; reflexivity).
  split; [exact H0|].
  assert (H1 : reflowState
                 (before_state_machine max31856 soak_top last_expiry)
               = REFLOW_STATE_SOAK) by (vm_compute; reflexivity).
  assert (H2 : timerSoak soak_top < millis (clock_fsm last_expiry))
    by (vm_compute; reflexivity).
  destruct (soak_ends_at_soak_max max31856 soak_top last_expiry
              reachable_soak_top H1 H2) as (Hup & _).
  apply Hup. vm_compute. reflexivity.
Defined.

(** Witness of X24: the start press consumed at 3103 ms, with one reading
    in the plot. *)
Lemma start_clears_run_records_witness :
  drawn (plot_store 40 plot_power_on) = [(18, 40)]
  /\ drawn
       (loop_plot max31856 start_pending (pass 3103 (25 # 1) true true 0)
          41 (plot_store 40 plot_power_on))
     = []
  /\ windowStartTime
       (loop max31856 start_pending (pass 3103 (25 # 1) true true 0))
     = 3103.
Proof.
  split; [vm_compute; reflexivity|].
  assert (H1 : reflowState
                 (before_state_machine max31856 start_pending
                    (pass 3103 (25 # 1) true true 0))
               = REFLOW_STATE_IDLE) by (vm_compute; reflexivity).
  assert (H2 : (input
                  (before_state_machine max31856 start_pending
                     (pass 3103 (25 # 1) true true 0))
                < inject_Z TEMPERATURE_ROOM)%Q)
    by (vm_compute; reflexivity).
  assert (H3 : switchStatus start_pending = SWITCH_1)
    by (vm_compute; reflexivity).
  destruct (start_clears_run_records max31856 start_pending
              (pass 3103 (25 # 1) true true 0) 41
              (plot_store 40 plot_power_on) reachable_start_pending
              H1 H2 H3) as (_ & A & _ & _ & B).
  split; [exact B | rewrite A; vm_compute; reflexivity].
Defined.

(** Witness of X25: with both switches held the validated press is the
    start press. *)
Lemma press_matches_pins_witness :
  switchStatus (loop max31856 start_held both_held) = SWITCH_1
  /\ switchStartStopPin both_held = false.
Proof.
  assert (H : switchStatus (loop max31856 start_held both_held) = SWITCH_1)
    by (vm_compute; reflexivity).
  split; [exact H|].
  exact (proj1 (press_matches_pins max31856 start_held both_held) H).
Defined.
